(** * Resume-to-job matching: scoring, ranking, demand statistics, validation

    A shallow embedding of the matching logic of the workshop application
    ([04_module/app/tools.py] and [04_module/app/ai_agent.py]) together with
    the properties its specification states about it.

    Conventions of the embedding.
    - A Python [str] is a [string]; its characters are the code points
      0..255, on which [str.lower], [str.strip] and [str.split] are written
      out below as Python defines them on that range.
    - A Python [int] is a [Z]; a Python [float] is a binary64 [float].
    - A cell of a pandas row is [Absent] (the column does not exist), [NaN]
      (a missing value) or [Text s]; the table is the list of its rows, in
      order, and has at least one column, so that [df.empty] is the
      emptiness of that list.
    - A Python [dict] with string keys is an association list in insertion
      order; an exception is the [Raise] branch of [result]. *)

From Stdlib Require Import List String Ascii ZArith Lia Bool Arith.
From Stdlib Require Import Sorting.Sorted Sorting.Permutation DecimalString.
From Stdlib Require Uint63.
From Stdlib Require Import PrimFloat FloatOps SpecFloat.
Import ListNotations.

Local Open Scope string_scope.
Local Open Scope list_scope.

(** ** Python strings *)

Module PyStr.

(** [str.isspace] on one character. *)
Definition is_space (c : ascii) : bool :=
  let n := nat_of_ascii c in
  (((9 <=? n) && (n <=? 13)) || ((28 <=? n) && (n <=? 32))
   || (n =? 133) || (n =? 160))%nat.

(** [str.lower] on one character: A-Z and the Latin-1 capitals. *)
Definition lower_char (c : ascii) : ascii :=
  let n := nat_of_ascii c in
  if (((65 <=? n) && (n <=? 90))
      || ((192 <=? n) && (n <=? 222) && negb (n =? 215)))%nat
  then ascii_of_nat (n + 32) else c.

Fixpoint lower (s : string) : string :=
  match s with
  | EmptyString => EmptyString
  | String c s' => String (lower_char c) (lower s')
  end.

Fixpoint lstrip (s : string) : string :=
  match s with
  | EmptyString => EmptyString
  | String c s' => if is_space c then lstrip s' else s
  end.

Fixpoint rstrip (s : string) : string :=
  match s with
  | EmptyString => EmptyString
  | String c s' =>
      match rstrip s' with
      | EmptyString => if is_space c then EmptyString else String c EmptyString
      | r => String c r
      end
  end.

(** [s.strip()] *)
Definition strip (s : string) : string := rstrip (lstrip s).

(** Truth value of a string: [bool(s)]. *)
Definition truthy (s : string) : bool :=
  match s with EmptyString => false | _ => true end.

(** [s.split()]: the maximal runs of non-space characters, [cur] being the
    run under construction. *)
Fixpoint split_from (cur : string) (s : string) : list string :=
  match s with
  | EmptyString => if truthy cur then [cur] else []
  | String c s' =>
      if is_space c
      then (if truthy cur then cur :: split_from EmptyString s'
            else split_from EmptyString s')
      else split_from (cur ++ String c EmptyString)%string s'
  end.

Definition split (s : string) : list string := split_from EmptyString s.

(** [needle in hay] *)
Fixpoint str_in (needle hay : string) : bool :=
  prefix needle hay
  || match hay with
     | EmptyString => false
     | String _ hay' => str_in needle hay'
     end.

(** [s[:n]] *)
Definition slice_to (n : nat) (s : string) : string := substring 0 n s.

(** [sep.join(l)] *)
Fixpoint join (sep : string) (l : list string) : string :=
  match l with
  | [] => EmptyString
  | [x] => x
  | x :: rest => (x ++ sep ++ join sep rest)%string
  end.

(** [str(n)] for an integer. *)
Definition str_of_Z (n : Z) : string :=
  NilZero.string_of_int (Z.to_int n).

End PyStr.

(** ** Values, dictionaries and exceptions *)

Inductive exn : Type :=
| KeyError (key : string)
| IndexError
| TypeError
| ZeroDivisionError.

Inductive result (A : Type) : Type :=
| Ok (a : A)
| Raise (e : exn).

Arguments Ok {A} a.
Arguments Raise {A} e.

Definition bind {A B : Type} (m : result A) (k : A -> result B) : result B :=
  match m with
  | Ok a => k a
  | Raise e => Raise e
  end.

Notation "x <- m ;; k" := (bind m (fun x => k))
  (at level 61, m at next level, right associativity).

(** The values the returned dictionaries hold. *)
Inductive pyval : Type :=
| VStr (s : string)
| VInt (n : Z)
| VBool (b : bool)
| VFloat (x : float)
| VNaN
| VList (l : list string).

Definition dict : Type := list (string * pyval).

Fixpoint dict_get (k : string) (d : dict) : option pyval :=
  match d with
  | [] => None
  | (k', v) :: d' => if String.eqb k k' then Some v else dict_get k d'
  end.

Definition has_key (k : string) (d : dict) : bool :=
  match dict_get k d with Some _ => true | None => false end.

Definition keys (d : dict) : list string := map fst d.

(** ** Rows of the postings table *)

Inductive cell : Type :=
| Absent
| NaN
| Text (s : string).

Record posting : Type := mkPosting {
  job_title : cell;
  company_name : cell;
  location : cell;
  salary : cell;
  job_description : cell
}.

(** [job[col]] *)
Definition getitem (col : string) (c : cell) : result pyval :=
  match c with
  | Absent => Raise (KeyError col)
  | NaN => Ok VNaN
  | Text s => Ok (VStr s)
  end.

(** [job.get(col, default)] *)
Definition get_default (c : cell) (default : string) : pyval :=
  match c with
  | Absent => VStr default
  | NaN => VNaN
  | Text s => VStr s
  end.

(** [v[:n]] on a value: only a string can be sliced. *)
Definition slice_val (n : nat) (v : pyval) : result string :=
  match v with
  | VStr s => Ok (PyStr.slice_to n s)
  | _ => Raise TypeError
  end.

(** ** The scorer: [calculate_job_score] (tools.py and ai_agent.py agree) *)

Record score_info : Type := mkScore {
  score : Z;
  matched_skills : list string
}.

Definition high_value_skills : list string :=
  ["python"; "javascript"; "java"; "react"; "django"].

(** [skill in ["python", ...]] *)
Definition in_list (s : string) (l : list string) : bool :=
  existsb (String.eqb s) l.

(** The weight added for one matched skill. *)
Definition skill_points (skill : string) : Z :=
  if (String.length skill <=? 3)%nat then 2%Z
  else if in_list skill high_value_skills then 3%Z
  else 1%Z.

(** The searchable text of a posting. [pd.notna(job.get(col))] holds of a
    [Text] cell only. *)
Definition job_text_of (job : posting) : string :=
  let job_text := EmptyString in
  let job_text :=
    match job_title job with
    | Text t => (job_text ++ PyStr.lower t ++ " ")%string
    | _ => job_text
    end in
  let job_text :=
    match job_description job with
    | Text d => (job_text ++ PyStr.lower d ++ " ")%string
    | _ => job_text
    end in
  job_text.

(** One turn of the loop over the skills; the state is
    [(matched_skills, score)]. *)
Definition score_step (job_text : string) (st : list string * Z)
    (skill : string) : list string * Z :=
  let '(matched, sc) := st in
  if PyStr.str_in skill job_text
  then (matched ++ [skill], sc + skill_points skill)%Z
  else st.

Definition calculate_job_score (job : posting) (skills : list string)
    : score_info :=
  let job_text := job_text_of job in
  if negb (PyStr.truthy (PyStr.strip job_text)) then mkScore 0%Z []
  else
    let '(matched, sc) := fold_left (score_step job_text) skills ([], 0%Z) in
    let sc := if (3 <=? List.length matched)%nat then (sc + 2)%Z else sc in
    let sc := if (5 <=? List.length matched)%nat then (sc + 3)%Z else sc in
    mkScore sc matched.

(** ** Lists as Python uses them *)

(** [l[:n]] for a possibly negative [n]. *)
Definition take_upto {A : Type} (n : Z) (l : list A) : list A :=
  if (0 <=? n)%Z then firstn (Z.to_nat n) l
  else firstn (List.length l - Z.to_nat (- n)) l.

(** [df.iterrows()]: the rows with their positions in the table. *)
Definition iterrows (jobs_df : list posting) : list (nat * posting) :=
  combine (seq 0 (List.length jobs_df)) jobs_df.

(** [df.empty] / [not l] *)
Definition is_empty {A : Type} (l : list A) : bool :=
  match l with [] => true | _ => false end.

Section PySort.

Context {A : Type}.
Variable key : A -> Z.

(** [x], which comes before every element of [l] in the list being
    sorted, goes past the elements of a strictly larger key only. *)
Fixpoint insert_desc (x : A) (l : list A) : list A :=
  match l with
  | [] => [x]
  | y :: l' =>
      if (key x <? key y)%Z then y :: insert_desc x l' else x :: l
  end.

(** [l.sort(key=key, reverse=True)]: larger keys first, and stable. *)
Definition sort_desc (l : list A) : list A :=
  fold_right insert_desc [] l.

(** The order that sort produces from a list whose elements carry
    increasing positions [pos]: the larger key first, and of two equal keys
    the earlier position first. *)
Variable pos : A -> nat.

Definition before (a b : A) : Prop :=
  (key b < key a)%Z \/ (key a = key b /\ pos a < pos b).

End PySort.

(** An element of the list [job_scores] of [find_best_job_match]. *)
Record job_score : Type := mkJobScore {
  js_index : nat;
  js_score : Z;
  js_matched_skills : list string;
  js_job_data : posting
}.

(** The dictionary literal both versions of [find_best_job_match] build from
    the best element, without the fields only one of them has. The fields
    are evaluated in the order they are written. *)
Definition best_fields (best_match : job_score) (job_scores : list job_score)
    : result dict :=
  let job_data := js_job_data best_match in
  title <- getitem "job_title" (job_title job_data) ;;
  company <- getitem "company_name" (company_name job_data) ;;
  loc <- getitem "location" (location job_data) ;;
  let sal := get_default (salary job_data) "Not specified" in
  descr <- slice_val 300 (get_default (job_description job_data) "") ;;
  Ok [ ("job_title", title);
       ("company_name", company);
       ("location", loc);
       ("salary", sal);
       ("job_description", VStr (descr ++ "..."));
       ("match_score", VInt (js_score best_match));
       ("matched_skills", VList (js_matched_skills best_match));
       ("total_jobs_analyzed", VInt (Z.of_nat (List.length job_scores))) ].

(** The body of the loop of [find_alternative_matches], the same in both
    files but for the dictionary [alternative] that is appended for a row
    of positive score. *)
Definition alternative_row (alternative : posting -> score_info -> result dict)
    (skills_lower : list string)
    (acc : result (list dict)) (row : nat * posting) : result (list dict) :=
  job_scores <- acc ;;
  let '(_, job) := row in
  let info := calculate_job_score job skills_lower in
  if (0 <? score info)%Z
  then (d <- alternative job info ;; Ok (job_scores ++ [d]))
  else Ok job_scores.

(** [x["match_score"]], the key of the sort of the alternatives. *)
Definition match_score_of (x : dict) : Z :=
  match dict_get "match_score" x with
  | Some (VInt n) => n
  | _ => 0%Z
  end.

(** ** tools.py *)

Module Tools.

Definition no_jobs_or_skills : dict :=
  [ ("error", VStr "No jobs available or no skills provided");
    ("job_title", VStr "No match found");
    ("company_name", VStr "N/A");
    ("location", VStr "N/A");
    ("match_score", VInt 0);
    ("matched_skills", VList []) ].

Definition no_matching_jobs : dict :=
  [ ("error", VStr "No matching jobs found");
    ("job_title", VStr "No suitable matches");
    ("company_name", VStr "N/A");
    ("location", VStr "N/A");
    ("match_score", VInt 0);
    ("matched_skills", VList []) ].

(** The body of the loop that scores the rows: every row is kept. *)
Definition score_row (skills : list string) (job_scores : list job_score)
    (row : nat * posting) : list job_score :=
  let '(index, job) := row in
  let info := calculate_job_score job skills in
  job_scores ++ [mkJobScore index (score info) (matched_skills info) job].

(** [job_scores] after the loop and the sort. *)
Definition ranked (skills : list string) (jobs_df : list posting)
    : list job_score :=
  let job_scores := fold_left (score_row skills) (iterrows jobs_df) [] in
  sort_desc js_score job_scores.

Definition find_best_job_match (skills : list string)
    (jobs_df : list posting) : result dict :=
  if is_empty jobs_df || is_empty skills then Ok no_jobs_or_skills
  else
    let job_scores := ranked skills jobs_df in
    match job_scores with
    | [] => Ok no_matching_jobs
    | best_match :: _ =>
        if (js_score best_match =? 0)%Z then Ok no_matching_jobs
        else best_fields best_match job_scores
    end.

(** The dictionary appended for a row of positive score. *)
Definition alternative (job : posting) (info : score_info) : result dict :=
  title <- getitem "job_title" (job_title job) ;;
  company <- getitem "company_name" (company_name job) ;;
  loc <- getitem "location" (location job) ;;
  Ok [ ("job_title", title);
       ("company_name", company);
       ("location", loc);
       ("salary", get_default (salary job) "Not specified");
       ("match_score", VInt (score info));
       ("matched_skills", VList (matched_skills info)) ].

Definition find_alternative_matches (skills : list string)
    (jobs_df : list posting) (top_n : Z) : result (list dict) :=
  if is_empty jobs_df || is_empty skills then Ok []
  else
    let skills_lower := map PyStr.lower skills in
    job_scores <-
      fold_left (alternative_row alternative skills_lower)
                (iterrows jobs_df) (Ok []) ;;
    Ok (take_upto top_n (sort_desc match_score_of job_scores)).

End Tools.

(** ** ai_agent.py *)

Module AiAgent.

Definition no_jobs_or_skills : dict :=
  [ ("error", VStr "No jobs available or no skills provided");
    ("job_title", VStr "No match found");
    ("company_name", VStr "N/A");
    ("location", VStr "N/A");
    ("match_score", VInt 0);
    ("matched_skills", VList []);
    ("reasoning", VStr "Unable to find matches due to missing data") ].

Definition no_matching_jobs : dict :=
  [ ("error", VStr "No matching jobs found");
    ("job_title", VStr "No suitable matches");
    ("company_name", VStr "N/A");
    ("location", VStr "N/A");
    ("match_score", VInt 0);
    ("matched_skills", VList []);
    ("reasoning", VStr "No jobs found that match the extracted skills") ].

(** [[skill.lower().strip() for skill in skills]] *)
Definition normalize (skills : list string) : list string :=
  map (fun skill => PyStr.strip (PyStr.lower skill)) skills.

(** The body of the loop that scores the rows: a row is kept when its score
    is positive. *)
Definition score_row (skills_lower : list string)
    (job_scores : list job_score) (row : nat * posting) : list job_score :=
  let '(index, job) := row in
  let info := calculate_job_score job skills_lower in
  if (0 <? score info)%Z
  then job_scores ++ [mkJobScore index (score info) (matched_skills info) job]
  else job_scores.

(** [job_scores] after the loop. *)
Definition qualifying (skills : list string) (jobs_df : list posting)
    : list job_score :=
  fold_left (score_row (normalize skills)) (iterrows jobs_df) [].

Definition best_reasoning (best_match : job_score) : string :=
  ("This job scored highest (" ++ PyStr.str_of_Z (js_score best_match)
   ++ " points) because it matches "
   ++ PyStr.str_of_Z (Z.of_nat (List.length (js_matched_skills best_match)))
   ++ " of your key skills: "
   ++ PyStr.join ", " (js_matched_skills best_match)
   ++ ". The role appears to be a good fit for your technical background."
  )%string.

Definition find_best_job_match (skills : list string)
    (jobs_df : list posting) : result dict :=
  if is_empty jobs_df || is_empty skills then Ok no_jobs_or_skills
  else
    let job_scores := qualifying skills jobs_df in
    if is_empty job_scores then Ok no_matching_jobs
    else
      let job_scores := sort_desc js_score job_scores in
      match job_scores with
      | [] => Raise IndexError
      | best_match :: _ =>
          d <- best_fields best_match job_scores ;;
          Ok (d ++ [("reasoning", VStr (best_reasoning best_match))])
      end.

Definition alternative_reasoning (info : score_info) : string :=
  ("Score: " ++ PyStr.str_of_Z (score info) ++ " - Matches "
   ++ PyStr.str_of_Z (Z.of_nat (List.length (matched_skills info)))
   ++ " skills: " ++ PyStr.join ", " (matched_skills info))%string.

Definition alternative (job : posting) (info : score_info) : result dict :=
  title <- getitem "job_title" (job_title job) ;;
  company <- getitem "company_name" (company_name job) ;;
  loc <- getitem "location" (location job) ;;
  Ok [ ("job_title", title);
       ("company_name", company);
       ("location", loc);
       ("salary", get_default (salary job) "Not specified");
       ("match_score", VInt (score info));
       ("matched_skills", VList (matched_skills info));
       ("reasoning", VStr (alternative_reasoning info)) ].

Definition find_alternative_matches (skills : list string)
    (jobs_df : list posting) (top_n : Z) : result (list dict) :=
  if is_empty jobs_df || is_empty skills then Ok []
  else
    let skills_lower := normalize skills in
    job_scores <-
      fold_left (alternative_row alternative skills_lower)
                (iterrows jobs_df) (Ok []) ;;
    Ok (take_upto top_n (sort_desc match_score_of job_scores)).

End AiAgent.

(** ** The demand analyzer: [get_skill_statistics] and [get_demand_level] *)

Module PyFloat.

(** [float(n)] for a count, exact for [0 <= n < 2^53]; the counts of rows
    are in that range. *)
Definition of_Z (n : Z) : float := PrimFloat.of_uint63 (Uint63.of_Z n).

(** [a / b] on integers. *)
Definition truediv (a b : Z) : result float :=
  if (b =? 0)%Z then Raise ZeroDivisionError
  else Ok (PrimFloat.div (of_Z a) (of_Z b)).

(** [x >= n] *)
Definition ge (x : float) (n : Z) : bool := PrimFloat.leb (of_Z n) x.

(** The integer nearest to [n / d], the even one of two nearest
    ([0 <= n], [0 < d]). *)
Definition nearest_even (n d : Z) : Z :=
  let q := (n / d)%Z in
  let r := (n mod d)%Z in
  match (2 * r ?= d)%Z with
  | Lt => q
  | Gt => (q + 1)%Z
  | Eq => if Z.even q then q else (q + 1)%Z
  end.

(** [round(x, 1)]: the exact value of [x] is rounded to the nearest multiple
    of one tenth (the even one of two nearest), and the float nearest to that
    decimal is returned. A float [m * 2^e] with [0 <= e] is an integer and
    is returned as it is. *)
Definition round1 (x : float) : float :=
  match Prim2SF x with
  | S754_finite s m e =>
      if (0 <=? e)%Z then x
      else
        let tenths := nearest_even (Z.pos m * 10) (2 ^ (- e)) in
        let r := PrimFloat.div (of_Z tenths) (of_Z 10) in
        if s then PrimFloat.opp r else r
  | _ => x
  end.

End PyFloat.

Inductive demand_level : Type :=
| VeryHigh | High | Medium | Low | VeryLow | Unknown.

(** The strings [get_demand_level] returns. *)
Definition demand_level_name (l : demand_level) : string :=
  match l with
  | VeryHigh => "Very High"
  | High => "High"
  | Medium => "Medium"
  | Low => "Low"
  | VeryLow => "Very Low"
  | Unknown => "Unknown"
  end.

(** [get_demand_level] (tools.py and ai_agent.py agree). *)
Definition get_demand_level (job_count total_jobs : Z) : result demand_level :=
  if (total_jobs =? 0)%Z then Ok Unknown
  else
    q <- PyFloat.truediv job_count total_jobs ;;
    let percentage := PrimFloat.mul q (PyFloat.of_Z 100) in
    if PyFloat.ge percentage 50 then Ok VeryHigh
    else if PyFloat.ge percentage 25 then Ok High
    else if PyFloat.ge percentage 10 then Ok Medium
    else if PyFloat.ge percentage 5 then Ok Low
    else Ok VeryLow.

(** The text of a row that [get_skill_statistics] searches: the description
    comes first. *)
Definition stat_text_of (job : posting) : string :=
  let job_text := EmptyString in
  let job_text :=
    match job_description job with
    | Text d => (job_text ++ PyStr.lower d ++ " ")%string
    | _ => job_text
    end in
  let job_text :=
    match job_title job with
    | Text t => (job_text ++ PyStr.lower t ++ " ")%string
    | _ => job_text
    end in
  job_text.

(** The inner loop: the rows whose text mentions the skill. *)
Definition count_row (skill_lower : string) (job_count : Z) (job : posting)
    : Z :=
  if PyStr.str_in skill_lower (stat_text_of job) then (job_count + 1)%Z
  else job_count.

(** [round((job_count / total_jobs) * 100, 1) if total_jobs > 0 else 0] *)
Definition percentage_of (job_count total_jobs : Z) : result pyval :=
  if (0 <? total_jobs)%Z
  then (q <- PyFloat.truediv job_count total_jobs ;;
        Ok (VFloat (PyFloat.round1 (PrimFloat.mul q (PyFloat.of_Z 100)))))
  else Ok (VInt 0).

(** [stats[k] = v]: an existing key keeps its place. *)
Fixpoint dict_set {V : Type} (k : string) (v : V) (d : list (string * V))
    : list (string * V) :=
  match d with
  | [] => [(k, v)]
  | (k', v') :: d' =>
      if String.eqb k k' then (k, v) :: d' else (k', v') :: dict_set k v d'
  end.

Fixpoint stats_get {V : Type} (k : string) (d : list (string * V))
    : option V :=
  match d with
  | [] => None
  | (k', v) :: d' => if String.eqb k k' then Some v else stats_get k d'
  end.

Section SkillStatistics.

(** What is done to a skill before it is searched for:
    [skill.lower()] in tools.py, [skill.lower().strip()] in ai_agent.py. *)
Variable prepare : string -> string.

Definition skill_entry (jobs_df : list posting) (skill : string)
    : result dict :=
  let total_jobs := Z.of_nat (List.length jobs_df) in
  let skill_lower := prepare skill in
  let job_count := fold_left (count_row skill_lower) jobs_df 0%Z in
  pct <- percentage_of job_count total_jobs ;;
  level <- get_demand_level job_count total_jobs ;;
  Ok [ ("jobs_mentioning", VInt job_count);
       ("percentage", pct);
       ("demand_level", VStr (demand_level_name level)) ].

Definition stats_step (jobs_df : list posting)
    (acc : result (list (string * dict))) (skill : string)
    : result (list (string * dict)) :=
  skill_stats <- acc ;;
  entry <- skill_entry jobs_df skill ;;
  Ok (dict_set skill entry skill_stats).

Definition skill_statistics (skills : list string)
    (jobs_df : list posting) : result (list (string * dict)) :=
  fold_left (stats_step jobs_df) skills (Ok []).

End SkillStatistics.

(** tools.py also concatenates the texts of all rows into [all_job_text],
    which it does not use. *)
Definition Tools_get_skill_statistics :=
  skill_statistics PyStr.lower.

Definition AiAgent_get_skill_statistics :=
  skill_statistics (fun skill => PyStr.strip (PyStr.lower skill)).

(** ** The validator: [validate_resume_text] (tools.py and ai_agent.py agree) *)

Definition expected_sections : list string :=
  ["experience"; "skills"; "education"; "work"].

Definition tech_indicators : list string :=
  ["python"; "javascript"; "programming"; "software"; "development";
   "technical"].

Definition too_short : string :=
  "Resume seems quite short - consider adding more detail".

Definition too_long : string :=
  "Resume is very long - extraction might focus on early sections".

Definition missing_sections : string :=
  "Resume might be missing common sections (experience, skills, education)".

Definition no_tech : string :=
  "No technical skills detected - results may be limited".

(** [sum(1 for x in l if x in text)] *)
Definition count_in (text : string) (l : list string) : Z :=
  fold_left (fun n x => if PyStr.str_in x text then (n + 1)%Z else n) l 0%Z.

Definition validate_resume_text (resume_text : string) : dict :=
  let issues : list string := [] in
  let warnings : list string := [] in
  if negb (PyStr.truthy resume_text)
     || negb (PyStr.truthy (PyStr.strip resume_text))
  then
    let issues := issues ++ ["Resume text is empty"] in
    [ ("valid", VBool false);
      ("issues", VList issues);
      ("warnings", VList warnings) ]
  else
    let word_count := Z.of_nat (List.length (PyStr.split resume_text)) in
    let warnings :=
      if (word_count <? 50)%Z then warnings ++ [too_short]
      else if (2000 <? word_count)%Z then warnings ++ [too_long]
      else warnings in
    let resume_lower := PyStr.lower resume_text in
    let found_sections :=
      filter (fun section => PyStr.str_in section resume_lower)
             expected_sections in
    let warnings :=
      if (List.length found_sections <? 2)%nat
      then warnings ++ [missing_sections] else warnings in
    let tech_mentions := count_in resume_lower tech_indicators in
    let warnings :=
      if (tech_mentions =? 0)%Z then warnings ++ [no_tech] else warnings in
    [ ("valid", VBool true);
      ("word_count", VInt word_count);
      ("sections_found", VList found_sections);
      ("tech_indicators", VInt tech_mentions);
      ("issues", VList issues);
      ("warnings", VList warnings) ].

(** ** The scorer as the specification words it *)

(** The skills found in the text, in the order of the skills list. *)
Definition matching (text : string) (skills : list string) : list string :=
  filter (fun skill => PyStr.str_in skill text) skills.

(** The points of one matched skill: the length is looked at first. *)
Inductive awards (skill : string) : Z -> Prop :=
| awards_short :
    String.length skill <= 3 -> awards skill 2
| awards_high_value :
    3 < String.length skill -> In skill high_value_skills -> awards skill 3
| awards_standard :
    3 < String.length skill -> ~ In skill high_value_skills -> awards skill 1.

Definition sum_points (matched : list string) : Z :=
  fold_right Z.add 0%Z (map skill_points matched).

(** 2 from three matches on, 3 more from five on. *)
Definition bonus (n : nat) : Z :=
  ((if (3 <=? n)%nat then 2 else 0) + (if (5 <=? n)%nat then 3 else 0))%Z.

Definition spec_score (text : string) (skills : list string) : Z :=
  (sum_points (matching text skills)
   + bonus (List.length (matching text skills)))%Z.

(** [l1] is [l2] with some elements left out. *)
Inductive subseq {A : Type} : list A -> list A -> Prop :=
| subseq_nil : subseq [] []
| subseq_skip : forall x l1 l2, subseq l1 l2 -> subseq l1 (x :: l2)
| subseq_keep : forall x l1 l2, subseq l1 l2 -> subseq (x :: l1) (x :: l2).

(** A posting with nothing to search: no title and no description, or only
    white space in them. *)
Definition blank (job : posting) : bool :=
  negb (PyStr.truthy (PyStr.strip (job_text_of job))).

(** ** The ranking as the specification words it *)

(** The element the loop builds for the row at position [index]. *)
Definition scored_row (skills : list string) (row : nat * posting)
    : job_score :=
  let info := calculate_job_score (snd row) skills in
  mkJobScore (fst row) (score info) (matched_skills info) (snd row).

(** The whole table, scored, in table order. *)
Definition scored (skills : list string) (jobs_df : list posting)
    : list job_score :=
  map (scored_row skills) (iterrows jobs_df).

Definition positive (e : job_score) : bool := (0 <? js_score e)%Z.

(** The order of the ranking: the higher score first, and of two equal
    scores the earlier row of the table first. *)
Definition rank_before (a b : job_score) : Prop :=
  before js_score js_index a b.

(** The qualifying rows, ranked. *)
Definition ranking (skills : list string) (jobs_df : list posting)
    : list job_score :=
  sort_desc js_score (filter positive (scored skills jobs_df)).

(** The dictionary [d] is the one [alternative] builds for the element
    [e] of the scored table. *)
Definition listed_as (alternative : posting -> score_info -> result dict)
    (skills : list string) (e : job_score) (d : dict) : Prop :=
  alternative (js_job_data e) (calculate_job_score (js_job_data e) skills)
  = Ok d.

(** No row of the table scores above 0. *)
Definition no_match (skills : list string) (jobs_df : list posting) : Prop :=
  Forall (fun job => (score (calculate_job_score job skills) <= 0)%Z) jobs_df.

(** The text of a description that can be sliced: an absent column stands
    for the empty string, a missing value for nothing. *)
Definition description_text (job : posting) : option string :=
  match job_description job with
  | Absent => Some EmptyString
  | NaN => None
  | Text s => Some s
  end.

(** A row whose title, company and location columns exist. *)
Definition listable (job : posting) : Prop :=
  job_title job <> Absent /\ company_name job <> Absent
  /\ location job <> Absent.

(** A row whose fields [best_fields] can read: its description, moreover,
    is not a missing value. *)
Definition readable (job : posting) : Prop :=
  listable job /\ job_description job <> NaN.

(** ** The demand level as the specification words it *)

(** The thresholds, from the top; the first one reached gives the level. *)
Definition demand_thresholds : list (Z * demand_level) :=
  [ (50, VeryHigh); (25, High); (10, Medium); (5, Low) ]%Z.

Definition level_of_percentage (percentage : float) : demand_level :=
  match find (fun t => PyFloat.ge percentage (fst t)) demand_thresholds with
  | Some t => snd t
  | None => VeryLow
  end.

(** The percentage before it is rounded: [(job_count / total_jobs) * 100]. *)
Definition exact_percentage (job_count total_jobs : Z) : float :=
  PrimFloat.mul (PrimFloat.div (PyFloat.of_Z job_count)
                               (PyFloat.of_Z total_jobs))
                (PyFloat.of_Z 100).

(** The number of rows that mention the skill. *)
Definition mentions (skill_lower : string) (jobs_df : list posting) : Z :=
  Z.of_nat
    (List.length
       (filter (fun job => PyStr.str_in skill_lower (stat_text_of job))
               jobs_df)).

(** The entry of one skill, for a table that is not empty. *)
Definition stat_entry (job_count total_jobs : Z) : dict :=
  [ ("jobs_mentioning", VInt job_count);
    ("percentage",
     VFloat (PyFloat.round1 (exact_percentage job_count total_jobs)));
    ("demand_level",
     VStr (demand_level_name
             (level_of_percentage (exact_percentage job_count total_jobs)))) ].

(** The entry of one skill, for the empty table. *)
Definition empty_table_entry : dict :=
  [ ("jobs_mentioning", VInt 0);
    ("percentage", VInt 0);
    ("demand_level", VStr "Unknown") ].

(** The entry of a skill that [job_count] rows of the table mention. *)
Definition entry_for (jobs_df : list posting) (job_count : Z) : dict :=
  if is_empty jobs_df then empty_table_entry
  else stat_entry job_count (Z.of_nat (List.length jobs_df)).

(** The value a float holds when it is read as a decimal with one digit
    after the point. *)
Definition is_float (v : option pyval) (x : float) : bool :=
  match v with
  | Some (VFloat y) => PrimFloat.eqb y x
  | _ => false
  end.

(** ** The validation record as the specification words it *)

Definition validation_fields : list string :=
  ["valid"; "issues"; "warnings"; "word_count"; "sections_found";
   "tech_indicators"].

Definition has_all_fields (d : dict) : bool :=
  forallb (fun k => has_key k d) validation_fields.

(** Empty, or white space only. *)
Fixpoint all_space (s : string) : bool :=
  match s with
  | EmptyString => true
  | String c s' => PyStr.is_space c && all_space s'
  end.

(** The dictionary returned for such a text. *)
Definition empty_text_result : dict :=
  [ ("valid", VBool false);
    ("issues", VList ["Resume text is empty"]);
    ("warnings", VList []) ].

(** ** Postings and skills used as examples *)

Definition python_developer : posting :=
  mkPosting (Text "Python Developer") (Text "Acme") (Text "Remote") NaN
            (Text "Looking for Python and SQL expert").

Definition sql_analyst : posting :=
  mkPosting (Text "SQL Python Analyst") (Text "Beta") (Text "Austin")
            (Text "90k") (Text "Reports and dashboards").

Definition line_cook : posting :=
  mkPosting (Text "Line Cook") (Text "Diner") (Text "Tulsa") (Text "40k")
            (Text "Fry eggs and flip burgers").

(** A posting whose description has 350 characters. *)
Definition wordy_job : posting :=
  mkPosting (Text "Python Trainer") (Text "Gamma") (Text "Reno") Absent
            (Text (String.concat "" (repeat "python " 50))).

(** A posting whose description is a missing value. *)
Definition undescribed_job : posting :=
  mkPosting (Text "Python Tester") (Text "Delta") (Text "Boise") NaN NaN.

(** * The rest of the two files *)

(** ** More of Python's strings *)

Module PyText.

Definition is_ascii_upper (c : ascii) : bool :=
  let n := nat_of_ascii c in ((65 <=? n) && (n <=? 90))%nat.

Definition is_ascii_lower (c : ascii) : bool :=
  let n := nat_of_ascii c in ((97 <=? n) && (n <=? 122))%nat.

(** [str.upper] on one ASCII character. *)
Definition upper_char (c : ascii) : ascii :=
  if is_ascii_lower c then ascii_of_nat (nat_of_ascii c - 32) else c.

(** [s.title()] on an ASCII string: a letter that follows a letter is
    lowered, any other letter is raised. [prev_cased] tells whether the
    character before is a letter. *)
Fixpoint title_from (prev_cased : bool) (s : string) : string :=
  match s with
  | EmptyString => EmptyString
  | String c s' =>
      String (if prev_cased then PyStr.lower_char c else upper_char c)
             (title_from (is_ascii_lower c || is_ascii_upper c) s')
  end.

Definition title (s : string) : string := title_from false s.

Fixpoint has_lower (s : string) : bool :=
  match s with
  | EmptyString => false
  | String c s' => is_ascii_lower c || has_lower s'
  end.

Fixpoint has_upper (s : string) : bool :=
  match s with
  | EmptyString => false
  | String c s' => is_ascii_upper c || has_upper s'
  end.

(** [s.islower()] on an ASCII string: some letter, and no capital. *)
Definition islower (s : string) : bool := has_lower s && negb (has_upper s).

(** [s.split(sep)] for a separator of one character; [cur] is the piece
    under construction. *)
Fixpoint split_on_from (sep : ascii) (cur : string) (s : string)
    : list string :=
  match s with
  | EmptyString => [cur]
  | String c s' =>
      if Ascii.eqb c sep then cur :: split_on_from sep EmptyString s'
      else split_on_from sep (cur ++ String c EmptyString)%string s'
  end.

Definition split_on (sep : ascii) (s : string) : list string :=
  split_on_from sep EmptyString s.

(** [c in chars] *)
Fixpoint char_in (c : ascii) (chars : string) : bool :=
  match chars with
  | EmptyString => false
  | String c' chars' => Ascii.eqb c c' || char_in c chars'
  end.

Fixpoint lstrip_chars (chars : string) (s : string) : string :=
  match s with
  | EmptyString => EmptyString
  | String c s' => if char_in c chars then lstrip_chars chars s' else s
  end.

Fixpoint rstrip_chars (chars : string) (s : string) : string :=
  match s with
  | EmptyString => EmptyString
  | String c s' =>
      match rstrip_chars chars s' with
      | EmptyString =>
          if char_in c chars then EmptyString else String c EmptyString
      | r => String c r
      end
  end.

(** [s.strip(chars)] *)
Definition strip_chars (chars : string) (s : string) : string :=
  rstrip_chars chars (lstrip_chars chars s).

End PyText.

(** [list(dict.fromkeys(l))]: the elements of [l] without repeats, each at
    the place of its first occurrence. *)
Definition fromkeys_step (seen : list string) (x : string) : list string :=
  if in_list x seen then seen else seen ++ [x].

Definition fromkeys (l : list string) : list string :=
  fold_left fromkeys_step l [].

(** ** ai_agent.py: the extractor with the fixed vocabulary *)

Definition common_skills : list string :=
  [ "python"; "javascript"; "java"; "react"; "django"; "flask"; "node.js";
    "sql"; "postgresql"; "mysql"; "mongodb"; "aws"; "azure"; "docker";
    "kubernetes"; "git"; "pandas"; "numpy"; "scikit-learn"; "tensorflow";
    "pytorch"; "html"; "css"; "typescript"; "vue.js"; "angular"; "spring";
    "express.js"; "redis"; "elasticsearch"; "jenkins"; "ci/cd"; "restful";
    "api"; "microservices"; "agile"; "scrum"; "machine learning";
    "data analysis"; "blockchain" ].

(** [skill.title() if skill.islower() else skill] *)
Definition proper_case (skill : string) : string :=
  if PyText.islower skill then PyText.title skill else skill.

(** One turn of the loop over the vocabulary. *)
Definition found_step (resume_lower : string) (found_skills : list string)
    (skill : string) : list string :=
  if PyStr.str_in skill resume_lower
  then found_skills ++ [proper_case skill]
  else found_skills.

Definition AiAgent_extract_skills_from_resume (resume_text : string)
    : list string :=
  let resume_lower := PyStr.lower resume_text in
  let found_skills := fold_left (found_step resume_lower) common_skills [] in
  let unique_skills := fromkeys found_skills in
  firstn 10 unique_skills.

(** ** tools.py: the extractor that asks the agent, and its safe wrapper *)

(** What a call that may fail gives: its value, or the message [str(e)] of
    the exception [e] it raises. *)
Inductive outcome (A : Type) : Type :=
| Returned (a : A)
| Raised (message : string).

Arguments Returned {A} a.
Arguments Raised {A} message.

Definition dquote : string := String (ascii_of_nat 34) EmptyString.

Definition newline : ascii := ascii_of_nat 10.

(** The prompt sent to the agent. *)
Definition extraction_prompt (resume_text : string) (top_n : Z) : string :=
  ("
    Please analyze this resume and extract the top " ++ PyStr.str_of_Z top_n
   ++ " most important technical skills.
    Focus on:
    - Programming languages (Python, JavaScript, etc.)
    - Frameworks and libraries (React, Django, etc.)
    - Tools and technologies (Git, Docker, AWS, etc.)
    - Data analysis tools (Pandas, SQL, etc.)
    - Any other technical competencies

    Return only the skill names, one per line, without explanations.
    Be specific (e.g., " ++ dquote ++ "Python" ++ dquote ++ " not "
   ++ dquote ++ "programming languages" ++ dquote ++ ").

    Resume text:
    " ++ resume_text ++ "
    ")%string.

(** [skill.strip().strip("-•*").strip()]. The bullet of the source is not
    among the characters of the strings of this embedding, which leaves the
    dash and the asterisk to strip. *)
Definition clean_line (skill : string) : string :=
  PyStr.strip (PyText.strip_chars "-*" (PyStr.strip skill)).

(** [skill.strip() and len(skill.strip()) > 1] *)
Definition keep_line (skill : string) : bool :=
  PyStr.truthy (PyStr.strip skill)
  && (1 <? String.length (PyStr.strip skill))%nat.

(** The list [skills] read from the answer of the agent. *)
Definition parse_skills (skills_text : string) : list string :=
  map clean_line (filter keep_line (PyText.split_on newline skills_text)).

Section ToolsExtractor.

(** [agent.run_sync(prompt).output] *)
Variable run_sync : string -> outcome string.

(** [list(set(l))]: the elements of [l] in the order the set iterates. *)
Variable list_of_set : list string -> list string.

Definition Tools_extract_skills_from_resume (resume_text : string)
    (top_n : Z) : outcome (list string) :=
  match run_sync (extraction_prompt resume_text top_n) with
  | Raised message => Raised message
  | Returned skills_text =>
      let skills := parse_skills skills_text in
      let unique_skills := list_of_set (map PyStr.lower skills) in
      Returned (take_upto top_n unique_skills)
  end.

(** [d[k]] outside a [try]. *)
Definition item (k : string) (d : dict) : result pyval :=
  match dict_get k d with
  | Some v => Ok v
  | None => Raise (KeyError k)
  end.

(** [d[k]] inside the [try]: the [KeyError] is caught with the others, and
    its message is the key between quotes. *)
Definition item_try (k : string) (d : dict) : outcome pyval :=
  match dict_get k d with
  | Some v => Returned v
  | None => Raised ("'" ++ k ++ "'")%string
  end.

(** [bool(v)] *)
Definition truth (v : pyval) : bool :=
  match v with
  | VStr s => PyStr.truthy s
  | VInt n => negb (n =? 0)%Z
  | VBool b => b
  | VFloat x => negb (PrimFloat.eqb x PrimFloat.zero)
  | VNaN => true
  | VList l => negb (is_empty l)
  end.

(** [v + [x]] *)
Definition list_add (v : pyval) (x : string) : result pyval :=
  match v with
  | VList l => Ok (VList (l ++ [x]))
  | _ => Raise TypeError
  end.

(** The body of the [try]. *)
Definition extraction_report (resume_text : string) (validation : dict)
    : outcome dict :=
  match Tools_extract_skills_from_resume resume_text 10 with
  | Raised message => Raised message
  | Returned skills =>
      match item_try "word_count" validation with
      | Raised message => Raised message
      | Returned word_count =>
          match item_try "issues" validation with
          | Raised message => Raised message
          | Returned issues =>
              match item_try "warnings" validation with
              | Raised message => Raised message
              | Returned warnings =>
                  Returned
                    [ ("success", VBool true);
                      ("skills", VList skills);
                      ("skill_count", VInt (Z.of_nat (List.length skills)));
                      ("word_count", word_count);
                      ("issues", issues);
                      ("warnings", warnings) ]
              end
          end
      end
  end.

Definition safe_extract_skills (resume_text : string) : result dict :=
  let validation := validate_resume_text resume_text in
  valid <- item "valid" validation ;;
  if negb (truth valid)
  then
    issues <- item "issues" validation ;;
    warnings <- item "warnings" validation ;;
    Ok [ ("success", VBool false);
         ("skills", VList []);
         ("issues", issues);
         ("warnings", warnings) ]
  else
    match extraction_report resume_text validation with
    | Returned report => Ok report
    | Raised message =>
        issues <- item "issues" validation ;;
        issues <- list_add issues ("Processing error: " ++ message) ;;
        warnings <- item "warnings" validation ;;
        Ok [ ("success", VBool false);
             ("skills", VList []);
             ("error", VStr message);
             ("issues", issues);
             ("warnings", warnings) ]
    end.

End ToolsExtractor.

(** ** Notions the further properties are stated with *)

(** A cell with nothing to search: no text, or white space only. *)
Definition cell_blank (c : cell) : bool :=
  match c with
  | Text s => all_space s
  | _ => true
  end.

(** The vocabulary entries found in a text. *)
Definition found_in (text : string) : list string :=
  filter (fun skill => PyStr.str_in skill text) common_skills.

(** The fields a best match and an alternative have in common. *)
Definition shared_fields : list string :=
  ["job_title"; "company_name"; "location"; "salary"; "match_score";
   "matched_skills"].

(** * Properties *)

(** ** The scorer *)

Lemma in_list_In (s : string) (l : list string) :
  in_list s l = true <-> In s l.
Proof.
  unfold in_list. rewrite existsb_exists. split.
  - intros [x [Hx Heq]]. apply String.eqb_eq in Heq. now subst.
  - intros H. exists s. split; [assumption | apply String.eqb_refl].
Qed.

Lemma skill_points_awards (skill : string) : awards skill (skill_points skill).
Proof.
  unfold skill_points.
  destruct (String.length skill <=? 3)%nat eqn:Hlen.
  - apply awards_short. now apply Nat.leb_le.
  - apply Nat.leb_gt in Hlen.
    destruct (in_list skill high_value_skills) eqn:Hin.
    + apply awards_high_value; [assumption | now apply in_list_In].
    + apply awards_standard; [assumption |].
      intros H. apply in_list_In in H. congruence.
Qed.

Lemma awards_functional (skill : string) (p q : Z) :
  awards skill p -> awards skill q -> p = q.
Proof.
  intros Hp Hq. destruct Hp; destruct Hq; try reflexivity; try lia;
    contradiction.
Qed.

Lemma skill_points_pos (skill : string) : (1 <= skill_points skill)%Z.
Proof.
  unfold skill_points.
  destruct (String.length skill <=? 3)%nat; [lia |].
  destruct (in_list skill high_value_skills); lia.
Qed.

Lemma sum_points_app (l1 l2 : list string) :
  sum_points (l1 ++ l2) = (sum_points l1 + sum_points l2)%Z.
Proof.
  unfold sum_points. induction l1 as [| x l1 IH]; simpl; [reflexivity |].
  rewrite IH. lia.
Qed.

Lemma sum_points_length (l : list string) :
  (Z.of_nat (List.length l) <= sum_points l)%Z.
Proof.
  unfold sum_points. induction l as [| x l IH]; simpl List.length; simpl map;
    simpl fold_right; [lia |].
  pose proof (skill_points_pos x). lia.
Qed.

Lemma bonus_nonneg (n : nat) : (0 <= bonus n)%Z.
Proof.
  unfold bonus. destruct (3 <=? n)%nat; destruct (5 <=? n)%nat; lia.
Qed.

Lemma bonus_mono (n m : nat) : n <= m -> (bonus n <= bonus m)%Z.
Proof.
  intros Hle. unfold bonus.
  destruct (3 <=? n)%nat eqn:H3n; destruct (3 <=? m)%nat eqn:H3m;
    destruct (5 <=? n)%nat eqn:H5n; destruct (5 <=? m)%nat eqn:H5m;
    try lia;
    repeat match goal with
           | H : (_ <=? _)%nat = true |- _ => apply Nat.leb_le in H
           | H : (_ <=? _)%nat = false |- _ => apply Nat.leb_gt in H
           end; lia.
Qed.

(** The loop over the skills, whatever the state it starts from. *)
Lemma fold_score_step (text : string) (skills matched : list string)
    (sc : Z) :
  fold_left (score_step text) skills (matched, sc)
  = (matched ++ matching text skills,
     (sc + sum_points (matching text skills))%Z).
Proof.
  revert matched sc.
  induction skills as [| skill skills IH]; intros matched sc.
  - simpl. rewrite app_nil_r, Z.add_0_r. reflexivity.
  - cbn [fold_left matching filter]. unfold score_step at 2.
    destruct (PyStr.str_in skill text) eqn:Hin.
    + rewrite IH. rewrite <- app_assoc. cbn [app].
      f_equal. unfold sum_points. cbn [map fold_right].
      fold (matching text skills). lia.
    + apply IH.
Qed.

Lemma calculate_job_score_blank (job : posting) (skills : list string) :
  blank job = true -> calculate_job_score job skills = mkScore 0 [].
Proof.
  intros Hb. unfold calculate_job_score. unfold blank in Hb.
  now rewrite Hb.
Qed.

Lemma calculate_job_score_spec (job : posting) (skills : list string) :
  blank job = false ->
  calculate_job_score job skills
  = mkScore (spec_score (job_text_of job) skills)
            (matching (job_text_of job) skills).
Proof.
  intros Hb. unfold calculate_job_score. unfold blank in Hb. rewrite Hb.
  rewrite fold_score_step. cbn [app]. unfold spec_score, bonus.
  destruct (3 <=? List.length (matching (job_text_of job) skills))%nat;
    destruct (5 <=? List.length (matching (job_text_of job) skills))%nat;
    f_equal; lia.
Qed.

Lemma matching_subseq (text : string) (skills : list string) :
  subseq (matching text skills) skills.
Proof.
  induction skills as [| skill skills IH]; cbn [matching filter].
  - constructor.
  - destruct (PyStr.str_in skill text); now constructor.
Qed.

Lemma matching_app (text : string) (l1 l2 : list string) :
  matching text (l1 ++ l2) = matching text l1 ++ matching text l2.
Proof. unfold matching. apply filter_app. Qed.

Lemma spec_score_length (text : string) (skills : list string) :
  (Z.of_nat (List.length (matching text skills)) <= spec_score text skills)%Z.
Proof.
  unfold spec_score.
  pose proof (sum_points_length (matching text skills)).
  pose proof (bonus_nonneg (List.length (matching text skills))). lia.
Qed.

(** C2: for a posting whose searchable text is not blank, the score is the
    sum, over the skills of the list found in that text, of 2 for a skill
    of at most 3 characters, else 3 for a skill of the high-value set, else
    1, plus 2 when at least 3 skills matched and 3 more when at least 5
    did; and the matched skills are those found. *)
Theorem score_is_weighted_sum_plus_bonus
    (job : posting) (skills : list string) :
  blank job = false ->
  let found := matching (job_text_of job) skills in
  matched_skills (calculate_job_score job skills) = found
  /\ score (calculate_job_score job skills)
     = (fold_right Z.add 0 (map skill_points found)
        + (if (3 <=? List.length found)%nat then 2 else 0)
        + (if (5 <=? List.length found)%nat then 3 else 0))%Z
  /\ (forall skill, awards skill (skill_points skill))
  /\ (forall skill p, awards skill p -> p = skill_points skill).
Proof.
  intros Hb found. rewrite (calculate_job_score_spec job skills Hb).
  cbn [matched_skills score]. split; [reflexivity |]. split.
  - unfold spec_score, sum_points, bonus. fold found. lia.
  - split.
    + apply skill_points_awards.
    + intros skill p Hp.
      apply (awards_functional skill); [assumption | apply skill_points_awards].
Qed.

(** The posting and the skills of the specification's first example. *)
Lemma score_is_weighted_sum_plus_bonus_witness :
  let job := mkPosting (Text "Python Developer") (Text "Acme") (Text "Remote")
                       NaN (Text "Looking for Python and SQL expert") in
  blank job = false
  /\ matched_skills (calculate_job_score job ["python"; "sql"])
     = ["python"; "sql"]
  /\ score (calculate_job_score job ["python"; "sql"]) = 5%Z.
Proof.
  intros job.
  destruct (score_is_weighted_sum_plus_bonus job ["python"; "sql"] eq_refl)
    as [Hm [Hs _]].
  split; [reflexivity |]. split.
  - rewrite Hm. reflexivity.
  - rewrite Hs. reflexivity.
Defined.

(** The specification's second example: three of the five skills are not
    in the text, and no bonus is added. *)
Example two_of_five_skills_match :
  calculate_job_score python_developer
                      ["python"; "sql"; "aws"; "docker"; "react"]
  = mkScore 5 ["python"; "sql"].
Proof. reflexivity. Qed.

(** The space that follows the title in the searchable text lets a skill
    match across the title and the description. *)
Example skill_across_title_and_description :
  let job := mkPosting (Text "Data") (Text "Acme") (Text "Remote") NaN
                       (Text "Analysis of sales") in
  job_text_of job = "data analysis of sales "
  /\ calculate_job_score job ["data analysis"] = mkScore 1 ["data analysis"].
Proof. split; reflexivity. Qed.

Lemma score_app_matching (job : posting) (skills : list string)
    (skill : string) :
  PyStr.str_in skill (job_text_of job) = true ->
  blank job = false ->
  (score (calculate_job_score job skills) + skill_points skill
   <= score (calculate_job_score job (skills ++ [skill])))%Z.
Proof.
  intros Hin Hb. rewrite !calculate_job_score_spec by assumption.
  cbn [score]. unfold spec_score. rewrite matching_app.
  cbn [matching filter]. rewrite Hin.
  rewrite sum_points_app, length_app. cbn [List.length].
  fold (matching (job_text_of job) skills).
  assert (Hone : sum_points [skill] = skill_points skill).
  { unfold sum_points. cbn [map fold_right]. lia. }
  rewrite Hone.
  pose proof (bonus_mono (List.length (matching (job_text_of job) skills))
                (List.length (matching (job_text_of job) skills) + 1)
                ltac:(lia)).
  lia.
Qed.

Lemma score_nonneg (job : posting) (skills : list string) :
  (0 <= score (calculate_job_score job skills))%Z.
Proof.
  destruct (blank job) eqn:Hb.
  - rewrite calculate_job_score_blank by assumption. cbn [score]. lia.
  - rewrite calculate_job_score_spec by assumption. cbn [score].
    pose proof (spec_score_length (job_text_of job) skills). lia.
Qed.

(** C6: for a fixed posting, appending to the skills list one more skill
    that is found in the posting's text gives a score at least as high. *)
Theorem score_monotone_in_matching_skills
    (job : posting) (skills : list string) (skill : string) :
  PyStr.str_in skill (job_text_of job) = true ->
  (score (calculate_job_score job skills)
   <= score (calculate_job_score job (skills ++ [skill])))%Z.
Proof.
  intros Hin. destruct (blank job) eqn:Hb.
  - rewrite !calculate_job_score_blank by assumption. cbn [score]. lia.
  - pose proof (score_app_matching job skills skill Hin Hb).
    pose proof (skill_points_pos skill). lia.
Qed.

Lemma score_monotone_in_matching_skills_witness :
  let job := mkPosting (Text "Python Developer") (Text "Acme") (Text "Remote")
                       NaN (Text "Looking for Python and SQL expert") in
  PyStr.str_in "sql" (job_text_of job) = true
  /\ (score (calculate_job_score job ["python"])
      <= score (calculate_job_score job (["python"] ++ ["sql"])))%Z.
Proof.
  intros job. split; [reflexivity |].
  apply (score_monotone_in_matching_skills job ["python"] "sql").
  reflexivity.
Defined.

(** C10: the matched skills are a subsequence of the skills list, the score
    is at least their number, and the score is 0 exactly when none
    matched. *)
Theorem matched_skills_subsequence_and_score_bounds
    (job : posting) (skills : list string) :
  subseq (matched_skills (calculate_job_score job skills)) skills
  /\ (Z.of_nat (List.length (matched_skills (calculate_job_score job skills)))
      <= score (calculate_job_score job skills))%Z
  /\ (score (calculate_job_score job skills) = 0%Z
      <-> matched_skills (calculate_job_score job skills) = []).
Proof.
  destruct (blank job) eqn:Hb.
  - rewrite calculate_job_score_blank by assumption.
    cbn [matched_skills score List.length]. repeat split; try lia.
    clear. induction skills; now constructor.
  - rewrite calculate_job_score_spec by assumption.
    cbn [matched_skills score].
    pose proof (spec_score_length (job_text_of job) skills) as Hlen.
    split; [apply matching_subseq |]. split; [assumption |]. split.
    + intros H0. destruct (matching (job_text_of job) skills); [reflexivity |].
      cbn [List.length] in Hlen. lia.
    + intros Hnil. unfold spec_score. rewrite Hnil. reflexivity.
Qed.


(** ** The sort *)

Section SortFacts.

Context {A : Type}.
Variable key : A -> Z.

Lemma insert_desc_perm (x : A) (l : list A) :
  Permutation (x :: l) (insert_desc key x l).
Proof.
  induction l as [| y l IH]; cbn [insert_desc].
  - apply Permutation_refl.
  - destruct (key x <? key y)%Z.
    + eapply Permutation_trans; [apply perm_swap |].
      now apply perm_skip.
    + apply Permutation_refl.
Qed.

Lemma sort_desc_perm (l : list A) : Permutation l (sort_desc key l).
Proof.
  induction l as [| x l IH]; cbn [sort_desc fold_right].
  - apply perm_nil.
  - eapply Permutation_trans; [| apply insert_desc_perm].
    now apply perm_skip.
Qed.

Lemma sort_desc_length (l : list A) :
  List.length (sort_desc key l) = List.length l.
Proof. symmetry. apply Permutation_length, sort_desc_perm. Qed.

Lemma sort_desc_Forall (P : A -> Prop) (l : list A) :
  Forall P l -> Forall P (sort_desc key l).
Proof.
  intros H. eapply Permutation_Forall; [apply sort_desc_perm | exact H].
Qed.

Lemma sort_desc_In (x : A) (l : list A) : In x (sort_desc key l) -> In x l.
Proof.
  intros H. eapply Permutation_in; [| exact H].
  apply Permutation_sym, sort_desc_perm.
Qed.

Variable pos : A -> nat.

Lemma before_trans (a b c : A) :
  before key pos a b -> before key pos b c -> before key pos a c.
Proof. unfold before. intros [H1 | [H1 H1']] [H2 | [H2 H2']]; lia. Qed.

Lemma before_irrefl (a : A) : ~ before key pos a a.
Proof. unfold before. intros [H | [_ H]]; lia. Qed.

Lemma before_total (a b : A) :
  pos a <> pos b -> before key pos a b \/ before key pos b a.
Proof. unfold before. intros H. lia. Qed.

Lemma insert_desc_sorted (x : A) (l : list A) :
  Forall (fun y => pos x < pos y) l ->
  StronglySorted (before key pos) l ->
  StronglySorted (before key pos) (insert_desc key x l).
Proof.
  induction l as [| y l IH]; intros Hpos Hsorted; cbn [insert_desc].
  - constructor; constructor.
  - inversion Hpos as [| ? ? Hy Hl]; subst.
    inversion Hsorted as [| ? ? Hs Hall]; subst.
    destruct (key x <? key y)%Z eqn:Hlt.
    + apply Z.ltb_lt in Hlt. constructor; [now apply IH |].
      eapply Permutation_Forall; [apply insert_desc_perm |].
      constructor; [left; assumption | assumption].
    + apply Z.ltb_ge in Hlt.
      assert (Hxy : before key pos x y) by (unfold before; lia).
      constructor; [assumption |].
      constructor; [assumption |].
      rewrite Forall_forall in Hall, Hl |- *. intros z Hz.
      specialize (Hall z Hz). specialize (Hl z Hz).
      unfold before in *. lia.
Qed.

Lemma sort_desc_sorted (l : list A) :
  StronglySorted (fun a b => pos a < pos b) l ->
  StronglySorted (before key pos) (sort_desc key l).
Proof.
  induction l as [| x l IH]; intros Hs; cbn [sort_desc fold_right].
  - constructor.
  - inversion Hs as [| ? ? Hs' Hall]; subst.
    apply insert_desc_sorted; [| now apply IH].
    now apply sort_desc_Forall.
Qed.

End SortFacts.

Lemma filter_sorted {A : Type} (R : A -> A -> Prop) (f : A -> bool)
    (l : list A) :
  StronglySorted R l -> StronglySorted R (filter f l).
Proof.
  induction 1 as [| x l Hs IH Hall]; cbn [filter]; [constructor |].
  destruct (f x); [| assumption].
  constructor; [assumption |].
  rewrite Forall_forall in Hall |- *. intros y Hy.
  apply filter_In in Hy. now apply Hall.
Qed.

(** Sorting two lists that are related element by element, on keys that
    agree on related elements, keeps them related. *)
Section SortRelated.

Context {A B : Type}.
Variable keyA : A -> Z.
Variable keyB : B -> Z.
Variable R : A -> B -> Prop.
Hypothesis R_key : forall a b, R a b -> keyA a = keyB b.

Lemma insert_desc_related (x : A) (y : B) (l : list A) (m : list B) :
  R x y -> Forall2 R l m ->
  Forall2 R (insert_desc keyA x l) (insert_desc keyB y m).
Proof.
  intros Hxy Hlm. induction Hlm as [| a b l m Hab Hlm IH];
    cbn [insert_desc].
  - constructor; [assumption | constructor].
  - rewrite <- (R_key x y Hxy), <- (R_key a b Hab).
    destruct (keyA x <? keyA a)%Z.
    + constructor; assumption.
    + constructor; [assumption |]. constructor; assumption.
Qed.

Lemma sort_desc_related (l : list A) (m : list B) :
  Forall2 R l m -> Forall2 R (sort_desc keyA l) (sort_desc keyB m).
Proof.
  induction 1 as [| a b l m Hab Hlm IH]; cbn [sort_desc fold_right].
  - constructor.
  - now apply insert_desc_related.
Qed.

End SortRelated.

Lemma firstn_related {A B : Type} (R : A -> B -> Prop) (n : nat)
    (l : list A) (m : list B) :
  Forall2 R l m -> Forall2 R (firstn n l) (firstn n m).
Proof.
  intros H. revert n. induction H as [| a b l m Hab Hlm IH]; intros n.
  - rewrite !firstn_nil. constructor.
  - destruct n; cbn [firstn]; constructor; auto.
Qed.

Lemma Forall2_same_length {A B : Type} (R : A -> B -> Prop)
    (l : list A) (m : list B) :
  Forall2 R l m -> List.length l = List.length m.
Proof. induction 1; cbn [List.length]; congruence. Qed.

Lemma take_upto_related {A B : Type} (R : A -> B -> Prop) (n : Z)
    (l : list A) (m : list B) :
  Forall2 R l m -> Forall2 R (take_upto n l) (take_upto n m).
Proof.
  intros H. unfold take_upto.
  rewrite (Forall2_same_length R l m H).
  destruct (0 <=? n)%Z; now apply firstn_related.
Qed.

(** ** The scored table *)

Lemma rows_index_lower_bound (skills : list string) (jobs_df : list posting)
    (start : nat) :
  Forall (fun e => start <= js_index e)
         (map (scored_row skills)
              (combine (seq start (List.length jobs_df)) jobs_df)).
Proof.
  revert start. induction jobs_df as [| job jobs_df IH]; intros start;
    cbn [List.length seq combine map]; constructor.
  - cbn. lia.
  - eapply Forall_impl; [| apply (IH (S start))].
    cbn beta. intros e He. lia.
Qed.

Lemma rows_sorted_by_index (skills : list string) (jobs_df : list posting)
    (start : nat) :
  StronglySorted (fun a b => js_index a < js_index b)
                 (map (scored_row skills)
                      (combine (seq start (List.length jobs_df)) jobs_df)).
Proof.
  revert start. induction jobs_df as [| job jobs_df IH]; intros start;
    cbn [List.length seq combine map]; constructor.
  - apply IH.
  - eapply Forall_impl; [| apply (rows_index_lower_bound _ _ (S start))].
    cbn. intros e He. lia.
Qed.

Lemma scored_sorted_by_index (skills : list string) (jobs_df : list posting) :
  StronglySorted (fun a b => js_index a < js_index b) (scored skills jobs_df).
Proof. apply rows_sorted_by_index. Qed.

Lemma iterrows_rows (jobs_df : list posting) :
  map snd (iterrows jobs_df) = jobs_df.
Proof.
  unfold iterrows. generalize 0.
  induction jobs_df as [| job jobs_df IH]; intros start;
    cbn [List.length seq combine map snd]; [reflexivity |].
  now rewrite IH.
Qed.

Lemma scored_job_data (skills : list string) (jobs_df : list posting) :
  map js_job_data (scored skills jobs_df) = jobs_df.
Proof.
  unfold scored. rewrite map_map. cbn [scored_row js_job_data].
  apply iterrows_rows.
Qed.

Lemma scored_length (skills : list string) (jobs_df : list posting) :
  List.length (scored skills jobs_df) = List.length jobs_df.
Proof.
  rewrite <- (scored_job_data skills jobs_df) at 2. now rewrite length_map.
Qed.

(** What an element of the scored table holds. *)
Lemma scored_In (skills : list string) (jobs_df : list posting)
    (e : job_score) :
  In e (scored skills jobs_df) ->
  In (js_job_data e) jobs_df
  /\ js_score e = score (calculate_job_score (js_job_data e) skills)
  /\ js_matched_skills e
     = matched_skills (calculate_job_score (js_job_data e) skills).
Proof.
  intros He. split.
  - rewrite <- (scored_job_data skills jobs_df). now apply in_map.
  - unfold scored in He. apply in_map_iff in He as [row [<- _]].
    split; reflexivity.
Qed.

Lemma scored_score_nonneg (skills : list string) (jobs_df : list posting) :
  Forall (fun e => (0 <= js_score e)%Z) (scored skills jobs_df).
Proof.
  apply Forall_forall. intros e He.
  destruct (scored_In _ _ _ He) as [_ [-> _]]. apply score_nonneg.
Qed.

(** The loops that score the rows. *)
Lemma tools_score_rows (skills : list string) (rows : list (nat * posting))
    (acc : list job_score) :
  fold_left (Tools.score_row skills) rows acc
  = acc ++ map (scored_row skills) rows.
Proof.
  revert acc. induction rows as [| [index job] rows IH]; intros acc;
    cbn [fold_left map].
  - now rewrite app_nil_r.
  - rewrite IH. unfold Tools.score_row, scored_row. cbn [fst snd].
    now rewrite <- app_assoc.
Qed.

Lemma tools_ranked (skills : list string) (jobs_df : list posting) :
  Tools.ranked skills jobs_df = sort_desc js_score (scored skills jobs_df).
Proof. unfold Tools.ranked. now rewrite tools_score_rows. Qed.

Lemma agent_score_rows (skills : list string) (rows : list (nat * posting))
    (acc : list job_score) :
  fold_left (AiAgent.score_row skills) rows acc
  = acc ++ filter positive (map (scored_row skills) rows).
Proof.
  revert acc. induction rows as [| [index job] rows IH]; intros acc;
    cbn [fold_left map filter].
  - now rewrite app_nil_r.
  - rewrite IH. unfold AiAgent.score_row, scored_row, positive.
    cbn [fst snd js_score].
    destruct (0 <? score (calculate_job_score job skills))%Z.
    + now rewrite <- app_assoc.
    + reflexivity.
Qed.

Lemma agent_qualifying (skills : list string) (jobs_df : list posting) :
  AiAgent.qualifying skills jobs_df
  = filter positive (scored (AiAgent.normalize skills) jobs_df).
Proof. unfold AiAgent.qualifying. now rewrite agent_score_rows. Qed.

(** The ranking is in the order [rank_before]. *)
Lemma scored_ranked_sorted (skills : list string) (jobs_df : list posting) :
  StronglySorted rank_before (sort_desc js_score (scored skills jobs_df)).
Proof. apply sort_desc_sorted, scored_sorted_by_index. Qed.

Lemma ranking_sorted (skills : list string) (jobs_df : list posting) :
  StronglySorted rank_before (ranking skills jobs_df).
Proof.
  apply sort_desc_sorted, filter_sorted, scored_sorted_by_index.
Qed.

Lemma ranking_In (skills : list string) (jobs_df : list posting)
    (e : job_score) :
  In e (ranking skills jobs_df) ->
  In e (scored skills jobs_df) /\ (0 < js_score e)%Z.
Proof.
  intros He. apply sort_desc_In in He. apply filter_In in He as [He Hp].
  split; [assumption | now apply Z.ltb_lt].
Qed.

(** No posting scores above 0 exactly when nothing qualifies. *)
Lemma no_match_filter (skills : list string) (jobs_df : list posting) :
  no_match skills jobs_df <-> filter positive (scored skills jobs_df) = [].
Proof.
  unfold no_match. split.
  - intros Hall.
    destruct (filter positive (scored skills jobs_df)) as [| e l] eqn:Hf;
      [reflexivity |].
    assert (He : In e (filter positive (scored skills jobs_df)))
      by (rewrite Hf; now left).
    apply filter_In in He as [He Hp]. apply Z.ltb_lt in Hp.
    destruct (scored_In _ _ _ He) as [Hin [Hs _]].
    rewrite Forall_forall in Hall. specialize (Hall _ Hin). lia.
  - intros Hnil. apply Forall_forall. intros job Hjob.
    rewrite <- (scored_job_data skills jobs_df) in Hjob.
    apply in_map_iff in Hjob as [e [<- He]].
    destruct (scored_In _ _ _ He) as [_ [Hs _]]. rewrite <- Hs.
    destruct (positive e) eqn:Hp.
    + assert (Hin : In e (filter positive (scored skills jobs_df)))
        by (apply filter_In; now split).
      rewrite Hnil in Hin. contradiction.
    + now apply Z.ltb_ge in Hp.
Qed.

(** ** The returned dictionaries *)

Lemma dict_get_app (k : string) (v : pyval) (d d' : dict) :
  dict_get k d = Some v -> dict_get k (d ++ d') = Some v.
Proof.
  induction d as [| [k' v'] d IH]; cbn [dict_get app]; [discriminate |].
  destruct (String.eqb k k'); auto.
Qed.

(** What [best_fields] returns, when it returns. *)
Lemma best_fields_ok (best : job_score) (job_scores : list job_score)
    (d : dict) :
  best_fields best job_scores = Ok d ->
  (exists text,
      description_text (js_job_data best) = Some text
      /\ dict_get "job_description" d
         = Some (VStr (PyStr.slice_to 300 text ++ "...")))
  /\ dict_get "total_jobs_analyzed" d
     = Some (VInt (Z.of_nat (List.length job_scores)))
  /\ dict_get "match_score" d = Some (VInt (js_score best))
  /\ dict_get "matched_skills" d = Some (VList (js_matched_skills best))
  /\ dict_get "error" d = None.
Proof.
  destruct best as [index sc matched [title company loc sal descr]].
  unfold best_fields, description_text.
  cbn [js_job_data js_score js_matched_skills job_title company_name
       location salary job_description].
  destruct title; destruct company; destruct loc; destruct descr;
    cbn [getitem bind get_default slice_val]; intros H;
    try discriminate H; injection H as <-;
    (split; [eexists; split; reflexivity | repeat split; reflexivity]).
Qed.

Lemma best_fields_readable (best : job_score) (job_scores : list job_score) :
  readable (js_job_data best) ->
  exists d, best_fields best job_scores = Ok d.
Proof.
  destruct best as [index sc matched [title company loc sal descr]].
  unfold readable, listable, best_fields.
  cbn [js_job_data js_score js_matched_skills job_title company_name
       location salary job_description].
  intros [[Ht [Hc Hl]] Hd].
  destruct title; destruct company; destruct loc; destruct descr;
    try contradiction; cbn [getitem bind get_default slice_val];
    eexists; reflexivity.
Qed.

Lemma Forall2_and_left {A B : Type} (P : A -> Prop) (R : A -> B -> Prop)
    (l : list A) (m : list B) :
  Forall P l -> Forall2 R l m -> Forall2 (fun a b => P a /\ R a b) l m.
Proof.
  intros HP HR. induction HR as [| a b l m Hab Hlm IH]; [constructor |].
  inversion HP; subst. constructor; auto.
Qed.

Lemma Forall2_weaken {A B : Type} (R S : A -> B -> Prop)
    (l : list A) (m : list B) :
  (forall a b, R a b -> S a b) -> Forall2 R l m -> Forall2 S l m.
Proof. intros H. induction 1; constructor; auto. Qed.

(** ** The loop of the alternatives *)

Section Alternatives.

Variable alternative : posting -> score_info -> result dict.
Variable skills : list string.

Hypothesis alternative_score :
  forall job info d, alternative job info = Ok d ->
                     match_score_of d = score info.

Lemma alternative_rows_raise (rows : list (nat * posting)) (e : exn) :
  fold_left (alternative_row alternative skills) rows (Raise e) = Raise e.
Proof. induction rows as [| row rows IH]; cbn [fold_left]; auto. Qed.

Lemma alternative_rows_ok (rows : list (nat * posting)) (acc out : list dict) :
  fold_left (alternative_row alternative skills) rows (Ok acc) = Ok out ->
  exists ds,
    out = acc ++ ds
    /\ Forall2 (listed_as alternative skills)
               (filter positive (map (scored_row skills) rows)) ds.
Proof.
  revert acc. induction rows as [| [index job] rows IH]; intros acc;
    cbn [fold_left map filter].
  - intros [= <-]. exists []. rewrite app_nil_r. split; constructor.
  - unfold alternative_row at 2. cbn [bind].
    unfold positive, scored_row at 1. cbn [fst snd js_score].
    destruct (0 <? score (calculate_job_score job skills))%Z.
    + destruct (alternative job (calculate_job_score job skills))
        as [d | e] eqn:Hd; cbn [bind].
      * intros H. destruct (IH _ H) as [ds [-> Hds]].
        exists (d :: ds). rewrite <- app_assoc. split; [reflexivity |].
        constructor; [exact Hd | exact Hds].
      * rewrite alternative_rows_raise. discriminate.
    + apply IH.
Qed.

Lemma alternative_rows_total (rows : list (nat * posting)) (acc : list dict) :
  Forall (fun e => exists d, listed_as alternative skills e d)
         (filter positive (map (scored_row skills) rows)) ->
  exists out,
    fold_left (alternative_row alternative skills) rows (Ok acc) = Ok out.
Proof.
  revert acc. induction rows as [| [index job] rows IH]; intros acc;
    cbn [fold_left map filter].
  - intros _. now exists acc.
  - unfold alternative_row at 2. cbn [bind].
    unfold positive, scored_row at 1. cbn [fst snd js_score].
    destruct (0 <? score (calculate_job_score job skills))%Z.
    + intros Hall. inversion Hall as [| ? ? [d Hd] Hrest]; subst.
      unfold listed_as, scored_row in Hd. cbn [js_job_data snd] in Hd.
      rewrite Hd.
      cbn [bind]. now apply IH.
    + apply IH.
Qed.

(** The alternatives, before the cut, are the dictionaries of the ranking,
    in its order. *)
Lemma alternatives_ranked (jobs_df : list posting) (top_n : Z)
    (job_scores : list dict) :
  fold_left (alternative_row alternative skills) (iterrows jobs_df) (Ok [])
  = Ok job_scores ->
  Forall2 (listed_as alternative skills)
          (take_upto top_n (ranking skills jobs_df))
          (take_upto top_n (sort_desc match_score_of job_scores)).
Proof.
  intros Hloop.
  destruct (alternative_rows_ok _ _ _ Hloop) as [ds [-> Hds]].
  cbn [app]. fold (scored skills jobs_df) in Hds.
  set (scored_here :=
         fun e => js_score e
                  = score (calculate_job_score (js_job_data e) skills)).
  assert (Hall : Forall scored_here (filter positive (scored skills jobs_df))).
  { apply Forall_forall. intros e He. apply filter_In in He as [He _].
    now destruct (scored_In _ _ _ He) as [_ [Hs _]]. }
  pose proof (Forall2_and_left _ _ _ _ Hall Hds) as Hboth.
  apply (Forall2_weaken
           (fun e d => scored_here e /\ listed_as alternative skills e d));
    [now intros e d [_ H] |].
  apply take_upto_related. unfold ranking.
  apply sort_desc_related; [| exact Hboth].
  intros e d [Hs Hd]. unfold scored_here in Hs. rewrite Hs.
  symmetry. exact (alternative_score _ _ _ Hd).
Qed.

End Alternatives.

Lemma tools_alternative_score (job : posting) (info : score_info) (d : dict) :
  Tools.alternative job info = Ok d -> match_score_of d = score info.
Proof.
  destruct job as [title company loc sal descr]. unfold Tools.alternative.
  cbn [job_title company_name location salary].
  destruct title; destruct company; destruct loc;
    cbn [getitem bind]; intros H; try discriminate H;
    injection H as <-; reflexivity.
Qed.

Lemma agent_alternative_score (job : posting) (info : score_info) (d : dict) :
  AiAgent.alternative job info = Ok d -> match_score_of d = score info.
Proof.
  destruct job as [title company loc sal descr]. unfold AiAgent.alternative.
  cbn [job_title company_name location salary].
  destruct title; destruct company; destruct loc;
    cbn [getitem bind]; intros H; try discriminate H;
    injection H as <-; reflexivity.
Qed.

Lemma tools_alternative_listable (job : posting) (info : score_info) :
  listable job -> exists d, Tools.alternative job info = Ok d.
Proof.
  destruct job as [title company loc sal descr].
  unfold listable, Tools.alternative.
  cbn [job_title company_name location salary]. intros [Ht [Hc Hl]].
  destruct title; destruct company; destruct loc; try contradiction;
    cbn [getitem bind]; eexists; reflexivity.
Qed.

Lemma agent_alternative_listable (job : posting) (info : score_info) :
  listable job -> exists d, AiAgent.alternative job info = Ok d.
Proof.
  destruct job as [title company loc sal descr].
  unfold listable, AiAgent.alternative.
  cbn [job_title company_name location salary]. intros [Ht [Hc Hl]].
  destruct title; destruct company; destruct loc; try contradiction;
    cbn [getitem bind]; eexists; reflexivity.
Qed.

(** An empty skills list scores nothing. *)
Lemma no_skills_no_score (job : posting) :
  calculate_job_score job [] = mkScore 0 [].
Proof.
  unfold calculate_job_score.
  destruct (negb (PyStr.truthy (PyStr.strip (job_text_of job))));
    reflexivity.
Qed.

Lemma no_skills_no_match (jobs_df : list posting) : no_match [] jobs_df.
Proof.
  apply Forall_forall. intros job _. rewrite no_skills_no_score.
  cbn [score]. lia.
Qed.

Lemma no_match_ranking (skills : list string) (jobs_df : list posting) :
  no_match skills jobs_df -> ranking skills jobs_df = [].
Proof.
  intros H. unfold ranking. apply no_match_filter in H. now rewrite H.
Qed.

Lemma take_upto_nil {A : Type} (n : Z) : take_upto n (@nil A) = [].
Proof.
  unfold take_upto. destruct (0 <=? n)%Z; apply firstn_nil.
Qed.

(** ** Sorting and keeping the positive scores commute *)

Section SortFilter.

Context {A : Type}.
Variable key : A -> Z.
Variable keep : A -> bool.

Lemma insert_desc_first (x : A) (l : list A) :
  Forall (fun y => (key y <= key x)%Z) l -> insert_desc key x l = x :: l.
Proof.
  destruct l as [| y l]; [reflexivity |]. intros H.
  inversion H as [| ? ? Hy _]; subst. cbn [insert_desc].
  apply Z.ltb_ge in Hy. now rewrite Hy.
Qed.

Lemma insert_desc_descending (x : A) (l : list A) :
  StronglySorted (fun a b => (key b <= key a)%Z) l ->
  StronglySorted (fun a b => (key b <= key a)%Z) (insert_desc key x l).
Proof.
  induction 1 as [| y l Hs IH Hall]; cbn [insert_desc].
  - constructor; constructor.
  - destruct (key x <? key y)%Z eqn:Hlt.
    + apply Z.ltb_lt in Hlt. constructor; [assumption |].
      eapply Permutation_Forall; [apply insert_desc_perm |].
      constructor; [lia | assumption].
    + apply Z.ltb_ge in Hlt. constructor.
      * now constructor.
      * constructor; [assumption |].
        eapply Forall_impl; [| exact Hall]. cbn. intros z Hz. lia.
Qed.

Lemma sort_desc_descending (l : list A) :
  StronglySorted (fun a b => (key b <= key a)%Z) (sort_desc key l).
Proof.
  induction l as [| x l IH]; cbn [sort_desc fold_right].
  - constructor.
  - now apply insert_desc_descending.
Qed.

Lemma filter_insert_desc (x : A) (l : list A) :
  StronglySorted (fun a b => (key b <= key a)%Z) l ->
  filter keep (insert_desc key x l)
  = if keep x then insert_desc key x (filter keep l) else filter keep l.
Proof.
  induction 1 as [| y l Hs IH Hall]; cbn [insert_desc filter].
  - now destruct (keep x).
  - destruct (key x <? key y)%Z eqn:Hlt; cbn [filter].
    + rewrite IH. destruct (keep y); destruct (keep x); try reflexivity.
      cbn [insert_desc]. now rewrite Hlt.
    + destruct (keep x); [| reflexivity].
      destruct (keep y).
      * cbn [insert_desc]. now rewrite Hlt.
      * symmetry. apply insert_desc_first.
        apply Z.ltb_ge in Hlt. apply Forall_forall. intros z Hz.
        apply filter_In in Hz as [Hz _].
        rewrite Forall_forall in Hall. specialize (Hall z Hz). lia.
Qed.

Lemma filter_sort_desc (l : list A) :
  filter keep (sort_desc key l) = sort_desc key (filter keep l).
Proof.
  induction l as [| x l IH]; cbn [sort_desc fold_right filter];
    [reflexivity |].
  rewrite filter_insert_desc by apply sort_desc_descending.
  fold (sort_desc key l). rewrite IH. now destruct (keep x).
Qed.

End SortFilter.

(** The ranking is what remains of the sorted table of tools.py when the
    rows of score 0 are left out. *)
Lemma ranking_of_ranked (skills : list string) (jobs_df : list posting) :
  ranking skills jobs_df = filter positive (Tools.ranked skills jobs_df).
Proof.
  rewrite tools_ranked. unfold ranking. symmetry. apply filter_sort_desc.
Qed.

Lemma sorted_by_index_inj (l : list job_score) (a b : job_score) :
  StronglySorted (fun x y => js_index x < js_index y) l ->
  In a l -> In b l -> js_index a = js_index b -> a = b.
Proof.
  induction 1 as [| x l Hs IH Hall]; [contradiction |].
  rewrite Forall_forall in Hall.
  intros [-> | Ha] [-> | Hb] Heq; auto.
  - specialize (Hall _ Hb). lia.
  - specialize (Hall _ Ha). lia.
Qed.

Lemma rank_before_total (skills : list string) (jobs_df : list posting)
    (a b : job_score) :
  In a (scored skills jobs_df) -> In b (scored skills jobs_df) -> a <> b ->
  rank_before a b \/ rank_before b a.
Proof.
  intros Ha Hb Hab. apply before_total. intros Heq. apply Hab.
  exact (sorted_by_index_inj _ _ _ (scored_sorted_by_index skills jobs_df)
           Ha Hb Heq).
Qed.

(** ** [find_best_job_match] *)

Lemma is_empty_nil {A : Type} (l : list A) : is_empty l = true <-> l = [].
Proof. destruct l; cbn; split; congruence. Qed.

Lemma tools_best_found (skills : list string) (jobs_df : list posting)
    (d : dict) :
  Tools.find_best_job_match skills jobs_df = Ok d ->
  dict_get "error" d = None ->
  exists best rest,
    Tools.ranked skills jobs_df = best :: rest
    /\ (0 < js_score best)%Z
    /\ best_fields best (Tools.ranked skills jobs_df) = Ok d.
Proof.
  unfold Tools.find_best_job_match.
  destruct (is_empty jobs_df || is_empty skills).
  - intros [= <-]. discriminate.
  - destruct (Tools.ranked skills jobs_df) as [| best rest] eqn:Hr.
    + intros [= <-]. discriminate.
    + destruct (js_score best =? 0)%Z eqn:Hz.
      * intros [= <-]. discriminate.
      * intros Hd _. exists best, rest. repeat split; [| assumption].
        apply Z.eqb_neq in Hz.
        assert (Hin : In best (scored skills jobs_df)).
        { apply (sort_desc_In js_score). rewrite <- tools_ranked, Hr.
          now left. }
        pose proof (scored_score_nonneg skills jobs_df) as Hall.
        rewrite Forall_forall in Hall. specialize (Hall _ Hin). lia.
Qed.

Lemma agent_best_found (skills : list string) (jobs_df : list posting)
    (d : dict) :
  AiAgent.find_best_job_match skills jobs_df = Ok d ->
  dict_get "error" d = None ->
  exists best rest d0,
    ranking (AiAgent.normalize skills) jobs_df = best :: rest
    /\ best_fields best (ranking (AiAgent.normalize skills) jobs_df) = Ok d0
    /\ d = d0 ++ [("reasoning", VStr (AiAgent.best_reasoning best))].
Proof.
  unfold AiAgent.find_best_job_match.
  destruct (is_empty jobs_df || is_empty skills).
  - intros [= <-]. discriminate.
  - rewrite agent_qualifying.
    fold (ranking (AiAgent.normalize skills) jobs_df).
    destruct (is_empty
                (filter positive (scored (AiAgent.normalize skills) jobs_df))).
    + intros [= <-]. discriminate.
    + destruct (ranking (AiAgent.normalize skills) jobs_df)
        as [| best rest] eqn:Hr; [discriminate |].
      destruct (best_fields best (best :: rest)) as [d0 | e] eqn:Hd0;
        cbn [bind]; [| discriminate].
      intros [= <-] _. now exists best, rest, d0.
Qed.

Lemma empty_input (skills : list string) (jobs_df : list posting) :
  jobs_df = [] \/ skills = [] -> is_empty jobs_df || is_empty skills = true.
Proof. intros [-> | ->]; cbn; [reflexivity | apply orb_true_r]. Qed.

Lemma no_match_nil (skills : list string) : no_match skills [].
Proof. constructor. Qed.

Lemma some_match_nonempty (skills : list string) (jobs_df : list posting) :
  ~ no_match skills jobs_df -> is_empty jobs_df || is_empty skills = false.
Proof.
  intros H. destruct jobs_df as [| job jobs_df].
  - exfalso. apply H, no_match_nil.
  - destruct skills as [| skill skills]; [| reflexivity].
    exfalso. apply H, no_skills_no_match.
Qed.

Lemma normalize_is_empty (skills : list string) :
  is_empty (AiAgent.normalize skills) = is_empty skills.
Proof. now destruct skills. Qed.

Lemma some_match_ranking (skills : list string) (jobs_df : list posting) :
  ~ no_match skills jobs_df ->
  exists best rest, ranking skills jobs_df = best :: rest.
Proof.
  intros H. destruct (ranking skills jobs_df) as [| best rest] eqn:Hr.
  - exfalso. apply H. apply no_match_filter.
    unfold ranking in Hr.
    destruct (filter positive (scored skills jobs_df)) as [| e l] eqn:Hf;
      [reflexivity |].
    apply (f_equal (@List.length _)) in Hr.
    rewrite sort_desc_length in Hr. discriminate.
  - now exists best, rest.
Qed.

(** The first of the sorted table is the first of the ranking, when
    anything qualifies. *)
Lemma ranked_head (skills : list string) (jobs_df : list posting)
    (best : job_score) (rest : list job_score) :
  ranking skills jobs_df = best :: rest ->
  exists rest', Tools.ranked skills jobs_df = best :: rest'.
Proof.
  intros Hr. rewrite ranking_of_ranked in Hr.
  pose proof (sort_desc_descending js_score (scored skills jobs_df)) as Hs.
  rewrite <- tools_ranked in Hs.
  destruct (Tools.ranked skills jobs_df) as [| e l]; [discriminate |].
  cbn [filter] in Hr. destruct (positive e) eqn:He.
  - injection Hr as -> _. now exists l.
  - exfalso. inversion Hs as [| ? ? _ Hall]; subst.
    assert (Hin : In best (filter positive l)) by (rewrite Hr; now left).
    apply filter_In in Hin as [Hin Hp].
    rewrite Forall_forall in Hall. specialize (Hall _ Hin).
    unfold positive in He, Hp. apply Z.ltb_ge in He. apply Z.ltb_lt in Hp.
    lia.
Qed.

Lemma ranking_readable (skills : list string) (jobs_df : list posting)
    (e : job_score) :
  Forall readable jobs_df -> In e (ranking skills jobs_df) ->
  readable (js_job_data e).
Proof.
  intros Hall He. apply ranking_In in He as [He _].
  destruct (scored_In _ _ _ He) as [Hin _].
  rewrite Forall_forall in Hall. now apply Hall.
Qed.

Lemma tools_best_exists (skills : list string) (jobs_df : list posting) :
  Forall readable jobs_df -> ~ no_match skills jobs_df ->
  exists d, Tools.find_best_job_match skills jobs_df = Ok d
            /\ dict_get "error" d = None.
Proof.
  intros Hread Hsome.
  destruct (some_match_ranking _ _ Hsome) as [best [rest Hr]].
  destruct (ranked_head _ _ _ _ Hr) as [rest' Hr'].
  assert (Hin : In best (ranking skills jobs_df)) by (rewrite Hr; now left).
  destruct (best_fields_readable best (Tools.ranked skills jobs_df)
              (ranking_readable _ _ _ Hread Hin)) as [d Hd].
  exists d. split;
    [| now destruct (best_fields_ok _ _ _ Hd) as (_ & _ & _ & _ & H)].
  unfold Tools.find_best_job_match.
  rewrite (some_match_nonempty _ _ Hsome).
  rewrite Hr' in Hd |- *.
  apply ranking_In in Hin as [_ Hpos].
  destruct (js_score best =? 0)%Z eqn:Hz; [| exact Hd].
  apply Z.eqb_eq in Hz. lia.
Qed.

Lemma agent_best_exists (skills : list string) (jobs_df : list posting) :
  Forall readable jobs_df -> ~ no_match (AiAgent.normalize skills) jobs_df ->
  exists d, AiAgent.find_best_job_match skills jobs_df = Ok d
            /\ dict_get "error" d = None.
Proof.
  intros Hread Hsome.
  destruct (some_match_ranking _ _ Hsome) as [best [rest Hr]].
  assert (Hin : In best (ranking (AiAgent.normalize skills) jobs_df))
    by (rewrite Hr; now left).
  destruct (best_fields_readable best
              (ranking (AiAgent.normalize skills) jobs_df)
              (ranking_readable _ _ _ Hread Hin)) as [d Hd].
  exists (d ++ [("reasoning", VStr (AiAgent.best_reasoning best))]).
  split.
  - unfold AiAgent.find_best_job_match.
    pose proof (some_match_nonempty _ _ Hsome) as Hne.
    rewrite normalize_is_empty in Hne. rewrite Hne.
    rewrite agent_qualifying.
    fold (ranking (AiAgent.normalize skills) jobs_df).
    destruct (filter positive (scored (AiAgent.normalize skills) jobs_df))
      as [| e l] eqn:Hf.
    + exfalso. apply Hsome. now apply no_match_filter.
    + cbn [is_empty]. rewrite Hr in Hd |- *. rewrite Hd. reflexivity.
  - destruct (best_fields_ok _ _ _ Hd) as (_ & _ & _ & _ & Herr).
    clear - Herr. induction d as [| [k v] d IH]; [reflexivity |].
    cbn [dict_get app] in Herr |- *.
    destruct (String.eqb "error" k); [discriminate | now apply IH].
Qed.

Lemma tools_best_no_match (skills : list string) (jobs_df : list posting) :
  is_empty jobs_df || is_empty skills = false ->
  no_match skills jobs_df ->
  Tools.find_best_job_match skills jobs_df = Ok Tools.no_matching_jobs.
Proof.
  intros Hne Hno. unfold Tools.find_best_job_match. rewrite Hne.
  destruct (Tools.ranked skills jobs_df) as [| best rest] eqn:Hr;
    [reflexivity |].
  assert (Hin : In best (scored skills jobs_df)).
  { apply (sort_desc_In js_score). rewrite <- tools_ranked, Hr. now left. }
  destruct (scored_In _ _ _ Hin) as [Hjob [Hs _]].
  unfold no_match in Hno. rewrite Forall_forall in Hno.
  specialize (Hno _ Hjob).
  pose proof (score_nonneg (js_job_data best) skills).
  assert (Hz : js_score best = 0%Z) by lia.
  rewrite Hz. reflexivity.
Qed.

Lemma agent_best_no_match (skills : list string) (jobs_df : list posting) :
  is_empty jobs_df || is_empty skills = false ->
  no_match (AiAgent.normalize skills) jobs_df ->
  AiAgent.find_best_job_match skills jobs_df = Ok AiAgent.no_matching_jobs.
Proof.
  intros Hne Hno. unfold AiAgent.find_best_job_match. rewrite Hne.
  rewrite agent_qualifying. apply no_match_filter in Hno. now rewrite Hno.
Qed.

Lemma alternatives_no_match
    (alternative : posting -> score_info -> result dict)
    (skills : list string) (jobs_df : list posting) :
  no_match skills jobs_df ->
  fold_left (alternative_row alternative skills) (iterrows jobs_df) (Ok [])
  = Ok [].
Proof.
  intros Hno. apply no_match_filter in Hno. unfold scored in Hno.
  destruct (alternative_rows_total alternative skills (iterrows jobs_df) [])
    as [out Hout].
  { rewrite Hno. constructor. }
  rewrite Hout.
  destruct (alternative_rows_ok _ _ _ _ _ Hout) as [ds [-> Hds]].
  rewrite Hno in Hds. inversion Hds. reflexivity.
Qed.

(** ** The reported conditions *)

(** C5, as the code has it: with an empty table or an empty skills list,
    [find_best_job_match] returns the dictionary of the condition "no jobs
    available or no skills provided" and [find_alternative_matches] the empty
    list; with a table and skills that are not empty and no posting that
    scores above 0, [find_best_job_match] returns the dictionary of the
    condition "no matching jobs found", which differs from the former in its
    error field, and [find_alternative_matches] returns the empty list
    again. Nothing is raised in any of these cases. *)
Theorem empty_input_and_no_match_are_reported
    (skills : list string) (jobs_df : list posting) (top_n : Z) :
  (jobs_df = [] \/ skills = [] ->
   Tools.find_best_job_match skills jobs_df = Ok Tools.no_jobs_or_skills
   /\ AiAgent.find_best_job_match skills jobs_df
      = Ok AiAgent.no_jobs_or_skills
   /\ Tools.find_alternative_matches skills jobs_df top_n = Ok []
   /\ AiAgent.find_alternative_matches skills jobs_df top_n = Ok [])
  /\ (jobs_df <> [] -> skills <> [] ->
      (no_match skills jobs_df ->
       Tools.find_best_job_match skills jobs_df = Ok Tools.no_matching_jobs)
      /\ (no_match (map PyStr.lower skills) jobs_df ->
          Tools.find_alternative_matches skills jobs_df top_n = Ok [])
      /\ (no_match (AiAgent.normalize skills) jobs_df ->
          AiAgent.find_best_job_match skills jobs_df
          = Ok AiAgent.no_matching_jobs
          /\ AiAgent.find_alternative_matches skills jobs_df top_n = Ok []))
  /\ dict_get "error" Tools.no_matching_jobs
     <> dict_get "error" Tools.no_jobs_or_skills
  /\ dict_get "error" AiAgent.no_matching_jobs
     <> dict_get "error" AiAgent.no_jobs_or_skills.
Proof.
  split; [| split; [| split; discriminate]].
  - intros Hempty. apply empty_input in Hempty.
    unfold Tools.find_best_job_match, AiAgent.find_best_job_match,
      Tools.find_alternative_matches, AiAgent.find_alternative_matches.
    rewrite Hempty. repeat split.
  - intros Hjobs Hskills.
    assert (Hne : is_empty jobs_df || is_empty skills = false).
    { destruct jobs_df; [contradiction |]. destruct skills;
        [contradiction | reflexivity]. }
    split; [| split].
    + now apply tools_best_no_match.
    + intros Hno. unfold Tools.find_alternative_matches. rewrite Hne.
      rewrite (alternatives_no_match _ _ _ Hno).
      cbn [bind sort_desc fold_right].
      now rewrite take_upto_nil.
    + intros Hno. split; [now apply agent_best_no_match |].
      unfold AiAgent.find_alternative_matches. rewrite Hne.
      rewrite (alternatives_no_match _ _ _ Hno).
      cbn [bind sort_desc fold_right].
      now rewrite take_upto_nil.
Qed.

(** C5 fails as it is stated for the alternatives: the list returned when
    no posting scores above 0 is the list returned for an empty table. *)
Lemma alternatives_not_found_counterexample :
  no_match (map PyStr.lower ["cobol"]) [line_cook]
  /\ Tools.find_alternative_matches ["cobol"] [line_cook] 5
     = Tools.find_alternative_matches ["cobol"] [] 5
  /\ AiAgent.find_alternative_matches ["cobol"] [line_cook] 5
     = AiAgent.find_alternative_matches ["cobol"] [] 5.
Proof.
  split; [| split; reflexivity].
  constructor; [vm_compute; discriminate | constructor].
Qed.

Example best_match_conditions_differ :
  Tools.find_best_job_match ["cobol"] [line_cook] = Ok Tools.no_matching_jobs
  /\ Tools.find_best_job_match ["cobol"] [] = Ok Tools.no_jobs_or_skills
  /\ Tools.find_best_job_match [] [line_cook] = Ok Tools.no_jobs_or_skills
  /\ Tools.no_matching_jobs <> Tools.no_jobs_or_skills.
Proof. repeat split. discriminate. Qed.

(** ** The number of jobs analyzed *)

(** C1, as the code has it: the record of the best match reports, in
    ai_agent.py, the number of postings whose score is above 0 and, in
    tools.py, the number of rows of the table; and each version returns such
    a record when the rows are readable and some posting scores above 0. *)
Theorem total_jobs_analyzed_by_version
    (skills : list string) (jobs_df : list posting) :
  (forall d,
      AiAgent.find_best_job_match skills jobs_df = Ok d ->
      dict_get "error" d = None ->
      dict_get "total_jobs_analyzed" d
      = Some (VInt (Z.of_nat
                      (List.length
                         (filter positive
                                 (scored (AiAgent.normalize skills)
                                         jobs_df))))))
  /\ (forall d,
         Tools.find_best_job_match skills jobs_df = Ok d ->
         dict_get "error" d = None ->
         dict_get "total_jobs_analyzed" d
         = Some (VInt (Z.of_nat (List.length jobs_df))))
  /\ (Forall readable jobs_df ->
      ~ no_match (AiAgent.normalize skills) jobs_df ->
      exists d, AiAgent.find_best_job_match skills jobs_df = Ok d
                /\ dict_get "error" d = None)
  /\ (Forall readable jobs_df ->
      ~ no_match skills jobs_df ->
      exists d, Tools.find_best_job_match skills jobs_df = Ok d
                /\ dict_get "error" d = None).
Proof.
  split; [| split; [| split]].
  - intros d Hd Herr.
    destruct (agent_best_found _ _ _ Hd Herr)
      as (best & rest & d0 & Hr & Hd0 & ->).
    destruct (best_fields_ok _ _ _ Hd0) as (_ & Htotal & _).
    apply dict_get_app. rewrite Htotal. unfold ranking.
    now rewrite sort_desc_length.
  - intros d Hd Herr.
    destruct (tools_best_found _ _ _ Hd Herr) as (best & rest & _ & _ & Hd0).
    destruct (best_fields_ok _ _ _ Hd0) as (_ & Htotal & _).
    rewrite Htotal, tools_ranked, sort_desc_length, scored_length.
    reflexivity.
  - apply agent_best_exists.
  - apply tools_best_exists.
Qed.

(** C1 fails as it is stated for tools.py: of two postings one scores
    above 0, and 2 jobs are reported. *)
Lemma total_jobs_analyzed_counterexample :
  List.length (filter positive (scored ["python"]
                                       [python_developer; line_cook])) = 1
  /\ exists d,
       Tools.find_best_job_match ["python"] [python_developer; line_cook]
       = Ok d
       /\ dict_get "error" d = None
       /\ dict_get "total_jobs_analyzed" d = Some (VInt 2).
Proof.
  split; [reflexivity |].
  eexists. split; [reflexivity |]. split; reflexivity.
Qed.

Example agent_counts_the_qualifying_jobs :
  exists d,
    AiAgent.find_best_job_match ["python"] [python_developer; line_cook]
    = Ok d
    /\ dict_get "total_jobs_analyzed" d = Some (VInt 1).
Proof. eexists. split; reflexivity. Qed.

(** ** The description of the best match *)

Lemma slice_to_length (n : nat) (s : string) :
  String.length (PyStr.slice_to n s) = Nat.min n (String.length s).
Proof.
  unfold PyStr.slice_to. revert s.
  induction n as [| n IH]; intros s; destruct s as [| c s];
    cbn [substring String.length Nat.min]; try reflexivity.
  now rewrite IH.
Qed.

Lemma slice_to_prefix (n : nat) (s : string) :
  prefix (PyStr.slice_to n s) s = true.
Proof.
  unfold PyStr.slice_to. revert s.
  induction n as [| n IH]; intros s; destruct s as [| c s];
    cbn [substring prefix]; try reflexivity.
  destruct (ascii_dec c c) as [_ | Hc]; [apply IH | contradiction].
Qed.

Lemma slice_to_short (n : nat) (s : string) :
  String.length s <= n -> PyStr.slice_to n s = s.
Proof.
  unfold PyStr.slice_to. revert s.
  induction n as [| n IH]; intros s; destruct s as [| c s];
    cbn [substring String.length]; intros Hlen; try reflexivity; [lia |].
  rewrite IH by lia. reflexivity.
Qed.

(** C8: the job_description field of a best match is the first 300
    characters of the description of the first posting of the ranking (all
    of the description when it is shorter), followed by the three dots. *)
Theorem best_match_description_is_truncated
    (skills : list string) (jobs_df : list posting) :
  (forall d,
      Tools.find_best_job_match skills jobs_df = Ok d ->
      dict_get "error" d = None ->
      exists best rest text,
        ranking skills jobs_df = best :: rest
        /\ In (js_job_data best) jobs_df
        /\ description_text (js_job_data best) = Some text
        /\ dict_get "job_description" d
           = Some (VStr (PyStr.slice_to 300 text ++ "...")))
  /\ (forall d,
         AiAgent.find_best_job_match skills jobs_df = Ok d ->
         dict_get "error" d = None ->
         exists best rest text,
           ranking (AiAgent.normalize skills) jobs_df = best :: rest
           /\ In (js_job_data best) jobs_df
           /\ description_text (js_job_data best) = Some text
           /\ dict_get "job_description" d
              = Some (VStr (PyStr.slice_to 300 text ++ "...")))
  /\ (forall text,
         String.length (PyStr.slice_to 300 text)
         = Nat.min 300 (String.length text)
         /\ prefix (PyStr.slice_to 300 text) text = true)
  /\ (Forall readable jobs_df ->
      (~ no_match skills jobs_df ->
       exists d, Tools.find_best_job_match skills jobs_df = Ok d
                 /\ dict_get "error" d = None)
      /\ (~ no_match (AiAgent.normalize skills) jobs_df ->
          exists d, AiAgent.find_best_job_match skills jobs_df = Ok d
                    /\ dict_get "error" d = None)).
Proof.
  split; [| split; [| split]].
  - intros d Hd Herr.
    destruct (tools_best_found _ _ _ Hd Herr)
      as (best & rest & Hr & Hpos & Hd0).
    destruct (best_fields_ok _ _ _ Hd0) as ((text & Htext & Hdescr) & _).
    assert (Hrank : ranking skills jobs_df
                    = best :: filter positive rest).
    { rewrite ranking_of_ranked, Hr. cbn [filter]. unfold positive at 1.
      apply Z.ltb_lt in Hpos. now rewrite Hpos. }
    exists best, (filter positive rest), text.
    split; [exact Hrank |]. split; [| now split].
    assert (Hin : In best (ranking skills jobs_df))
      by (rewrite Hrank; now left).
    apply ranking_In in Hin as [Hin _].
    now destruct (scored_In _ _ _ Hin) as [Hjob _].
  - intros d Hd Herr.
    destruct (agent_best_found _ _ _ Hd Herr)
      as (best & rest & d0 & Hr & Hd0 & ->).
    destruct (best_fields_ok _ _ _ Hd0) as ((text & Htext & Hdescr) & _).
    exists best, rest, text. split; [exact Hr |]. split.
    + assert (Hin : In best (ranking (AiAgent.normalize skills) jobs_df))
        by (rewrite Hr; now left).
      apply ranking_In in Hin as [Hin _].
      now destruct (scored_In _ _ _ Hin) as [Hjob _].
    + split; [exact Htext | now apply dict_get_app].
  - intros text. split; [apply slice_to_length | apply slice_to_prefix].
  - intros Hread. split.
    + now apply tools_best_exists.
    + now apply agent_best_exists.
Qed.

Example long_description_is_cut :
  exists d,
    Tools.find_best_job_match ["python"] [line_cook; wordy_job] = Ok d
    /\ dict_get "job_description" d
       = Some (VStr (String.concat "" (repeat "python " 42)
                     ++ "python" ++ "...")).
Proof. eexists. split; reflexivity. Qed.

Example short_description_gets_the_dots :
  exists d,
    AiAgent.find_best_job_match ["Python "] [line_cook; python_developer]
    = Ok d
    /\ dict_get "job_description" d
       = Some (VStr "Looking for Python and SQL expert...").
Proof. eexists. split; reflexivity. Qed.

(** A best match whose description is a missing value cannot be sliced:
    no record is returned for it. *)
Example missing_description_raises :
  Tools.find_best_job_match ["python"] [undescribed_job] = Raise TypeError
  /\ AiAgent.find_best_job_match ["python"] [undescribed_job]
     = Raise TypeError.
Proof. split; reflexivity. Qed.

(** ** The ranking *)

(** C4: the rows are ranked by score, the higher first, and rows of equal
    score in the order of the table: the sorted table of
    [find_best_job_match] and the ranking of the qualifying rows are
    permutations of the scored rows in the order [rank_before], which is a
    strict total order on the rows of a table; the best match is built from
    the first row of the ranking, the alternatives are the dictionaries of
    its first [top_n] rows, in its order; both are returned when the rows
    are readable, and the same inputs give the same results. *)
Theorem ranking_is_score_descending_then_table_order
    (skills : list string) (jobs_df : list posting) (top_n : Z) :
  let lowered := map PyStr.lower skills in
  (Permutation (scored skills jobs_df) (Tools.ranked skills jobs_df)
   /\ StronglySorted rank_before (Tools.ranked skills jobs_df)
   /\ ranking skills jobs_df = filter positive (Tools.ranked skills jobs_df))
  /\ (Permutation (filter positive (scored lowered jobs_df))
                  (ranking lowered jobs_df)
      /\ StronglySorted rank_before (ranking lowered jobs_df))
  /\ ((forall a b c, rank_before a b -> rank_before b c -> rank_before a c)
      /\ (forall a, ~ rank_before a a)
      /\ (forall a b,
             In a (scored skills jobs_df) -> In b (scored skills jobs_df) ->
             a <> b -> rank_before a b \/ rank_before b a))
  /\ (forall d,
         Tools.find_best_job_match skills jobs_df = Ok d ->
         dict_get "error" d = None ->
         exists best rest,
           ranking skills jobs_df = best :: rest
           /\ best_fields best (Tools.ranked skills jobs_df) = Ok d)
  /\ (forall out,
         Tools.find_alternative_matches skills jobs_df top_n = Ok out ->
         Forall2 (listed_as Tools.alternative lowered)
                 (take_upto top_n (ranking lowered jobs_df)) out)
  /\ (Forall readable jobs_df ->
      (exists d, Tools.find_best_job_match skills jobs_df = Ok d)
      /\ (exists out,
             Tools.find_alternative_matches skills jobs_df top_n = Ok out))
  /\ (forall r r',
         Tools.find_best_job_match skills jobs_df = r ->
         Tools.find_best_job_match skills jobs_df = r' -> r = r')
  /\ (forall r r',
         Tools.find_alternative_matches skills jobs_df top_n = r ->
         Tools.find_alternative_matches skills jobs_df top_n = r' -> r = r').
Proof.
  intros lowered.
  split; [| split; [| split; [| split; [| split; [| split; [| split]]]]]].
  - split; [| split].
    + rewrite tools_ranked. apply sort_desc_perm.
    + rewrite tools_ranked. apply scored_ranked_sorted.
    + apply ranking_of_ranked.
  - split; [apply sort_desc_perm | apply ranking_sorted].
  - split; [| split].
    + intros a b c. apply before_trans.
    + intros a. apply before_irrefl.
    + apply rank_before_total.
  - intros d Hd Herr.
    destruct (tools_best_found _ _ _ Hd Herr)
      as (best & rest & Hr & Hpos & Hd0).
    exists best, (filter positive rest). split; [| exact Hd0].
    rewrite ranking_of_ranked, Hr. cbn [filter]. unfold positive at 1.
    apply Z.ltb_lt in Hpos. now rewrite Hpos.
  - intros out. unfold Tools.find_alternative_matches.
    destruct (is_empty jobs_df || is_empty skills) eqn:Hempty.
    + intros [= <-].
      assert (Hno : no_match lowered jobs_df).
      { apply orb_true_iff in Hempty as [H | H]; apply is_empty_nil in H.
        - subst jobs_df. apply no_match_nil.
        - subst skills. apply no_skills_no_match. }
      rewrite (no_match_ranking _ _ Hno), take_upto_nil. constructor.
    + fold lowered.
      destruct (fold_left (alternative_row Tools.alternative lowered)
                          (iterrows jobs_df) (Ok [])) as [js | e] eqn:Hloop;
        cbn [bind]; [| discriminate].
      intros [= <-].
      apply (alternatives_ranked _ _ tools_alternative_score _ _ _ Hloop).
  - intros Hread. split.
    + destruct (is_empty jobs_df || is_empty skills) eqn:Hempty.
      * unfold Tools.find_best_job_match. rewrite Hempty. now eexists.
      * unfold Tools.find_best_job_match. rewrite Hempty.
        destruct (Tools.ranked skills jobs_df) as [| best rest] eqn:Hr;
          [now eexists |].
        destruct (js_score best =? 0)%Z; [now eexists |].
        apply best_fields_readable.
        assert (Hin : In best (scored skills jobs_df)).
        { apply (sort_desc_In js_score). rewrite <- tools_ranked, Hr.
          now left. }
        destruct (scored_In _ _ _ Hin) as [Hjob _].
        rewrite Forall_forall in Hread. now apply Hread.
    + unfold Tools.find_alternative_matches.
      destruct (is_empty jobs_df || is_empty skills); [now eexists |].
      fold lowered.
      destruct (alternative_rows_total Tools.alternative lowered
                  (iterrows jobs_df) []) as [js Hjs].
      { apply Forall_forall. intros e He. apply filter_In in He as [He _].
        fold (scored lowered jobs_df) in He.
        destruct (scored_In _ _ _ He) as [Hjob _].
        rewrite Forall_forall in Hread. destruct (Hread _ Hjob) as [Hl _].
        apply tools_alternative_listable. exact Hl. }
      rewrite Hjs. cbn [bind]. now eexists.
  - intros r r' <- <-. reflexivity.
  - intros r r' <- <-. reflexivity.
Qed.

Example ranking_ties_keep_table_order :
  map (fun e => (js_index e, js_score e))
      (ranking ["python"; "sql"] [line_cook; sql_analyst; python_developer])
  = [(1, 5%Z); (2, 5%Z)].
Proof. reflexivity. Qed.

Example alternatives_keep_table_order_on_ties :
  exists d1 d2,
    Tools.find_alternative_matches
      ["Python"; "SQL"] [line_cook; sql_analyst; python_developer] 5
    = Ok [d1; d2]
    /\ dict_get "job_title" d1 = Some (VStr "SQL Python Analyst")
    /\ dict_get "job_title" d2 = Some (VStr "Python Developer")
    /\ match_score_of d1 = 5%Z /\ match_score_of d2 = 5%Z.
Proof. do 2 eexists. repeat split. Qed.

(** ** The validator *)

Lemma lstrip_all_space (s : string) :
  all_space s = true -> PyStr.lstrip s = EmptyString.
Proof.
  induction s as [| c s IH]; cbn [all_space PyStr.lstrip]; [reflexivity |].
  intros H. apply andb_true_iff in H as [Hc Hs]. rewrite Hc. auto.
Qed.

Lemma rstrip_keeps_first (c : ascii) (s : string) :
  PyStr.is_space c = false ->
  PyStr.truthy (PyStr.rstrip (String c s)) = true.
Proof.
  intros Hc. cbn [PyStr.rstrip]. rewrite Hc.
  now destruct (PyStr.rstrip s).
Qed.

(** [strip] leaves nothing exactly of the texts that are empty or white
    space only. *)
Lemma strip_all_space (s : string) :
  PyStr.truthy (PyStr.strip s) = negb (all_space s).
Proof.
  unfold PyStr.strip.
  induction s as [| c s IH]; cbn [all_space PyStr.lstrip]; [reflexivity |].
  destruct (PyStr.is_space c) eqn:Hc; cbn [andb].
  - exact IH.
  - now apply rstrip_keeps_first.
Qed.

Lemma validate_guard (resume_text : string) :
  negb (PyStr.truthy resume_text)
  || negb (PyStr.truthy (PyStr.strip resume_text))
  = all_space resume_text.
Proof.
  rewrite strip_all_space, negb_involutive.
  destruct resume_text as [| c s]; [reflexivity |].
  reflexivity.
Qed.

Lemma validate_empty (resume_text : string) :
  all_space resume_text = true ->
  validate_resume_text resume_text = empty_text_result.
Proof.
  intros H. unfold validate_resume_text. rewrite validate_guard, H.
  reflexivity.
Qed.

Lemma validate_other (resume_text : string) :
  all_space resume_text = false ->
  exists word_count sections mentions warnings,
    validate_resume_text resume_text
    = [ ("valid", VBool true);
        ("word_count", VInt word_count);
        ("sections_found", VList sections);
        ("tech_indicators", VInt mentions);
        ("issues", VList []);
        ("warnings", VList warnings) ]
    /\ word_count = Z.of_nat (List.length (PyStr.split resume_text))
    /\ sections
       = filter (fun section =>
                   PyStr.str_in section (PyStr.lower resume_text))
                expected_sections
    /\ mentions = count_in (PyStr.lower resume_text) tech_indicators.
Proof.
  intros H. unfold validate_resume_text. rewrite validate_guard, H.
  do 4 eexists. split; [reflexivity |]. repeat split.
Qed.

(** C9: for a text that is empty or white space only the result is
    valid = False with the one issue "Resume text is empty", no warning and
    nothing else; for every other text it is valid = True with no issue,
    whatever the warnings. *)
Theorem validate_is_invalid_exactly_on_empty_text (resume_text : string) :
  (all_space resume_text = true ->
   validate_resume_text resume_text
   = [ ("valid", VBool false);
       ("issues", VList ["Resume text is empty"]);
       ("warnings", VList []) ])
  /\ (all_space resume_text = false ->
      dict_get "valid" (validate_resume_text resume_text) = Some (VBool true)
      /\ dict_get "issues" (validate_resume_text resume_text)
         = Some (VList [])
      /\ exists warnings,
           dict_get "warnings" (validate_resume_text resume_text)
           = Some (VList warnings)).
Proof.
  split.
  - apply validate_empty.
  - intros H.
    destruct (validate_other _ H) as (wc & sections & mentions & warnings
                                      & -> & _).
    split; [reflexivity |]. split; [reflexivity |].
    now exists warnings.
Qed.

(** C7, as the code has it: for a text that is empty or white space only
    the result has the fields valid, issues and warnings and no other; for
    every other text it has all six fields. *)
Theorem validate_fields_by_case (resume_text : string) :
  (all_space resume_text = true ->
   keys (validate_resume_text resume_text) = ["valid"; "issues"; "warnings"])
  /\ (all_space resume_text = false ->
      keys (validate_resume_text resume_text)
      = ["valid"; "word_count"; "sections_found"; "tech_indicators";
         "issues"; "warnings"]
      /\ has_all_fields (validate_resume_text resume_text) = true).
Proof.
  split.
  - intros H. now rewrite (validate_empty _ H).
  - intros H.
    destruct (validate_other _ H) as (wc & sections & mentions & warnings
                                      & -> & _).
    split; reflexivity.
Qed.

(** C7 fails as it is stated: the result for the empty text has no
    word_count, sections_found or tech_indicators field, and neither has
    the result for a text of white space. *)
Lemma validate_fields_counterexample :
  has_all_fields (validate_resume_text "") = false
  /\ dict_get "word_count" (validate_resume_text "") = None
  /\ dict_get "sections_found" (validate_resume_text "") = None
  /\ dict_get "tech_indicators" (validate_resume_text "") = None
  /\ has_all_fields (validate_resume_text "   ") = false.
Proof. repeat split. Qed.

Example validate_ten_words :
  validate_resume_text "one two three four five six seven eight nine ten"
  = [ ("valid", VBool true);
      ("word_count", VInt 10);
      ("sections_found", VList []);
      ("tech_indicators", VInt 0);
      ("issues", VList []);
      ("warnings", VList [too_short; missing_sections; no_tech]) ].
Proof. reflexivity. Qed.

(** ** The demand analyzer *)

Lemma count_rows (skill_lower : string) (jobs_df : list posting) (n : Z) :
  fold_left (count_row skill_lower) jobs_df n
  = (n + mentions skill_lower jobs_df)%Z.
Proof.
  unfold mentions. revert n.
  induction jobs_df as [| job jobs_df IH]; intros n;
    cbn [fold_left filter List.length]; [lia |].
  rewrite IH. unfold count_row.
  destruct (PyStr.str_in skill_lower (stat_text_of job));
    cbn [List.length]; lia.
Qed.

(** The chain of comparisons is the table of thresholds read from the top,
    on the percentage that is not rounded. *)
Lemma get_demand_level_thresholds (job_count total_jobs : Z) :
  total_jobs <> 0%Z ->
  get_demand_level job_count total_jobs
  = Ok (level_of_percentage (exact_percentage job_count total_jobs)).
Proof.
  intros Hne. unfold get_demand_level, PyFloat.truediv.
  apply Z.eqb_neq in Hne. rewrite Hne. cbn [bind].
  unfold level_of_percentage, demand_thresholds. cbn [find fst snd].
  fold (exact_percentage job_count total_jobs).
  destruct (PyFloat.ge (exact_percentage job_count total_jobs) 50);
    [reflexivity |].
  destruct (PyFloat.ge (exact_percentage job_count total_jobs) 25);
    [reflexivity |].
  destruct (PyFloat.ge (exact_percentage job_count total_jobs) 10);
    [reflexivity |].
  destruct (PyFloat.ge (exact_percentage job_count total_jobs) 5);
    reflexivity.
Qed.

Lemma get_demand_level_unknown (job_count : Z) :
  get_demand_level job_count 0 = Ok Unknown.
Proof. reflexivity. Qed.

Lemma percentage_of_rounds (job_count total_jobs : Z) :
  (0 < total_jobs)%Z ->
  percentage_of job_count total_jobs
  = Ok (VFloat (PyFloat.round1 (exact_percentage job_count total_jobs))).
Proof.
  intros Hpos. unfold percentage_of, PyFloat.truediv.
  assert (H1 : (0 <? total_jobs)%Z = true) by now apply Z.ltb_lt.
  assert (H2 : (total_jobs =? 0)%Z = false) by (apply Z.eqb_neq; lia).
  rewrite H1, H2. reflexivity.
Qed.

(** The entry of one skill: nothing is raised, whatever the table. *)
Lemma skill_entry_value (prepare : string -> string)
    (jobs_df : list posting) (skill : string) :
  skill_entry prepare jobs_df skill
  = Ok (entry_for jobs_df (mentions (prepare skill) jobs_df)).
Proof.
  unfold skill_entry, entry_for. rewrite count_rows, Z.add_0_l.
  destruct jobs_df as [| job jobs_df]; [reflexivity |].
  cbn [is_empty].
  set (total := Z.of_nat (List.length (job :: jobs_df))).
  assert (Hpos : (0 < total)%Z) by (unfold total; cbn [List.length]; lia).
  rewrite percentage_of_rounds by assumption.
  rewrite get_demand_level_thresholds by lia.
  reflexivity.
Qed.

Lemma stats_get_set_same {V : Type} (k : string) (v : V)
    (d : list (string * V)) :
  stats_get k (dict_set k v d) = Some v.
Proof.
  induction d as [| [k' v'] d IH]; cbn [dict_set stats_get].
  - now rewrite String.eqb_refl.
  - destruct (String.eqb k k') eqn:Hk; cbn [stats_get].
    + now rewrite String.eqb_refl.
    + now rewrite Hk.
Qed.

Lemma stats_get_set_other {V : Type} (k k' : string) (v : V)
    (d : list (string * V)) :
  k <> k' -> stats_get k (dict_set k' v d) = stats_get k d.
Proof.
  intros Hne. apply String.eqb_neq in Hne.
  induction d as [| [k'' v''] d IH]; cbn [dict_set stats_get].
  - now rewrite Hne.
  - destruct (String.eqb k' k'') eqn:Hk; cbn [stats_get].
    + apply String.eqb_eq in Hk. subst k''. now rewrite Hne.
    + now rewrite IH.
Qed.

Section StatisticsLoop.

Variable prepare : string -> string.
Variable jobs_df : list posting.

Lemma stats_loop (skills : list string) (acc : list (string * dict)) :
  fold_left (stats_step prepare jobs_df) skills (Ok acc)
  = Ok (fold_left (fun d skill =>
            dict_set skill
                     (entry_for jobs_df (mentions (prepare skill) jobs_df))
                     d) skills acc).
Proof.
  revert acc. induction skills as [| skill skills IH]; intros acc;
    cbn [fold_left]; [reflexivity |].
  unfold stats_step at 2. cbn [bind]. rewrite skill_entry_value.
  cbn [bind]. apply IH.
Qed.

Lemma stats_lookup_kept (skills : list string) (acc : list (string * dict))
    (k : string) :
  ~ In k skills ->
  stats_get k (fold_left (fun d skill =>
            dict_set skill
                     (entry_for jobs_df (mentions (prepare skill) jobs_df))
                     d)
                         skills acc)
  = stats_get k acc.
Proof.
  revert acc. induction skills as [| skill skills IH]; intros acc Hk;
    cbn [fold_left]; [reflexivity |].
  rewrite IH by (intros H; apply Hk; now right).
  apply stats_get_set_other. intros ->. apply Hk. now left.
Qed.

Lemma stats_lookup (skills : list string) (acc : list (string * dict))
    (k : string) :
  In k skills ->
  stats_get k (fold_left (fun d skill =>
            dict_set skill
                     (entry_for jobs_df (mentions (prepare skill) jobs_df))
                     d)
                         skills acc)
  = Some (entry_for jobs_df (mentions (prepare k) jobs_df)).
Proof.
  revert acc. induction skills as [| skill skills IH]; intros acc Hk;
    [contradiction |].
  cbn [fold_left].
  destruct (in_dec string_dec k skills) as [Hin | Hout]; [now apply IH |].
  destruct Hk as [-> | Hk]; [| contradiction].
  rewrite stats_lookup_kept by assumption. apply stats_get_set_same.
Qed.

Lemma skill_statistics_lookup (skills : list string) (skill : string) :
  In skill skills ->
  exists stats,
    skill_statistics prepare skills jobs_df = Ok stats
    /\ stats_get skill stats
       = Some (entry_for jobs_df (mentions (prepare skill) jobs_df)).
Proof.
  intros Hin. unfold skill_statistics. rewrite stats_loop.
  eexists. split; [reflexivity |]. now apply stats_lookup.
Qed.

End StatisticsLoop.

(** C3, as the code has it: for every skill of the list the analyzer
    returns, without raising, an entry with the number of rows that mention
    the skill; for the empty table the percentage is 0 and the level Unknown
    (no division by the number of rows is attempted); otherwise the
    percentage is [(count / total) * 100] rounded to one decimal, and the
    level is given by the thresholds 50, 25, 10, 5, read from the top, on
    that value before it is rounded. *)
Theorem demand_statistics_of_skill
    (skills : list string) (jobs_df : list posting) (skill : string) :
  In skill skills ->
  let total := Z.of_nat (List.length jobs_df) in
  let entry count :=
    if is_empty jobs_df
    then [ ("jobs_mentioning", VInt 0);
           ("percentage", VInt 0);
           ("demand_level", VStr "Unknown") ]
    else [ ("jobs_mentioning", VInt count);
           ("percentage",
            VFloat (PyFloat.round1 (exact_percentage count total)));
           ("demand_level",
            VStr (demand_level_name
                    (level_of_percentage (exact_percentage count total)))) ]
  in
  (exists stats,
      Tools_get_skill_statistics skills jobs_df = Ok stats
      /\ stats_get skill stats
         = Some (entry (mentions (PyStr.lower skill) jobs_df)))
  /\ (exists stats,
         AiAgent_get_skill_statistics skills jobs_df = Ok stats
         /\ stats_get skill stats
            = Some (entry (mentions (PyStr.strip (PyStr.lower skill))
                                    jobs_df)))
  /\ (forall percentage,
         level_of_percentage percentage
         = if PyFloat.ge percentage 50 then VeryHigh
           else if PyFloat.ge percentage 25 then High
           else if PyFloat.ge percentage 10 then Medium
           else if PyFloat.ge percentage 5 then Low
           else VeryLow).
Proof.
  intros Hin total entry. split; [| split].
  - exact (skill_statistics_lookup PyStr.lower jobs_df skills skill Hin).
  - exact (skill_statistics_lookup
             (fun s => PyStr.strip (PyStr.lower s)) jobs_df skills skill Hin).
  - intros percentage. unfold level_of_percentage, demand_thresholds.
    cbn [find fst snd].
    destruct (PyFloat.ge percentage 50); [reflexivity |].
    destruct (PyFloat.ge percentage 25); [reflexivity |].
    destruct (PyFloat.ge percentage 10); [reflexivity |].
    destruct (PyFloat.ge percentage 5); reflexivity.
Qed.

(** One posting of three mentions the skill: 33.3 percent, a high demand. *)
Lemma demand_statistics_of_skill_witness :
  In "SQL" ["SQL"]
  /\ exists stats entry,
       Tools_get_skill_statistics
         ["SQL"] [sql_analyst; line_cook; line_cook] = Ok stats
       /\ stats_get "SQL" stats = Some entry
       /\ dict_get "jobs_mentioning" entry = Some (VInt 1)
       /\ is_float (dict_get "percentage" entry)
                   (PrimFloat.div (PyFloat.of_Z 333) (PyFloat.of_Z 10))
          = true
       /\ dict_get "demand_level" entry = Some (VStr "High").
Proof.
  assert (Hin : In "SQL" ["SQL"]) by (now left).
  split; [exact Hin |].
  destruct (demand_statistics_of_skill
              ["SQL"] [sql_analyst; line_cook; line_cook] "SQL" Hin)
    as [[stats [Hstats Hget]] _].
  exists stats. eexists. split; [exact Hstats |].
  split; [exact Hget |]. repeat split.
Defined.

(** C3 fails as it is stated when the level is read off the reported
    percentage: 5 postings of 101 mention the skill, the reported
    percentage is 5.0, for which the thresholds give Low, and the level
    returned is Very Low, since 4.95... is below 5. *)
Lemma demand_level_counterexample :
  let jobs_df := repeat sql_analyst 5 ++ repeat line_cook 96 in
  exists entry,
    Tools_get_skill_statistics ["SQL"] jobs_df = Ok [("SQL", entry)]
    /\ dict_get "jobs_mentioning" entry = Some (VInt 5)
    /\ is_float (dict_get "percentage" entry) (PyFloat.of_Z 5) = true
    /\ level_of_percentage (PyFloat.of_Z 5) = Low
    /\ dict_get "demand_level" entry = Some (VStr "Very Low").
Proof.
  intros jobs_df. eexists. split; [vm_compute; reflexivity |].
  repeat split.
Qed.

(** * Further properties *)

(** ** Strings *)

Lemma lower_char_idem (c : ascii) :
  PyStr.lower_char (PyStr.lower_char c) = PyStr.lower_char c.
Proof. destruct c as [[] [] [] [] [] [] [] []]; reflexivity. Qed.

Lemma lower_char_space (c : ascii) :
  PyStr.is_space (PyStr.lower_char c) = PyStr.is_space c.
Proof. destruct c as [[] [] [] [] [] [] [] []]; reflexivity. Qed.

Lemma lower_idem (s : string) : PyStr.lower (PyStr.lower s) = PyStr.lower s.
Proof.
  induction s as [| c s IH]; cbn [PyStr.lower]; [reflexivity |].
  now rewrite lower_char_idem, IH.
Qed.

Lemma lower_app (s t : string) :
  PyStr.lower (s ++ t) = (PyStr.lower s ++ PyStr.lower t)%string.
Proof.
  induction s as [| c s IH]; cbn [PyStr.lower String.append]; [reflexivity |].
  now rewrite IH.
Qed.

Lemma all_space_lower (s : string) : all_space (PyStr.lower s) = all_space s.
Proof.
  induction s as [| c s IH]; cbn [PyStr.lower all_space]; [reflexivity |].
  now rewrite lower_char_space, IH.
Qed.

Lemma all_space_app (s t : string) :
  all_space (s ++ t) = all_space s && all_space t.
Proof.
  induction s as [| c s IH]; cbn [String.append all_space]; [reflexivity |].
  rewrite IH. now rewrite andb_assoc.
Qed.

Lemma string_app_assoc (s t u : string) :
  ((s ++ t) ++ u = s ++ (t ++ u))%string.
Proof.
  induction s as [| c s IH]; cbn [String.append]; [reflexivity |].
  now rewrite IH.
Qed.

Lemma string_app_nil_r (s : string) : (s ++ "")%string = s.
Proof.
  induction s as [| c s IH]; cbn [String.append]; [reflexivity |].
  now rewrite IH.
Qed.

(** A prefix is what a string starts with. *)
Lemma prefix_iff (a s : string) :
  prefix a s = true <-> exists post, s = (a ++ post)%string.
Proof.
  revert s. induction a as [| c a IH]; intros s.
  - split; [intros _; now exists s | intros _; now destruct s].
  - destruct s as [| c' s]; cbn [prefix].
    + split; [discriminate | intros [post H]; discriminate H].
    + destruct (ascii_dec c c') as [<- | Hne].
      * rewrite IH. split; intros [post H]; exists post.
        -- cbn [String.append]. now rewrite H.
        -- cbn [String.append] in H. now injection H.
      * split; [discriminate |].
        intros [post H]. cbn [String.append] in H. injection H as H _.
        congruence.
Qed.

(** [needle in hay] holds exactly when [hay] is [needle] with something
    before it and something after it. *)
Lemma str_in_iff (needle hay : string) :
  PyStr.str_in needle hay = true
  <-> exists pre post, hay = (pre ++ needle ++ post)%string.
Proof.
  induction hay as [| c hay IH]; cbn [PyStr.str_in].
  - rewrite orb_false_r, prefix_iff. split.
    + intros [post H]. now exists EmptyString, post.
    + intros [pre [post H]]. destruct pre as [| c pre];
        [now exists post | discriminate H].
  - rewrite orb_true_iff, prefix_iff, IH. split.
    + intros [[post H] | [pre [post H]]].
      * now exists EmptyString, post.
      * exists (String c pre), post. cbn [String.append]. now rewrite H.
    + intros [pre [post H]]. destruct pre as [| c' pre].
      * left. now exists post.
      * right. cbn [String.append] in H. injection H as _ H.
        now exists pre, post.
Qed.

Lemma str_in_refl (s : string) : PyStr.str_in s s = true.
Proof.
  apply str_in_iff. exists EmptyString, EmptyString.
  cbn [String.append]. now rewrite string_app_nil_r.
Qed.

Lemma str_in_trans (a b c : string) :
  PyStr.str_in a b = true -> PyStr.str_in b c = true ->
  PyStr.str_in a c = true.
Proof.
  rewrite !str_in_iff. intros [p1 [q1 ->]] [p2 [q2 ->]].
  exists (p2 ++ p1)%string, (q1 ++ q2)%string.
  now rewrite !string_app_assoc.
Qed.

Lemma str_in_lower (a b : string) :
  PyStr.str_in a b = true ->
  PyStr.str_in (PyStr.lower a) (PyStr.lower b) = true.
Proof.
  rewrite !str_in_iff. intros [pre [post ->]].
  exists (PyStr.lower pre), (PyStr.lower post). now rewrite !lower_app.
Qed.

(** A string found in a lower-cased text is itself in lower case. *)
Lemma str_in_lowered (a t : string) :
  PyStr.str_in a t = true -> PyStr.lower t = t -> PyStr.lower a = a.
Proof.
  rewrite str_in_iff. intros [pre [post ->]]. rewrite !lower_app.
  revert post. induction pre as [| c pre IH]; intros post H;
    cbn [PyStr.lower String.append] in H.
  - clear - H. revert post H. induction a as [| c a IH]; intros post H;
      cbn [PyStr.lower String.append] in H |- *; [reflexivity |].
    injection H as Hc H. rewrite Hc. f_equal. now apply (IH post).
  - injection H as _ H. now apply (IH post).
Qed.

(** ** More on the scorer *)

Lemma matching_perm (text : string) (l l' : list string) :
  Permutation l l' -> Permutation (matching text l) (matching text l').
Proof.
  induction 1 as [| x l l' Hp IH | x y l | l l' l'' Hp1 IH1 Hp2 IH2];
    cbn [matching filter].
  - constructor.
  - destruct (PyStr.str_in x text); [now constructor | exact IH].
  - destruct (PyStr.str_in x text); destruct (PyStr.str_in y text);
      try apply Permutation_refl. apply perm_swap.
  - eapply Permutation_trans; eassumption.
Qed.

Lemma sum_points_perm (l l' : list string) :
  Permutation l l' -> sum_points l = sum_points l'.
Proof.
  unfold sum_points.
  induction 1 as [| x l l' Hp IH | x y l | l l' l'' Hp1 IH1 Hp2 IH2];
    cbn [map fold_right]; try lia; congruence.
Qed.

(** X1: the score does not depend on the order of the skills list, and the
    matched skills are the same up to their order. *)
Theorem score_invariant_under_reordering
    (job : posting) (skills skills' : list string) :
  Permutation skills skills' ->
  score (calculate_job_score job skills)
  = score (calculate_job_score job skills')
  /\ Permutation (matched_skills (calculate_job_score job skills))
                 (matched_skills (calculate_job_score job skills')).
Proof.
  intros Hp. destruct (blank job) eqn:Hb.
  - rewrite !calculate_job_score_blank by assumption. split; constructor.
  - rewrite !calculate_job_score_spec by assumption.
    cbn [score matched_skills].
    pose proof (matching_perm (job_text_of job) _ _ Hp) as Hm.
    split; [| exact Hm]. unfold spec_score.
    rewrite (sum_points_perm _ _ Hm), (Permutation_length Hm). reflexivity.
Qed.

Lemma score_invariant_under_reordering_witness :
  Permutation ["sql"; "python"] ["python"; "sql"]
  /\ score (calculate_job_score python_developer ["sql"; "python"])
     = score (calculate_job_score python_developer ["python"; "sql"]).
Proof.
  assert (Hp : Permutation ["sql"; "python"] ["python"; "sql"])
    by apply perm_swap.
  split; [exact Hp |].
  exact (proj1 (score_invariant_under_reordering python_developer _ _ Hp)).
Defined.

Lemma skill_points_le (skill : string) : (skill_points skill <= 3)%Z.
Proof.
  unfold skill_points.
  destruct (String.length skill <=? 3)%nat; [lia |].
  destruct (in_list skill high_value_skills); lia.
Qed.

Lemma sum_points_le (l : list string) :
  (sum_points l <= 3 * Z.of_nat (List.length l))%Z.
Proof.
  unfold sum_points. induction l as [| x l IH];
    cbn [map fold_right List.length]; [lia |].
  pose proof (skill_points_le x). lia.
Qed.

Lemma bonus_le (n : nat) : (bonus n <= 5)%Z.
Proof.
  unfold bonus. destruct (3 <=? n)%nat; destruct (5 <=? n)%nat; lia.
Qed.

Lemma matching_length (text : string) (skills : list string) :
  List.length (matching text skills) <= List.length skills.
Proof. apply filter_length_le. Qed.

(** X2: the score is at most 3 points for each matched skill and 5 points
    of bonus, and no more skills match than the list has. *)
Theorem score_upper_bound (job : posting) (skills : list string) :
  let matched := matched_skills (calculate_job_score job skills) in
  (score (calculate_job_score job skills)
   <= 3 * Z.of_nat (List.length matched) + 5)%Z
  /\ List.length matched <= List.length skills.
Proof.
  destruct (blank job) eqn:Hb.
  - rewrite calculate_job_score_blank by assumption.
    cbn [score matched_skills List.length]. split; lia.
  - rewrite calculate_job_score_spec by assumption.
    cbn [score matched_skills]. split; [| apply matching_length].
    unfold spec_score.
    pose proof (sum_points_le (matching (job_text_of job) skills)).
    pose proof (bonus_le (List.length (matching (job_text_of job) skills))).
    lia.
Qed.

Lemma job_text_lowered (job : posting) :
  PyStr.lower (job_text_of job) = job_text_of job.
Proof.
  unfold job_text_of.
  destruct (job_title job); destruct (job_description job);
    cbn [String.append]; rewrite ?lower_app, ?lower_idem; reflexivity.
Qed.

Lemma matched_iff (job : posting) (skills : list string) (skill : string) :
  In skill (matched_skills (calculate_job_score job skills))
  <-> blank job = false /\ In skill skills
      /\ PyStr.str_in skill (job_text_of job) = true.
Proof.
  destruct (blank job) eqn:Hb.
  - rewrite calculate_job_score_blank by assumption. cbn [matched_skills].
    split; [contradiction | intros [H _]; discriminate].
  - rewrite calculate_job_score_spec by assumption. cbn [matched_skills].
    unfold matching. rewrite filter_In. tauto.
Qed.

(** X3: a matched skill is in lower case: a skill with a capital letter is
    never found, since the text that is searched is lowered and the skill
    is not. *)
Theorem matched_skills_are_lower_case
    (job : posting) (skills : list string) (skill : string) :
  In skill (matched_skills (calculate_job_score job skills)) ->
  PyStr.lower skill = skill.
Proof.
  intros H. apply matched_iff in H as (_ & _ & Hin).
  exact (str_in_lowered _ _ Hin (job_text_lowered job)).
Qed.

Lemma matched_skills_are_lower_case_witness :
  In "sql" (matched_skills
              (calculate_job_score python_developer ["Python"; "sql"]))
  /\ PyStr.lower "sql" = "sql"
  /\ matched_skills (calculate_job_score python_developer ["Python"; "sql"])
     = ["sql"].
Proof.
  assert (H : In "sql" (matched_skills
                          (calculate_job_score python_developer
                                               ["Python"; "sql"])))
    by (now left).
  split; [exact H |]. split; [| reflexivity].
  exact (matched_skills_are_lower_case python_developer _ _ H).
Defined.

(** X4: when a skill of the list matches, so does every skill of the list
    that is a part of it: "java" matches wherever "javascript" does. *)
Theorem part_of_matched_skill_matches
    (job : posting) (skills : list string) (part whole : string) :
  PyStr.str_in part whole = true ->
  In part skills ->
  In whole (matched_skills (calculate_job_score job skills)) ->
  In part (matched_skills (calculate_job_score job skills)).
Proof.
  intros Hpart Hin Hwhole. apply matched_iff in Hwhole as (Hb & _ & Hw).
  apply matched_iff. repeat split; try assumption.
  exact (str_in_trans _ _ _ Hpart Hw).
Qed.

Lemma part_of_matched_skill_matches_witness :
  let job := mkPosting (Text "JavaScript Engineer") (Text "Acme")
                       (Text "Remote") NaN (Text "Build web pages") in
  PyStr.str_in "java" "javascript" = true
  /\ In "java" (matched_skills
                  (calculate_job_score job ["javascript"; "java"])).
Proof.
  intros job. split; [reflexivity |].
  apply (part_of_matched_skill_matches job _ "java" "javascript").
  - reflexivity.
  - right. now left.
  - now left.
Defined.

Lemma sum_points_In (x : string) (l : list string) :
  In x l -> (skill_points x <= sum_points l)%Z.
Proof.
  unfold sum_points. induction l as [| y l IH]; [contradiction |].
  cbn [map fold_right]. intros [-> | Hin].
  - pose proof (sum_points_length l). unfold sum_points in *. lia.
  - specialize (IH Hin). pose proof (skill_points_pos y). lia.
Qed.

Lemma blank_all_space (job : posting) :
  blank job = all_space (job_text_of job).
Proof. unfold blank. now rewrite strip_all_space, negb_involutive. Qed.

(** X5: a posting has nothing to search exactly when its title and its
    description are each missing, absent or white space only; such a
    posting scores 0 with no matched skill whatever the skills, the empty
    skill included. *)
Theorem blank_posting_scores_nothing (job : posting) :
  blank job = cell_blank (job_title job) && cell_blank (job_description job)
  /\ (blank job = true ->
      forall skills, calculate_job_score job skills = mkScore 0 [])
  /\ (blank job = false ->
      forall skills, In EmptyString skills ->
                     (2 <= score (calculate_job_score job skills))%Z).
Proof.
  split; [| split].
  - rewrite blank_all_space. unfold job_text_of, cell_blank.
    destruct (job_title job); destruct (job_description job);
      cbn [String.append]; rewrite ?all_space_app, ?all_space_lower;
      cbn [all_space]; rewrite ?andb_true_r; reflexivity.
  - intros Hb skills. now apply calculate_job_score_blank.
  - intros Hb skills Hin.
    rewrite calculate_job_score_spec by assumption. cbn [score].
    unfold spec_score.
    assert (Hm : In EmptyString (matching (job_text_of job) skills)).
    { apply filter_In. split; [assumption |].
      apply str_in_iff. now exists EmptyString, (job_text_of job). }
    pose proof (bonus_nonneg
                  (List.length (matching (job_text_of job) skills))).
    pose proof (sum_points_In _ _ Hm) as Hle.
    change (skill_points EmptyString) with 2%Z in Hle. lia.
Qed.

(** ** More on the best match *)

Lemma rows_In (l : list posting) (start i : nat) (job : posting) :
  In (i, job) (combine (seq start (List.length l)) l)
  <-> start <= i /\ nth_error l (i - start) = Some job.
Proof.
  revert start. induction l as [| x l IH]; intros start;
    cbn [List.length seq combine In].
  - split; [contradiction |]. intros [_ H].
    destruct (i - start); discriminate H.
  - rewrite IH. split.
    + intros [[= <- <-] | [Hle Hnth]].
      * split; [lia |]. now rewrite Nat.sub_diag.
      * split; [lia |].
        replace (i - start) with (S (i - S start)) by lia. exact Hnth.
    + intros [Hle Hnth]. destruct (Nat.eq_dec i start) as [-> | Hne].
      * left. rewrite Nat.sub_diag in Hnth. cbn in Hnth. congruence.
      * right. split; [lia |].
        replace (i - start) with (S (i - S start)) in Hnth by lia.
        exact Hnth.
Qed.

(** The scored table holds, at each position, the row of that position. *)
Lemma scored_nth (skills : list string) (jobs_df : list posting)
    (e : job_score) :
  In e (scored skills jobs_df)
  <-> nth_error jobs_df (js_index e) = Some (js_job_data e)
      /\ e = scored_row skills (js_index e, js_job_data e).
Proof.
  unfold scored, iterrows. rewrite in_map_iff. split.
  - intros [[i job] [<- Hin]]. apply rows_In in Hin as [_ Hnth].
    rewrite Nat.sub_0_r in Hnth. cbn [scored_row fst snd js_index js_job_data].
    split; [exact Hnth | reflexivity].
  - intros [Hnth He]. exists (js_index e, js_job_data e).
    split; [now symmetry |]. apply rows_In. rewrite Nat.sub_0_r.
    split; [lia | exact Hnth].
Qed.

(** The first row of the ranking comes before every other row of the
    table. *)
Lemma ranking_head_first (skills : list string) (jobs_df : list posting)
    (best : job_score) (rest : list job_score) (e : job_score) :
  ranking skills jobs_df = best :: rest ->
  In e (scored skills jobs_df) ->
  e = best \/ rank_before best e.
Proof.
  intros Hr He.
  assert (Hbest : In best (ranking skills jobs_df)) by (rewrite Hr; now left).
  apply ranking_In in Hbest as [_ Hpos].
  destruct (positive e) eqn:Hp.
  - assert (Hin : In e (ranking skills jobs_df)).
    { unfold ranking. eapply Permutation_in; [apply sort_desc_perm |].
      apply filter_In. now split. }
    rewrite Hr in Hin. destruct Hin as [<- | Hin]; [now left |].
    right. pose proof (ranking_sorted skills jobs_df) as Hs.
    rewrite Hr in Hs. inversion Hs as [| ? ? _ Hall]; subst.
    rewrite Forall_forall in Hall. now apply Hall.
  - right. left. unfold positive in Hp. apply Z.ltb_ge in Hp. lia.
Qed.

Lemma tools_best_ranking (skills : list string) (jobs_df : list posting)
    (d : dict) :
  Tools.find_best_job_match skills jobs_df = Ok d ->
  dict_get "error" d = None ->
  exists best rest,
    ranking skills jobs_df = best :: rest
    /\ best_fields best (Tools.ranked skills jobs_df) = Ok d.
Proof.
  intros Hd Herr.
  destruct (tools_best_found _ _ _ Hd Herr)
    as (best & rest & Hr & Hpos & Hd0).
  exists best, (filter positive rest). split; [| exact Hd0].
  rewrite ranking_of_ranked, Hr. cbn [filter]. unfold positive at 1.
  apply Z.ltb_lt in Hpos. now rewrite Hpos.
Qed.

(** What the first row of the ranking is, in terms of the table. *)
Lemma ranking_head_spec (skills : list string) (jobs_df : list posting)
    (best : job_score) (rest : list job_score) :
  ranking skills jobs_df = best :: rest ->
  exists i job,
    nth_error jobs_df i = Some job
    /\ js_job_data best = job
    /\ js_score best = score (calculate_job_score job skills)
    /\ js_matched_skills best
       = matched_skills (calculate_job_score job skills)
    /\ (0 < score (calculate_job_score job skills))%Z
    /\ (forall j job',
           nth_error jobs_df j = Some job' ->
           (score (calculate_job_score job' skills)
            <= score (calculate_job_score job skills))%Z)
    /\ (forall j job',
           nth_error jobs_df j = Some job' -> j < i ->
           (score (calculate_job_score job' skills)
            < score (calculate_job_score job skills))%Z).
Proof.
  intros Hr.
  assert (Hbest : In best (ranking skills jobs_df)) by (rewrite Hr; now left).
  apply ranking_In in Hbest as [Hbest Hpos].
  destruct (scored_In _ _ _ Hbest) as (_ & Hs & Hm).
  apply scored_nth in Hbest as [Hnth _].
  exists (js_index best), (js_job_data best).
  split; [exact Hnth |]. split; [reflexivity |].
  split; [exact Hs |]. split; [exact Hm |]. split; [lia |].
  assert (Hcmp : forall j job',
             nth_error jobs_df j = Some job' ->
             scored_row skills (j, job') = best
             \/ rank_before best (scored_row skills (j, job'))).
  { intros j job' Hj. apply (ranking_head_first _ _ _ _ _ Hr).
    apply scored_nth. cbn [scored_row js_index js_job_data fst snd].
    now split. }
  split.
  - intros j job' Hj. destruct (Hcmp j job' Hj) as [<- | Hb].
    + cbn [scored_row js_score snd js_job_data]. lia.
    + unfold rank_before, before in Hb.
      cbn [scored_row js_score js_index fst snd] in Hb. lia.
  - intros j job' Hj Hlt. destruct (Hcmp j job' Hj) as [<- | Hb].
    + cbn [scored_row js_index fst] in Hlt. lia.
    + unfold rank_before, before in Hb.
      cbn [scored_row js_score js_index fst snd] in Hb. lia.
Qed.

(** X6: the best match is the first posting of the table among those of
    the highest score: its record carries the score and the matched skills
    of a posting that no posting outscores and that every earlier posting
    scores strictly below. In ai_agent.py the skills are lowered and
    stripped first. *)
Theorem best_match_is_first_of_highest_score
    (skills : list string) (jobs_df : list posting) :
  let is_best (used : list string) (d : dict) :=
    exists i job,
      nth_error jobs_df i = Some job
      /\ dict_get "match_score" d
         = Some (VInt (score (calculate_job_score job used)))
      /\ dict_get "matched_skills" d
         = Some (VList (matched_skills (calculate_job_score job used)))
      /\ (0 < score (calculate_job_score job used))%Z
      /\ (forall j job',
             nth_error jobs_df j = Some job' ->
             (score (calculate_job_score job' used)
              <= score (calculate_job_score job used))%Z)
      /\ (forall j job',
             nth_error jobs_df j = Some job' -> j < i ->
             (score (calculate_job_score job' used)
              < score (calculate_job_score job used))%Z) in
  (forall d,
      Tools.find_best_job_match skills jobs_df = Ok d ->
      dict_get "error" d = None -> is_best skills d)
  /\ (forall d,
         AiAgent.find_best_job_match skills jobs_df = Ok d ->
         dict_get "error" d = None ->
         is_best (AiAgent.normalize skills) d).
Proof.
  intros is_best. split.
  - intros d Hd Herr.
    destruct (tools_best_ranking _ _ _ Hd Herr) as (best & rest & Hr & Hd0).
    destruct (best_fields_ok _ _ _ Hd0) as (_ & _ & Hscore & Hmatched & _).
    destruct (ranking_head_spec _ _ _ _ Hr)
      as (i & job & Hnth & _ & Hs & Hm & Hrest).
    rewrite Hs in Hscore. rewrite Hm in Hmatched.
    exists i, job. tauto.
  - intros d Hd Herr.
    destruct (agent_best_found _ _ _ Hd Herr)
      as (best & rest & d0 & Hr & Hd0 & ->).
    destruct (best_fields_ok _ _ _ Hd0) as (_ & _ & Hscore & Hmatched & _).
    destruct (ranking_head_spec _ _ _ _ Hr)
      as (i & job & Hnth & _ & Hs & Hm & Hrest).
    rewrite Hs in Hscore. rewrite Hm in Hmatched.
    exists i, job.
    split; [exact Hnth |].
    split; [now apply dict_get_app |].
    split; [now apply dict_get_app |]. tauto.
Qed.

Lemma dict_get_app_other (k k' : string) (v : pyval) (d : dict) :
  k <> k' -> dict_get k (d ++ [(k', v)]) = dict_get k d.
Proof.
  intros Hne. apply String.eqb_neq in Hne.
  induction d as [| [k0 v0] d IH]; cbn [dict_get app].
  - now rewrite Hne.
  - now rewrite IH.
Qed.

(** The record of the best match depends on the list [job_scores] through
    its field total_jobs_analyzed only. *)
Lemma best_fields_other_list (best : job_score) (l1 l2 : list job_score)
    (d1 : dict) :
  best_fields best l1 = Ok d1 ->
  exists d2,
    best_fields best l2 = Ok d2
    /\ forall k, k <> "total_jobs_analyzed" ->
                 dict_get k d2 = dict_get k d1.
Proof.
  destruct best as [index sc matched [title company loc sal descr]].
  unfold best_fields.
  cbn [js_job_data js_score js_matched_skills job_title company_name
       location salary job_description].
  destruct title; destruct company; destruct loc; destruct descr;
    cbn [getitem bind get_default slice_val]; intros H;
    try discriminate H; injection H as <-;
    (eexists; split; [reflexivity |]; intros k Hk; cbn [dict_get];
     repeat match goal with
            | |- context [String.eqb k ?c] =>
                let E := fresh "E" in
                destruct (String.eqb k c) eqn:E;
                [first [reflexivity
                       | apply String.eqb_eq in E; contradiction]
                | clear E]
            end;
     reflexivity).
Qed.

Lemma tools_not_empty (skills : list string) (jobs_df : list posting)
    (d : dict) :
  Tools.find_best_job_match skills jobs_df = Ok d ->
  dict_get "error" d = None ->
  is_empty jobs_df || is_empty skills = false.
Proof.
  unfold Tools.find_best_job_match.
  destruct (is_empty jobs_df || is_empty skills); [| reflexivity].
  intros [= <-]. discriminate.
Qed.

Lemma ranking_cons_filter (skills : list string) (jobs_df : list posting)
    (best : job_score) (rest : list job_score) :
  ranking skills jobs_df = best :: rest ->
  is_empty (filter positive (scored skills jobs_df)) = false.
Proof.
  unfold ranking.
  destruct (filter positive (scored skills jobs_df)); [discriminate |].
  reflexivity.
Qed.

(** X7: on skills that are already lowered and stripped the two versions
    of [find_best_job_match] pick the same posting: the record of
    ai_agent.py has the fields of the record of tools.py with the same
    values, but for total_jobs_analyzed, and the field reasoning
    besides. *)
Theorem versions_agree_on_normalized_skills
    (skills : list string) (jobs_df : list posting) (d : dict) :
  AiAgent.normalize skills = skills ->
  Tools.find_best_job_match skills jobs_df = Ok d ->
  dict_get "error" d = None ->
  exists d',
    AiAgent.find_best_job_match skills jobs_df = Ok d'
    /\ forall k, k <> "total_jobs_analyzed" -> k <> "reasoning" ->
                 dict_get k d' = dict_get k d.
Proof.
  intros Hnorm Hd Herr.
  pose proof (tools_not_empty _ _ _ Hd Herr) as Hne.
  destruct (tools_best_ranking _ _ _ Hd Herr) as (best & rest & Hr & Hd0).
  destruct (best_fields_other_list best _ (best :: rest) _ Hd0)
    as (d2 & Hd2 & Hsame).
  exists (d2 ++ [("reasoning", VStr (AiAgent.best_reasoning best))]).
  split.
  - unfold AiAgent.find_best_job_match. rewrite Hne, agent_qualifying, Hnorm.
    rewrite (ranking_cons_filter _ _ _ _ Hr).
    fold (ranking skills jobs_df). rewrite Hr, Hd2. reflexivity.
  - intros k Hk1 Hk2. rewrite dict_get_app_other by assumption.
    now apply Hsame.
Qed.

Lemma versions_agree_on_normalized_skills_witness :
  AiAgent.normalize ["python"; "sql"] = ["python"; "sql"]
  /\ exists d d',
       Tools.find_best_job_match ["python"; "sql"]
                                 [line_cook; python_developer] = Ok d
       /\ AiAgent.find_best_job_match ["python"; "sql"]
                                      [line_cook; python_developer] = Ok d'
       /\ dict_get "job_title" d' = dict_get "job_title" d.
Proof.
  split; [reflexivity |].
  assert (Hbest : exists d,
             Tools.find_best_job_match ["python"; "sql"]
                                       [line_cook; python_developer] = Ok d
             /\ dict_get "error" d = None).
  { eexists. split; [vm_compute; reflexivity | reflexivity]. }
  destruct Hbest as (d & Hd & Herr).
  destruct (versions_agree_on_normalized_skills
              ["python"; "sql"] [line_cook; python_developer] d
              eq_refl Hd Herr) as (d' & Hd' & Hsame).
  exists d, d'. split; [exact Hd |]. split; [exact Hd' |].
  apply Hsame; discriminate.
Defined.

(** ** More on the alternatives *)

Lemma tools_alternatives_listed (skills : list string)
    (jobs_df : list posting) (top_n : Z) (out : list dict) :
  Tools.find_alternative_matches skills jobs_df top_n = Ok out ->
  Forall2 (listed_as Tools.alternative (map PyStr.lower skills))
          (take_upto top_n (ranking (map PyStr.lower skills) jobs_df)) out.
Proof.
  unfold Tools.find_alternative_matches.
  destruct (is_empty jobs_df || is_empty skills) eqn:Hempty.
  - intros [= <-].
    assert (Hno : no_match (map PyStr.lower skills) jobs_df).
    { apply orb_true_iff in Hempty as [H | H]; apply is_empty_nil in H.
      - subst jobs_df. apply no_match_nil.
      - subst skills. apply no_skills_no_match. }
    rewrite (no_match_ranking _ _ Hno), take_upto_nil. constructor.
  - destruct (fold_left (alternative_row Tools.alternative
                                         (map PyStr.lower skills))
                        (iterrows jobs_df) (Ok [])) as [js | e] eqn:Hloop;
      cbn [bind]; [| discriminate].
    intros [= <-].
    apply (alternatives_ranked _ _ tools_alternative_score _ _ _ Hloop).
Qed.

Lemma agent_alternatives_listed (skills : list string)
    (jobs_df : list posting) (top_n : Z) (out : list dict) :
  AiAgent.find_alternative_matches skills jobs_df top_n = Ok out ->
  Forall2 (listed_as AiAgent.alternative (AiAgent.normalize skills))
          (take_upto top_n (ranking (AiAgent.normalize skills) jobs_df)) out.
Proof.
  unfold AiAgent.find_alternative_matches.
  destruct (is_empty jobs_df || is_empty skills) eqn:Hempty.
  - intros [= <-].
    assert (Hno : no_match (AiAgent.normalize skills) jobs_df).
    { apply orb_true_iff in Hempty as [H | H]; apply is_empty_nil in H.
      - subst jobs_df. apply no_match_nil.
      - subst skills. apply no_skills_no_match. }
    rewrite (no_match_ranking _ _ Hno), take_upto_nil. constructor.
  - destruct (fold_left (alternative_row AiAgent.alternative
                                         (AiAgent.normalize skills))
                        (iterrows jobs_df) (Ok [])) as [js | e] eqn:Hloop;
      cbn [bind]; [| discriminate].
    intros [= <-].
    apply (alternatives_ranked _ _ agent_alternative_score _ _ _ Hloop).
Qed.

Lemma take_upto_length {A : Type} (n : Z) (l : list A) :
  List.length (take_upto n l)
  = if (0 <=? n)%Z then Nat.min (Z.to_nat n) (List.length l)
    else List.length l - Z.to_nat (- n).
Proof.
  unfold take_upto. destruct (0 <=? n)%Z; rewrite length_firstn; lia.
Qed.

Lemma ranking_length (skills : list string) (jobs_df : list posting) :
  List.length (ranking skills jobs_df)
  = List.length (filter positive (scored skills jobs_df)).
Proof. unfold ranking. apply sort_desc_length. Qed.

(** X8: the number of alternatives returned: with [q] postings of positive
    score, the smaller of [top_n] and [q] when [top_n] is not negative;
    for a negative [top_n] the slice drops the last [- top_n] of them
    instead, and [q + top_n] are returned (none when that is negative). *)
Theorem alternatives_count
    (skills : list string) (jobs_df : list posting) (top_n : Z) :
  let cut (q : nat) :=
    if (0 <=? top_n)%Z then Nat.min (Z.to_nat top_n) q
    else q - Z.to_nat (- top_n) in
  (forall out,
      Tools.find_alternative_matches skills jobs_df top_n = Ok out ->
      List.length out
      = cut (List.length
               (filter positive (scored (map PyStr.lower skills) jobs_df))))
  /\ (forall out,
         AiAgent.find_alternative_matches skills jobs_df top_n = Ok out ->
         List.length out
         = cut (List.length
                  (filter positive
                          (scored (AiAgent.normalize skills) jobs_df)))).
Proof.
  intros cut. split; intros out Hout.
  - rewrite <- (Forall2_same_length _ _ _
                  (tools_alternatives_listed _ _ _ _ Hout)).
    rewrite take_upto_length, ranking_length. reflexivity.
  - rewrite <- (Forall2_same_length _ _ _
                  (agent_alternatives_listed _ _ _ _ Hout)).
    rewrite take_upto_length, ranking_length. reflexivity.
Qed.

Example negative_top_n_drops_the_last :
  exists d,
    Tools.find_alternative_matches
      ["python"; "sql"] [line_cook; sql_analyst; python_developer] (-1)
    = Ok [d]
    /\ dict_get "job_title" d = Some (VStr "SQL Python Analyst").
Proof. eexists. split; reflexivity. Qed.

Lemma firstn_incl {A : Type} (n : nat) (l : list A) (x : A) :
  In x (firstn n l) -> In x l.
Proof.
  revert n. induction l as [| y l IH]; intros n; destruct n; cbn [firstn In];
    try contradiction. intros [-> | H]; [now left | right; eauto].
Qed.

Lemma take_upto_incl {A : Type} (n : Z) (l : list A) (x : A) :
  In x (take_upto n l) -> In x l.
Proof. unfold take_upto. destruct (0 <=? n)%Z; apply firstn_incl. Qed.

Lemma firstn_sorted {A : Type} (R : A -> A -> Prop) (n : nat) (l : list A) :
  StronglySorted R l -> StronglySorted R (firstn n l).
Proof.
  intros H. revert n. induction H as [| x l Hs IH Hall]; intros n;
    destruct n; cbn [firstn]; try constructor; auto.
  rewrite Forall_forall in Hall |- *. intros y Hy.
  apply Hall. eapply firstn_incl; eassumption.
Qed.

Lemma take_upto_sorted {A : Type} (R : A -> A -> Prop) (n : Z) (l : list A) :
  StronglySorted R l -> StronglySorted R (take_upto n l).
Proof. unfold take_upto. destruct (0 <=? n)%Z; apply firstn_sorted. Qed.

(** An order carried along two lists that are related element by
    element. *)
Lemma sorted_related {A B : Type} (R : A -> B -> Prop)
    (RA : A -> A -> Prop) (RB : B -> B -> Prop)
    (l : list A) (m : list B) :
  (forall a a' b b', R a b -> R a' b' -> RA a a' -> RB b b') ->
  Forall2 R l m -> StronglySorted RA l -> StronglySorted RB m.
Proof.
  intros Hcarry H. induction H as [| a b l m Hab Hlm IH]; intros Hs;
    [constructor |].
  inversion Hs as [| ? ? Hs' Hall]; subst. constructor; [auto |].
  clear - Hcarry Hab Hlm Hall.
  induction Hlm as [| a' b' l m Hab' Hlm IH]; [constructor |].
  inversion Hall; subst. constructor; eauto.
Qed.

Lemma tools_alternative_fields (job : posting) (info : score_info)
    (d : dict) :
  Tools.alternative job info = Ok d ->
  dict_get "match_score" d = Some (VInt (score info))
  /\ dict_get "matched_skills" d = Some (VList (matched_skills info))
  /\ Ok (dict_get "job_title" d)
     = (v <- getitem "job_title" (job_title job) ;; Ok (Some v)).
Proof.
  destruct job as [title company loc sal descr]. unfold Tools.alternative.
  cbn [job_title company_name location salary].
  destruct title; destruct company; destruct loc;
    cbn [getitem bind]; intros H; try discriminate H;
    injection H as <-; repeat split.
Qed.

Lemma agent_alternative_fields (job : posting) (info : score_info)
    (d : dict) :
  AiAgent.alternative job info = Ok d ->
  dict_get "match_score" d = Some (VInt (score info))
  /\ dict_get "matched_skills" d = Some (VList (matched_skills info))
  /\ Ok (dict_get "job_title" d)
     = (v <- getitem "job_title" (job_title job) ;; Ok (Some v)).
Proof.
  destruct job as [title company loc sal descr]. unfold AiAgent.alternative.
  cbn [job_title company_name location salary].
  destruct title; destruct company; destruct loc;
    cbn [getitem bind]; intros H; try discriminate H;
    injection H as <-; repeat split.
Qed.

Section RankedAlternatives.

Variable alternative : posting -> score_info -> result dict.
Variable used : list string.
Variable jobs_df : list posting.

Hypothesis alternative_fields :
  forall job info d,
    alternative job info = Ok d ->
    dict_get "match_score" d = Some (VInt (score info))
    /\ dict_get "matched_skills" d = Some (VList (matched_skills info))
    /\ Ok (dict_get "job_title" d)
       = (v <- getitem "job_title" (job_title job) ;; Ok (Some v)).

Lemma listed_alternatives (top_n : Z) (out : list dict) :
  Forall2 (listed_as alternative used)
          (take_upto top_n (ranking used jobs_df)) out ->
  StronglySorted (fun a b => (match_score_of b <= match_score_of a)%Z) out
  /\ Forall (fun d =>
               exists job,
                 In job jobs_df
                 /\ (0 < score (calculate_job_score job used))%Z
                 /\ dict_get "match_score" d
                    = Some (VInt (score (calculate_job_score job used)))
                 /\ dict_get "matched_skills" d
                    = Some (VList (matched_skills
                                     (calculate_job_score job used)))
                 /\ Ok (dict_get "job_title" d)
                    = (v <- getitem "job_title" (job_title job) ;;
                       Ok (Some v)))
            out.
Proof.
  intros Hlisted.
  set (here := fun e : job_score =>
                 In (js_job_data e) jobs_df
                 /\ (0 < js_score e)%Z
                 /\ js_score e
                    = score (calculate_job_score (js_job_data e) used)).
  assert (Hall : Forall here (take_upto top_n (ranking used jobs_df))).
  { apply Forall_forall. intros e He. apply take_upto_incl in He.
    apply ranking_In in He as [He Hpos].
    destruct (scored_In _ _ _ He) as (Hjob & Hs & _). now repeat split. }
  pose proof (Forall2_and_left _ _ _ _ Hall Hlisted) as Hboth.
  split.
  - apply (sorted_related
             (fun a b => here a /\ listed_as alternative used a b)
             rank_before
             (fun a b => (match_score_of b <= match_score_of a)%Z)
             (take_upto top_n (ranking used jobs_df)) out);
      [| exact Hboth | apply take_upto_sorted, ranking_sorted].
    intros a a' b b' [(_ & _ & Hs) Hd] [(_ & _ & Hs') Hd'] Hr.
    destruct (alternative_fields _ _ _ Hd) as (H1 & _).
    destruct (alternative_fields _ _ _ Hd') as (H1' & _).
    unfold match_score_of. rewrite H1, H1', <- Hs, <- Hs'.
    unfold rank_before, before in Hr. lia.
  - clear Hlisted Hall.
    induction Hboth as [| e d l m [(Hjob & Hpos & Hs) Hd] _ IH];
      constructor; [| exact IH].
    destruct (alternative_fields _ _ _ Hd) as (H1 & H2 & H3).
    exists (js_job_data e). rewrite Hs in Hpos. now repeat split.
Qed.

End RankedAlternatives.

(** X9: the alternatives are in the order of their scores, the highest
    first, and each of them is the dictionary of a posting of the table
    that scores above 0, with the score, the matched skills and the title
    of that posting. *)
Theorem alternatives_are_ranked_matches
    (skills : list string) (jobs_df : list posting) (top_n : Z) :
  let ranked_matches (used : list string) (out : list dict) :=
    StronglySorted (fun a b => (match_score_of b <= match_score_of a)%Z) out
    /\ Forall (fun d =>
                 exists job,
                   In job jobs_df
                   /\ (0 < score (calculate_job_score job used))%Z
                   /\ dict_get "match_score" d
                      = Some (VInt (score (calculate_job_score job used)))
                   /\ dict_get "matched_skills" d
                      = Some (VList (matched_skills
                                       (calculate_job_score job used)))
                   /\ Ok (dict_get "job_title" d)
                      = (v <- getitem "job_title" (job_title job) ;;
                         Ok (Some v)))
              out in
  (forall out,
      Tools.find_alternative_matches skills jobs_df top_n = Ok out ->
      ranked_matches (map PyStr.lower skills) out)
  /\ (forall out,
         AiAgent.find_alternative_matches skills jobs_df top_n = Ok out ->
         ranked_matches (AiAgent.normalize skills) out).
Proof.
  intros ranked_matches. split; intros out Hout.
  - apply (listed_alternatives Tools.alternative _ _
             tools_alternative_fields top_n).
    now apply tools_alternatives_listed.
  - apply (listed_alternatives AiAgent.alternative _ _
             agent_alternative_fields top_n).
    now apply agent_alternatives_listed.
Qed.

Lemma agent_alternative_vs_best (best : job_score) (l : list job_score)
    (info : score_info) (d0 d1 : dict) (reasoning : pyval) :
  best_fields best l = Ok d0 ->
  AiAgent.alternative (js_job_data best) info = Ok d1 ->
  score info = js_score best ->
  matched_skills info = js_matched_skills best ->
  forall k, In k shared_fields ->
            dict_get k d1 = dict_get k (d0 ++ [("reasoning", reasoning)]).
Proof.
  destruct best as [index sc matched [title company loc sal descr]].
  destruct info as [sc' matched'].
  unfold best_fields, AiAgent.alternative.
  cbn [js_job_data js_score js_matched_skills job_title company_name
       location salary job_description score matched_skills].
  intros H0 H1 -> ->.
  destruct title; destruct company; destruct loc; destruct descr;
    cbn [getitem bind get_default slice_val] in H0, H1;
    try discriminate H0; try discriminate H1;
    injection H0 as <-; injection H1 as <-;
    intros k Hk; unfold shared_fields in Hk; cbn [In] in Hk;
    repeat (destruct Hk as [<- | Hk]; [reflexivity |]); contradiction.
Qed.

(** X10: in ai_agent.py the first of the alternatives is the best match:
    when a best match is found and at least one alternative is asked for,
    the first alternative has the title, company, location, salary, score
    and matched skills of the best match. *)
Theorem first_alternative_is_best_match
    (skills : list string) (jobs_df : list posting) (top_n : Z)
    (d : dict) (out : list dict) :
  (1 <= top_n)%Z ->
  AiAgent.find_best_job_match skills jobs_df = Ok d ->
  dict_get "error" d = None ->
  AiAgent.find_alternative_matches skills jobs_df top_n = Ok out ->
  exists first rest,
    out = first :: rest
    /\ forall k, In k shared_fields -> dict_get k first = dict_get k d.
Proof.
  intros Hn Hd Herr Hout.
  destruct (agent_best_found _ _ _ Hd Herr)
    as (best & rest & d0 & Hr & Hd0 & ->).
  pose proof (agent_alternatives_listed _ _ _ _ Hout) as Hlisted.
  rewrite Hr in Hlisted. unfold take_upto in Hlisted.
  assert (H0 : (0 <=? top_n)%Z = true) by (apply Z.leb_le; lia).
  rewrite H0 in Hlisted.
  destruct (Z.to_nat top_n) as [| n] eqn:Hnat; [lia |].
  cbn [firstn] in Hlisted.
  inversion Hlisted as [| ? first ? out' Hfirst _]; subst.
  exists first, out'. split; [reflexivity |].
  assert (Hin : In best (ranking (AiAgent.normalize skills) jobs_df))
    by (rewrite Hr; now left).
  apply ranking_In in Hin as [Hin _].
  destruct (scored_In _ _ _ Hin) as (_ & Hs & Hm).
  apply (agent_alternative_vs_best best _ _ d0 first _ Hd0 Hfirst);
    now symmetry.
Qed.

Lemma first_alternative_is_best_match_witness :
  exists d first rest,
    AiAgent.find_best_job_match
      ["Python"; " sql"] [line_cook; sql_analyst; python_developer] = Ok d
    /\ AiAgent.find_alternative_matches
         ["Python"; " sql"] [line_cook; sql_analyst; python_developer] 5
       = Ok (first :: rest)
    /\ dict_get "job_title" first = dict_get "job_title" d
    /\ dict_get "job_title" d = Some (VStr "SQL Python Analyst").
Proof.
  assert (Hbest : exists d,
             AiAgent.find_best_job_match
               ["Python"; " sql"] [line_cook; sql_analyst; python_developer]
             = Ok d
             /\ dict_get "error" d = None
             /\ dict_get "job_title" d = Some (VStr "SQL Python Analyst")).
  { eexists. split; [vm_compute; reflexivity |]. split; reflexivity. }
  assert (Halt : exists out,
             AiAgent.find_alternative_matches
               ["Python"; " sql"] [line_cook; sql_analyst; python_developer] 5
             = Ok out).
  { eexists. vm_compute. reflexivity. }
  destruct Hbest as (d & Hd & Herr & Htitle).
  destruct Halt as (out & Hout).
  destruct (first_alternative_is_best_match
              ["Python"; " sql"] [line_cook; sql_analyst; python_developer]
              5 d out ltac:(lia) Hd Herr Hout) as (first & rest & Heq & Hsame).
  exists d, first, rest. split; [exact Hd |].
  split; [now rewrite Hout, Heq |].
  split; [apply Hsame; now left | exact Htitle].
Defined.

(** In tools.py the best match is searched with the skills as they are and
    the alternatives with the skills lowered: a skill with a capital finds
    alternatives and no best match. *)
Example tools_best_match_is_case_sensitive :
  Tools.find_best_job_match ["Python"] [python_developer]
  = Ok Tools.no_matching_jobs
  /\ exists d, Tools.find_alternative_matches ["Python"] [python_developer] 5
               = Ok [d].
Proof. split; [reflexivity | eexists; reflexivity]. Qed.

(** ** More on the demand analyzer *)

Lemma fromkeys_step_In (seen : list string) (x y : string) :
  In y (fromkeys_step seen x) <-> In y seen \/ y = x.
Proof.
  unfold fromkeys_step. destruct (in_list x seen) eqn:Hx.
  - apply in_list_In in Hx. split; [now left |].
    intros [H | ->]; assumption.
  - rewrite in_app_iff. cbn [In]. intuition congruence.
Qed.

Lemma fromkeys_step_NoDup (seen : list string) (x : string) :
  NoDup seen -> NoDup (fromkeys_step seen x).
Proof.
  intros Hnd. unfold fromkeys_step. destruct (in_list x seen) eqn:Hx;
    [assumption |].
  assert (Hnot : ~ In x seen).
  { intros H. apply in_list_In in H. congruence. }
  clear Hx. induction Hnd as [| y l Hy Hnd IH]; cbn [app].
  - constructor; [intros [] | constructor].
  - constructor.
    + rewrite in_app_iff. cbn [In]. intros [H | [H | []]];
        [contradiction | subst; apply Hnot; now left].
    + apply IH. intros H. apply Hnot. now right.
Qed.

Lemma fromkeys_fold_In (l seen : list string) (y : string) :
  In y (fold_left fromkeys_step l seen) <-> In y seen \/ In y l.
Proof.
  revert seen. induction l as [| x l IH]; intros seen; cbn [fold_left In].
  - tauto.
  - rewrite IH, fromkeys_step_In. intuition congruence.
Qed.

Lemma fromkeys_fold_NoDup (l seen : list string) :
  NoDup seen -> NoDup (fold_left fromkeys_step l seen).
Proof.
  revert seen. induction l as [| x l IH]; intros seen Hnd; cbn [fold_left];
    [assumption |]. now apply IH, fromkeys_step_NoDup.
Qed.

Lemma fromkeys_In (l : list string) (y : string) :
  In y (fromkeys l) <-> In y l.
Proof. unfold fromkeys. rewrite fromkeys_fold_In. cbn [In]. tauto. Qed.

Lemma fromkeys_NoDup (l : list string) : NoDup (fromkeys l).
Proof. apply fromkeys_fold_NoDup. constructor. Qed.

Lemma dict_set_keys {V : Type} (k : string) (v : V) (d : list (string * V)) :
  map fst (dict_set k v d) = fromkeys_step (map fst d) k.
Proof.
  unfold fromkeys_step, in_list.
  induction d as [| [k' v'] d IH]; cbn [dict_set map fst existsb app];
    [reflexivity |].
  destruct (String.eqb k k') eqn:Hk; cbn [map fst orb].
  - apply String.eqb_eq in Hk. now subst.
  - rewrite IH. destruct (existsb (String.eqb k) (map fst d)); reflexivity.
Qed.

Lemma stats_keys {V : Type} (f : string -> V) (skills : list string)
    (acc : list (string * V)) :
  map fst (fold_left (fun d skill => dict_set skill (f skill) d) skills acc)
  = fold_left fromkeys_step skills (map fst acc).
Proof.
  revert acc. induction skills as [| skill skills IH]; intros acc;
    cbn [fold_left]; [reflexivity |].
  now rewrite IH, dict_set_keys.
Qed.

Lemma stats_get_In {V : Type} (k : string) (v : V) (d : list (string * V)) :
  stats_get k d = Some v -> In k (map fst d).
Proof.
  induction d as [| [k' v'] d IH]; cbn [stats_get map fst In];
    [discriminate |].
  destruct (String.eqb k k') eqn:Hk.
  - apply String.eqb_eq in Hk. now left.
  - intros H. right. now apply IH.
Qed.

Lemma mentions_bounds (skill_lower : string) (jobs_df : list posting) :
  (0 <= mentions skill_lower jobs_df <= Z.of_nat (List.length jobs_df))%Z.
Proof.
  unfold mentions.
  pose proof (filter_length_le
                (fun job => PyStr.str_in skill_lower (stat_text_of job))
                jobs_df). lia.
Qed.

Lemma entry_for_count (jobs_df : list posting) (skill_lower : string) :
  exists count,
    dict_get "jobs_mentioning"
             (entry_for jobs_df (mentions skill_lower jobs_df))
    = Some (VInt count)
    /\ (0 <= count <= Z.of_nat (List.length jobs_df))%Z.
Proof.
  unfold entry_for. destruct jobs_df as [| job jobs_df]; cbn [is_empty].
  - exists 0%Z. split; [reflexivity | cbn; lia].
  - exists (mentions skill_lower (job :: jobs_df)).
    split; [reflexivity | apply mentions_bounds].
Qed.

Section StatisticsShape.

Variable prepare : string -> string.

Lemma skill_statistics_shape (skills : list string)
    (jobs_df : list posting) :
  exists stats,
    skill_statistics prepare skills jobs_df = Ok stats
    /\ map fst stats = fromkeys skills
    /\ NoDup (map fst stats)
    /\ (forall k, In k (map fst stats) <-> In k skills)
    /\ (forall k, ~ In k skills -> stats_get k stats = None)
    /\ (forall k entry,
           stats_get k stats = Some entry ->
           In k skills
           /\ exists count,
                dict_get "jobs_mentioning" entry = Some (VInt count)
                /\ (0 <= count <= Z.of_nat (List.length jobs_df))%Z).
Proof.
  unfold skill_statistics. rewrite stats_loop. eexists.
  split; [reflexivity |].
  assert (Hkeys :
            map fst
                (fold_left
                   (fun d skill =>
                      dict_set skill
                        (entry_for jobs_df (mentions (prepare skill) jobs_df))
                        d)
                   skills [])
            = fromkeys skills).
  { apply (stats_keys
             (fun skill =>
                entry_for jobs_df (mentions (prepare skill) jobs_df))). }
  split; [exact Hkeys |]. rewrite Hkeys.
  split; [apply fromkeys_NoDup |].
  split; [intros k; apply fromkeys_In |].
  split.
  - intros k Hk. now rewrite stats_lookup_kept.
  - intros k entry Hget.
    assert (Hin : In k skills).
    { apply fromkeys_In. rewrite <- Hkeys. eapply stats_get_In; eassumption. }
    split; [exact Hin |].
    rewrite (stats_lookup prepare jobs_df skills [] k Hin) in Hget.
    injection Hget as <-. apply entry_for_count.
Qed.

End StatisticsShape.

(** X11: the statistics have one entry for each distinct skill of the
    list, in the order of the first occurrences, and none for any other
    string; the count of an entry lies between 0 and the number of rows of
    the table. Nothing is raised. *)
Theorem skill_statistics_has_one_entry_per_skill
    (skills : list string) (jobs_df : list posting) :
  let well_formed (stats : list (string * dict)) :=
    map fst stats = fromkeys skills
    /\ NoDup (map fst stats)
    /\ (forall k, In k (map fst stats) <-> In k skills)
    /\ (forall k, ~ In k skills -> stats_get k stats = None)
    /\ (forall k entry,
           stats_get k stats = Some entry ->
           In k skills
           /\ exists count,
                dict_get "jobs_mentioning" entry = Some (VInt count)
                /\ (0 <= count <= Z.of_nat (List.length jobs_df))%Z) in
  (exists stats,
      Tools_get_skill_statistics skills jobs_df = Ok stats
      /\ well_formed stats)
  /\ (exists stats,
         AiAgent_get_skill_statistics skills jobs_df = Ok stats
         /\ well_formed stats).
Proof.
  intros well_formed. split; apply skill_statistics_shape.
Qed.

Example statistics_of_repeated_skills :
  exists e1 e2,
    Tools_get_skill_statistics ["SQL"; "cobol"; "SQL"]
                               [sql_analyst; line_cook]
    = Ok [("SQL", e1); ("cobol", e2)]
    /\ dict_get "jobs_mentioning" e1 = Some (VInt 1)
    /\ dict_get "jobs_mentioning" e2 = Some (VInt 0).
Proof.
  do 2 eexists. split; [vm_compute; reflexivity |]. split; reflexivity.
Qed.

(** X12: the statistics do not depend on the case of the letters of a
    skill: two skills of the list that are equal once lowered have equal
    entries. *)
Theorem skill_statistics_ignore_case
    (skills : list string) (jobs_df : list posting) (s1 s2 : string) :
  In s1 skills -> In s2 skills ->
  PyStr.lower s1 = PyStr.lower s2 ->
  (exists stats entry,
      Tools_get_skill_statistics skills jobs_df = Ok stats
      /\ stats_get s1 stats = Some entry
      /\ stats_get s2 stats = Some entry)
  /\ (exists stats entry,
         AiAgent_get_skill_statistics skills jobs_df = Ok stats
         /\ stats_get s1 stats = Some entry
         /\ stats_get s2 stats = Some entry).
Proof.
  intros H1 H2 Heq. split.
  - destruct (skill_statistics_lookup PyStr.lower jobs_df skills s1 H1)
      as (stats & Hstats & Hget1).
    destruct (skill_statistics_lookup PyStr.lower jobs_df skills s2 H2)
      as (stats' & Hstats' & Hget2).
    unfold Tools_get_skill_statistics. rewrite Hstats in Hstats' |- *.
    injection Hstats' as <-.
    eexists. eexists. split; [reflexivity |]. split; [exact Hget1 |].
    rewrite Hget2. cbv beta. now rewrite Heq.
  - set (prepare := fun skill => PyStr.strip (PyStr.lower skill)).
    destruct (skill_statistics_lookup prepare jobs_df skills s1 H1)
      as (stats & Hstats & Hget1).
    destruct (skill_statistics_lookup prepare jobs_df skills s2 H2)
      as (stats' & Hstats' & Hget2).
    unfold AiAgent_get_skill_statistics. fold prepare.
    rewrite Hstats in Hstats' |- *. injection Hstats' as <-.
    eexists. eexists. split; [reflexivity |]. split; [exact Hget1 |].
    rewrite Hget2. unfold prepare. now rewrite Heq.
Qed.

Lemma skill_statistics_ignore_case_witness :
  In "SQL" ["SQL"; "sql"] /\ In "sql" ["SQL"; "sql"]
  /\ PyStr.lower "SQL" = PyStr.lower "sql"
  /\ exists stats entry,
       Tools_get_skill_statistics ["SQL"; "sql"] [sql_analyst; line_cook]
       = Ok stats
       /\ stats_get "SQL" stats = Some entry
       /\ stats_get "sql" stats = Some entry.
Proof.
  assert (H1 : In "SQL" ["SQL"; "sql"]) by (now left).
  assert (H2 : In "sql" ["SQL"; "sql"]) by (right; now left).
  split; [exact H1 |]. split; [exact H2 |]. split; [reflexivity |].
  exact (proj1 (skill_statistics_ignore_case
                  ["SQL"; "sql"] [sql_analyst; line_cook] "SQL" "sql"
                  H1 H2 eq_refl)).
Defined.

(** ** More on the validator *)

Lemma split_from_length_lower (s cur cur' : string) :
  PyStr.truthy cur = PyStr.truthy cur' ->
  List.length (PyStr.split_from cur' (PyStr.lower s))
  = List.length (PyStr.split_from cur s).
Proof.
  revert cur cur'. induction s as [| c s IH]; intros cur cur' Hcur;
    cbn [PyStr.lower PyStr.split_from].
  - rewrite Hcur. now destruct (PyStr.truthy cur').
  - rewrite lower_char_space. destruct (PyStr.is_space c).
    + rewrite Hcur. destruct (PyStr.truthy cur'); cbn [List.length];
        now rewrite (IH EmptyString EmptyString).
    + apply IH. now destruct cur; destruct cur'.
Qed.

Lemma split_length_lower (s : string) :
  List.length (PyStr.split (PyStr.lower s)) = List.length (PyStr.split s).
Proof. now apply split_from_length_lower. Qed.

(** X13: the validation does not depend on the case of the letters: the
    lowered text gets the record of the text. *)
Theorem validate_ignores_case (resume_text : string) :
  validate_resume_text (PyStr.lower resume_text)
  = validate_resume_text resume_text.
Proof.
  unfold validate_resume_text.
  rewrite !validate_guard, all_space_lower.
  destruct (all_space resume_text); [reflexivity |].
  now rewrite split_length_lower, lower_idem.
Qed.

Lemma split_from_started (s cur : string) :
  PyStr.truthy cur = true -> 1 <= List.length (PyStr.split_from cur s).
Proof.
  revert cur. induction s as [| c s IH]; intros cur Hcur;
    cbn [PyStr.split_from]; rewrite ?Hcur.
  - cbn. lia.
  - destruct (PyStr.is_space c); [cbn [List.length]; lia |].
    apply IH. now destruct cur.
Qed.

Lemma split_from_some_word (s cur : string) :
  all_space s = false -> 1 <= List.length (PyStr.split_from cur s).
Proof.
  revert cur. induction s as [| c s IH]; intros cur Hs;
    cbn [all_space] in Hs; [discriminate |].
  cbn [PyStr.split_from]. destruct (PyStr.is_space c); cbn [andb] in Hs.
  - destruct (PyStr.truthy cur); [cbn [List.length]; lia | now apply IH].
  - apply split_from_started. now destruct cur.
Qed.

Lemma count_in_fold (text : string) (l : list string) (n : Z) :
  (n <= fold_left (fun n x => if PyStr.str_in x text then (n + 1)%Z else n)
                  l n
   <= n + Z.of_nat (List.length l))%Z.
Proof.
  revert n. induction l as [| x l IH]; intros n;
    cbn [fold_left List.length]; [lia |].
  destruct (PyStr.str_in x text).
  - specialize (IH (n + 1)%Z). lia.
  - specialize (IH n). lia.
Qed.

Lemma count_in_bounds (text : string) (l : list string) :
  (0 <= count_in text l <= Z.of_nat (List.length l))%Z.
Proof. unfold count_in. pose proof (count_in_fold text l 0). lia. Qed.

Lemma filter_subseq {A : Type} (f : A -> bool) (l : list A) :
  subseq (filter f l) l.
Proof.
  induction l as [| x l IH]; cbn [filter]; [constructor |].
  destruct (f x); now constructor.
Qed.

(** X14: the record of a text that is not empty: it has at least one word;
    the sections found are among the four expected, in their order; between
    0 and 6 indicators are counted; and the warnings say what the numbers
    say: short below 50 words, long above 2000, missing sections below two
    sections, no technical skill for no indicator. *)
Theorem validate_record_of_text (resume_text : string) :
  all_space resume_text = false ->
  exists word_count sections mentions warnings,
    validate_resume_text resume_text
    = [ ("valid", VBool true);
        ("word_count", VInt word_count);
        ("sections_found", VList sections);
        ("tech_indicators", VInt mentions);
        ("issues", VList []);
        ("warnings", VList warnings) ]
    /\ (1 <= word_count)%Z
    /\ subseq sections expected_sections
    /\ (0 <= mentions <= 6)%Z
    /\ (In too_short warnings <-> (word_count < 50)%Z)
    /\ (In too_long warnings <-> (2000 < word_count)%Z)
    /\ (In missing_sections warnings <-> List.length sections < 2)
    /\ (In no_tech warnings <-> mentions = 0%Z)
    /\ (forall w, In w warnings ->
                  In w [too_short; too_long; missing_sections; no_tech]).
Proof.
  intros H. unfold validate_resume_text. rewrite validate_guard, H.
  set (wc := Z.of_nat (List.length (PyStr.split resume_text))).
  set (sections :=
         filter (fun section =>
                   PyStr.str_in section (PyStr.lower resume_text))
                expected_sections).
  set (mentions := count_in (PyStr.lower resume_text) tech_indicators).
  do 4 eexists. split; [reflexivity |].
  assert (Hwc : (1 <= wc)%Z).
  { unfold wc, PyStr.split.
    pose proof (split_from_some_word resume_text EmptyString H). lia. }
  assert (Hm : (0 <= mentions <= 6)%Z)
    by (unfold mentions; apply (count_in_bounds _ tech_indicators)).
  split; [exact Hwc |]. split; [apply filter_subseq |].
  split; [exact Hm |].
  destruct (wc <? 50)%Z eqn:H50;
    [apply Z.ltb_lt in H50 | apply Z.ltb_ge in H50];
    (destruct (2000 <? wc)%Z eqn:H2000;
     [apply Z.ltb_lt in H2000 | apply Z.ltb_ge in H2000]);
    (destruct (List.length sections <? 2)%nat eqn:Hsec;
     [apply Nat.ltb_lt in Hsec | apply Nat.ltb_ge in Hsec]);
    (destruct (mentions =? 0)%Z eqn:Hzero;
     [apply Z.eqb_eq in Hzero | apply Z.eqb_neq in Hzero]);
    cbn [app In];
    unfold too_short, too_long, missing_sections, no_tech;
    repeat split; intros; try lia;
    repeat match goal with
           | H : _ \/ _ |- _ => destruct H
           | H : False |- _ => destruct H
           | H : _ = _ :> string |- _ => first [discriminate H | subst]
           end;
    try lia; cbn [In]; auto 6.
Qed.

Lemma validate_record_of_text_witness :
  all_space "Python developer with experience" = false
  /\ exists word_count sections mentions warnings,
       validate_resume_text "Python developer with experience"
       = [ ("valid", VBool true);
           ("word_count", VInt word_count);
           ("sections_found", VList sections);
           ("tech_indicators", VInt mentions);
           ("issues", VList []);
           ("warnings", VList warnings) ]
       /\ (1 <= word_count)%Z.
Proof.
  split; [reflexivity |].
  destruct (validate_record_of_text "Python developer with experience"
                                    eq_refl)
    as (wc & sections & mentions & warnings & Hrec & Hwc & _).
  exists wc, sections, mentions, warnings. split; [exact Hrec | exact Hwc].
Defined.

(** ** The extractor with the fixed vocabulary *)

Lemma found_loop (text : string) (l acc : list string) :
  fold_left (found_step text) l acc
  = acc ++ map proper_case (filter (fun skill => PyStr.str_in skill text) l).
Proof.
  revert acc. induction l as [| skill l IH]; intros acc;
    cbn [fold_left filter map].
  - now rewrite app_nil_r.
  - rewrite IH. unfold found_step.
    destruct (PyStr.str_in skill text); cbn [map]; [| reflexivity].
    now rewrite <- app_assoc.
Qed.

(** Nothing is removed from a list without repeats. *)
Lemma fromkeys_fold_NoDup_id (l seen : list string) :
  NoDup (seen ++ l) -> fold_left fromkeys_step l seen = seen ++ l.
Proof.
  revert seen. induction l as [| x l IH]; intros seen Hnd; cbn [fold_left].
  - now rewrite app_nil_r.
  - assert (Hx : in_list x seen = false).
    { destruct (in_list x seen) eqn:Hx; [| reflexivity].
      apply in_list_In in Hx. apply NoDup_remove_2 in Hnd.
      exfalso. apply Hnd. apply in_or_app. now left. }
    unfold fromkeys_step at 2. rewrite Hx.
    rewrite IH; rewrite <- app_assoc; [reflexivity | exact Hnd].
Qed.

Lemma fromkeys_NoDup_id (l : list string) : NoDup l -> fromkeys l = l.
Proof. intros H. unfold fromkeys. now rewrite fromkeys_fold_NoDup_id. Qed.

Lemma NoDup_map_filter {A B : Type} (g : A -> B) (f : A -> bool)
    (l : list A) :
  NoDup (map g l) -> NoDup (map g (filter f l)).
Proof.
  induction l as [| x l IH]; cbn [map filter]; [auto |].
  intros Hnd. inversion Hnd as [| ? ? Hx Hl]; subst.
  destruct (f x); [| now apply IH].
  cbn [map]. constructor; [| now apply IH].
  intros Hin. apply Hx. apply in_map_iff in Hin as [y [Hy Hin]].
  apply filter_In in Hin as [Hin _]. apply in_map_iff. now exists y.
Qed.

(** Every entry of the vocabulary is in lower case, so that each is given
    in title case; no two entries have the same title. *)
Lemma vocabulary_proper_case :
  map proper_case common_skills = map PyText.title common_skills.
Proof. reflexivity. Qed.

Lemma vocabulary_titles_NoDup : NoDup (map PyText.title common_skills).
Proof.
  assert (H : nodup string_dec (map PyText.title common_skills)
              = map PyText.title common_skills)
    by (vm_compute; reflexivity).
  rewrite <- H. apply NoDup_nodup.
Qed.

(** The matcher's normalisation undoes the title case of the entries. *)
Lemma vocabulary_normalized :
  map (fun skill => PyStr.strip (PyStr.lower (PyText.title skill)))
      common_skills
  = common_skills.
Proof. reflexivity. Qed.

Lemma map_filter_fixed {A : Type} (g : A -> A) (f : A -> bool) (l : list A) :
  map g l = l -> map g (filter f l) = filter f l.
Proof.
  induction l as [| x l IH]; cbn [map filter]; [reflexivity |].
  intros [= Hx Hl]. destruct (f x); cbn [map]; [| now apply IH].
  rewrite Hx. f_equal. now apply IH.
Qed.

Lemma map_filter_agree {A B : Type} (g h : A -> B) (f : A -> bool)
    (l : list A) :
  map g l = map h l -> map g (filter f l) = map h (filter f l).
Proof.
  induction l as [| x l IH]; cbn [map filter]; [reflexivity |].
  intros [= Hx Hl]. destruct (f x); cbn [map]; [| now apply IH].
  rewrite Hx. f_equal. now apply IH.
Qed.

Lemma found_in_eq (text : string) :
  found_in text = filter (fun skill => PyStr.str_in skill text) common_skills.
Proof. reflexivity. Qed.

(** The extractor in one expression. *)
Lemma extract_closed_form (resume_text : string) :
  AiAgent_extract_skills_from_resume resume_text
  = firstn 10 (map PyText.title (found_in (PyStr.lower resume_text))).
Proof.
  rewrite found_in_eq. unfold AiAgent_extract_skills_from_resume.
  rewrite found_loop. cbn [app].
  rewrite (map_filter_agree proper_case PyText.title _ _
             vocabulary_proper_case).
  rewrite fromkeys_NoDup_id; [reflexivity |].
  apply NoDup_map_filter, vocabulary_titles_NoDup.
Qed.

Lemma firstn_NoDup {A : Type} (n : nat) (l : list A) :
  NoDup l -> NoDup (firstn n l).
Proof.
  intros H. revert n. induction H as [| x l Hx Hnd IH]; intros n;
    destruct n; cbn [firstn]; try constructor; auto.
  intros Hin. apply Hx. eapply firstn_incl; eassumption.
Qed.

(** X15: the extractor returns the first ten entries of the vocabulary
    that occur in the lowered resume, in the order of the vocabulary and in
    title case: at most ten skills, none twice (removing the repeats
    removes nothing), and the same skills for a text and for the text
    lowered. *)
Theorem extract_skills_first_ten_of_vocabulary (resume_text : string) :
  AiAgent_extract_skills_from_resume resume_text
  = firstn 10 (map PyText.title (found_in (PyStr.lower resume_text)))
  /\ List.length (AiAgent_extract_skills_from_resume resume_text) <= 10
  /\ NoDup (AiAgent_extract_skills_from_resume resume_text)
  /\ (forall skill,
         In skill (AiAgent_extract_skills_from_resume resume_text) ->
         exists entry,
           In entry common_skills
           /\ PyStr.str_in entry (PyStr.lower resume_text) = true
           /\ skill = PyText.title entry)
  /\ (List.length (found_in (PyStr.lower resume_text)) <= 10 ->
      forall entry,
        In entry common_skills ->
        PyStr.str_in entry (PyStr.lower resume_text) = true ->
        In (PyText.title entry)
           (AiAgent_extract_skills_from_resume resume_text))
  /\ AiAgent_extract_skills_from_resume (PyStr.lower resume_text)
     = AiAgent_extract_skills_from_resume resume_text.
Proof.
  rewrite !extract_closed_form, !found_in_eq.
  split; [reflexivity |].
  split; [rewrite length_firstn; lia |].
  split; [apply firstn_NoDup, NoDup_map_filter, vocabulary_titles_NoDup |].
  split; [| split].
  - intros skill Hin. apply firstn_incl in Hin.
    apply in_map_iff in Hin as [entry [<- Hin]].
    apply filter_In in Hin as [Hin Hfound].
    exists entry. split; [exact Hin |]. split; [exact Hfound | reflexivity].
  - intros Hlen entry Hin Hfound.
    rewrite firstn_all2 by (rewrite length_map; exact Hlen).
    apply in_map. apply filter_In. split; assumption.
  - now rewrite lower_idem.
Qed.

Example extract_skills_example :
  AiAgent_extract_skills_from_resume
    "Built REST APIs in JavaScript and PostgreSQL; Docker, Git."
  = ["Javascript"; "Java"; "Sql"; "Postgresql"; "Docker"; "Git"; "Api"].
Proof. reflexivity. Qed.

(** X16: the skills the extractor returns become, once lowered and
    stripped as the matcher does, the entries of the vocabulary they come
    from, each of which occurs in the lowered resume. *)
Theorem normalized_extracted_skills_are_vocabulary_entries
    (resume_text : string) :
  AiAgent.normalize (AiAgent_extract_skills_from_resume resume_text)
  = firstn 10 (found_in (PyStr.lower resume_text))
  /\ forall skill,
       In skill (AiAgent.normalize
                   (AiAgent_extract_skills_from_resume resume_text)) ->
       In skill common_skills
       /\ PyStr.str_in skill (PyStr.lower resume_text) = true.
Proof.
  assert (Heq : AiAgent.normalize
                  (AiAgent_extract_skills_from_resume resume_text)
                = firstn 10 (found_in (PyStr.lower resume_text))).
  { rewrite extract_closed_form, found_in_eq. unfold AiAgent.normalize.
    rewrite <- firstn_map, map_map. f_equal.
    apply map_filter_fixed, vocabulary_normalized. }
  split; [exact Heq |].
  intros skill Hin. rewrite Heq, found_in_eq in Hin.
  apply firstn_incl in Hin. apply filter_In in Hin. exact Hin.
Qed.

Lemma firstn_within {A : Type} (n : nat) (p q : list A) (x : A) :
  List.length p < n -> In x (firstn n (p ++ x :: q)).
Proof.
  revert n. induction p as [| a p IH]; intros n Hlen;
    (destruct n; [cbn [List.length] in Hlen; lia |]);
    cbn [app firstn In]; [now left |].
  right. apply IH. cbn [List.length] in Hlen. lia.
Qed.

Lemma firstn_before {A : Type} (n : nat) (p q : list A) (x y : A) :
  ~ In y p -> In y (firstn n (p ++ x :: q)) -> In x (firstn n (p ++ x :: q)).
Proof.
  revert n. induction p as [| a p IH]; intros n Hy Hin;
    (destruct n; [contradiction |]); cbn [app firstn In] in Hin |- *;
    [now left |].
  right. destruct Hin as [-> | Hin]; [exfalso; apply Hy; now left |].
  apply IH; [| exact Hin]. intros H. apply Hy. now right.
Qed.

Lemma filter_cons_true {A : Type} (f : A -> bool) (x : A) (l : list A) :
  f x = true -> filter f (x :: l) = x :: filter f l.
Proof. intros H. cbn [filter]. now rewrite H. Qed.

Lemma in_map_filter {A B : Type} (g : A -> B) (f : A -> bool) (l : list A)
    (y : B) :
  In y (map g (filter f l)) -> In y (map g l).
Proof.
  intros H. apply in_map_iff in H as [x [<- Hx]].
  apply filter_In in Hx as [Hx _]. now apply in_map.
Qed.

Lemma map_fixed_In {A : Type} (g : A -> A) (l : list A) (x : A) :
  map g l = l -> In x l -> g x = x.
Proof.
  induction l as [| a l IH]; cbn [map In]; [contradiction |].
  intros [= Ha Hl] [-> | Hin]; auto.
Qed.

Section ExtractedParts.

Variable found : string -> bool.

Lemma extracted_early (n : nat) (x : string) (pre post : list string) :
  common_skills = pre ++ x :: post ->
  found x = true ->
  List.length pre < n ->
  In (PyText.title x)
     (firstn n (map PyText.title (filter found common_skills))).
Proof.
  intros -> Hx Hlen.
  rewrite filter_app, map_app, (filter_cons_true _ _ _ Hx). cbn [map].
  apply firstn_within. rewrite length_map.
  pose proof (filter_length_le found pre). lia.
Qed.

Lemma extracted_before (n : nat) (x y : string) (pre post : list string) :
  common_skills = pre ++ x :: post ->
  found x = true ->
  ~ In y (map PyText.title pre) ->
  In y (firstn n (map PyText.title (filter found common_skills))) ->
  In (PyText.title x)
     (firstn n (map PyText.title (filter found common_skills))).
Proof.
  intros -> Hx Hy.
  rewrite filter_app, map_app, (filter_cons_true _ _ _ Hx). cbn [map].
  apply firstn_before. intros H. apply Hy. eapply in_map_filter, H.
Qed.

(** An extracted skill was found under the entry it is the title of. *)
Lemma extracted_found (n : nat) (entry : string) :
  In entry common_skills ->
  In (PyText.title entry)
     (firstn n (map PyText.title (filter found common_skills))) ->
  found entry = true.
Proof.
  intros Hentry Hin. apply firstn_incl in Hin.
  apply in_map_iff in Hin as [v [Hv Hin]].
  apply filter_In in Hin as [Hin Hfound].
  assert (Heq : v = entry).
  { rewrite <- (map_fixed_In _ _ _ vocabulary_normalized Hin).
    rewrite <- (map_fixed_In _ _ _ vocabulary_normalized Hentry).
    cbv beta. now rewrite Hv. }
  now subst.
Qed.

End ExtractedParts.

Lemma vocabulary_at_java :
  common_skills
  = firstn 2 common_skills ++ "java" :: skipn 3 common_skills.
Proof. reflexivity. Qed.

Lemma vocabulary_at_sql :
  common_skills
  = firstn 7 common_skills ++ "sql" :: skipn 8 common_skills.
Proof. reflexivity. Qed.

Lemma vocabulary_has (entry : string) :
  in_list entry common_skills = true -> In entry common_skills.
Proof. apply in_list_In. Qed.

(** X17: an entry of the vocabulary that is a part of another comes with
    it: the skills extracted from a resume have Java whenever they have
    Javascript, and Sql whenever they have Postgresql or Mysql. *)
Theorem extracted_skill_brings_its_parts (resume_text : string) :
  (In "Javascript" (AiAgent_extract_skills_from_resume resume_text) ->
   In "Java" (AiAgent_extract_skills_from_resume resume_text))
  /\ (In "Postgresql" (AiAgent_extract_skills_from_resume resume_text) ->
      In "Sql" (AiAgent_extract_skills_from_resume resume_text))
  /\ (In "Mysql" (AiAgent_extract_skills_from_resume resume_text) ->
      In "Sql" (AiAgent_extract_skills_from_resume resume_text)).
Proof.
  rewrite extract_closed_form, found_in_eq.
  set (found := fun skill => PyStr.str_in skill (PyStr.lower resume_text)).
  split; [| split].
  - intros Hin.
    assert (Hwhole : found "javascript" = true).
    { apply (extracted_found found 10 "javascript");
        [now apply vocabulary_has | exact Hin]. }
    assert (Hpart : found "java" = true).
    { unfold found in *.
      now apply (str_in_trans "java" "javascript"). }
    apply (extracted_early found 10 "java" _ _ vocabulary_at_java Hpart).
    cbn. lia.
  - intros Hin.
    assert (Hwhole : found "postgresql" = true).
    { apply (extracted_found found 10 "postgresql");
        [now apply vocabulary_has | exact Hin]. }
    assert (Hpart : found "sql" = true).
    { unfold found in *.
      now apply (str_in_trans "sql" "postgresql"). }
    apply (extracted_before found 10 "sql" "Postgresql" _ _
             vocabulary_at_sql Hpart); [| exact Hin].
    cbv. intuition discriminate.
  - intros Hin.
    assert (Hwhole : found "mysql" = true).
    { apply (extracted_found found 10 "mysql");
        [now apply vocabulary_has | exact Hin]. }
    assert (Hpart : found "sql" = true).
    { unfold found in *.
      now apply (str_in_trans "sql" "mysql"). }
    apply (extracted_before found 10 "sql" "Mysql" _ _
             vocabulary_at_sql Hpart); [| exact Hin].
    cbv. intuition discriminate.
Qed.

(** ** The extractor that asks the agent *)

Lemma lstrip_lower (s : string) :
  PyStr.lstrip (PyStr.lower s) = PyStr.lower (PyStr.lstrip s).
Proof.
  induction s as [| c s IH]; cbn [PyStr.lower PyStr.lstrip]; [reflexivity |].
  rewrite lower_char_space. now destruct (PyStr.is_space c).
Qed.

Lemma rstrip_lower (s : string) :
  PyStr.rstrip (PyStr.lower s) = PyStr.lower (PyStr.rstrip s).
Proof.
  induction s as [| c s IH]; cbn [PyStr.lower PyStr.rstrip]; [reflexivity |].
  rewrite IH, lower_char_space.
  destruct (PyStr.rstrip s); cbn [PyStr.lower]; [| reflexivity].
  now destruct (PyStr.is_space c).
Qed.

Lemma strip_lower (s : string) :
  PyStr.strip (PyStr.lower s) = PyStr.lower (PyStr.strip s).
Proof. unfold PyStr.strip. now rewrite lstrip_lower, rstrip_lower. Qed.

Lemma rstrip_idem (s : string) :
  PyStr.rstrip (PyStr.rstrip s) = PyStr.rstrip s.
Proof.
  induction s as [| c s IH]; cbn [PyStr.rstrip]; [reflexivity |].
  destruct (PyStr.rstrip s) as [| c' r] eqn:Hr.
  - destruct (PyStr.is_space c) eqn:Hc; [reflexivity |].
    cbn [PyStr.rstrip]. now rewrite Hc.
  - cbn [PyStr.rstrip] in IH |- *. fold (PyStr.rstrip (String c' r)).
    now rewrite IH.
Qed.

Lemma lstrip_rstrip_lstrip (s : string) :
  PyStr.lstrip (PyStr.rstrip (PyStr.lstrip s)) = PyStr.rstrip (PyStr.lstrip s).
Proof.
  induction s as [| c s IH]; cbn [PyStr.lstrip]; [reflexivity |].
  destruct (PyStr.is_space c) eqn:Hc; [exact IH |].
  cbn [PyStr.rstrip].
  destruct (PyStr.rstrip s); rewrite ?Hc; cbn [PyStr.lstrip];
    now rewrite Hc.
Qed.

(** A stripped string has nothing more to strip. *)
Lemma strip_idem (s : string) : PyStr.strip (PyStr.strip s) = PyStr.strip s.
Proof.
  unfold PyStr.strip. now rewrite lstrip_rstrip_lstrip, rstrip_idem.
Qed.

Lemma clean_line_normal (line : string) :
  PyStr.strip (PyStr.lower (PyStr.lower (clean_line line)))
  = PyStr.lower (clean_line line).
Proof.
  rewrite lower_idem, strip_lower. unfold clean_line. now rewrite strip_idem.
Qed.

Section ToolsExtractorFacts.

Variable run_sync : string -> outcome string.
Variable list_of_set : list string -> list string.

Hypothesis set_NoDup : forall l, NoDup (list_of_set l).
Hypothesis set_In : forall l x, In x (list_of_set l) <-> In x l.

Lemma take_upto_NoDup {A : Type} (n : Z) (l : list A) :
  NoDup l -> NoDup (take_upto n l).
Proof. unfold take_upto. destruct (0 <=? n)%Z; apply firstn_NoDup. Qed.

(** X18: the skills read from an answer of the agent: no skill twice, at
    most [top_n] of them for a [top_n] that is not negative, and each the
    lowered, cleaned text of a line of the answer that was kept; they are
    in the form the matcher wants, lowered and stripped, so that its
    normalisation leaves them as they are. *)
Theorem extracted_skills_are_normalized_lines
    (resume_text : string) (top_n : Z) (skills : list string) :
  Tools_extract_skills_from_resume run_sync list_of_set resume_text top_n
  = Returned skills ->
  NoDup skills
  /\ ((0 <= top_n)%Z -> List.length skills <= Z.to_nat top_n)
  /\ (forall skill,
         In skill skills ->
         exists answer line,
           run_sync (extraction_prompt resume_text top_n) = Returned answer
           /\ In line (PyText.split_on newline answer)
           /\ keep_line line = true
           /\ skill = PyStr.lower (clean_line line))
  /\ AiAgent.normalize skills = skills.
Proof.
  unfold Tools_extract_skills_from_resume.
  destruct (run_sync (extraction_prompt resume_text top_n))
    as [answer | message]; [| discriminate].
  intros [= <-].
  assert (Hlines : forall skill,
             In skill (take_upto top_n
                         (list_of_set
                            (map PyStr.lower (parse_skills answer)))) ->
             exists line,
               In line (PyText.split_on newline answer)
               /\ keep_line line = true
               /\ skill = PyStr.lower (clean_line line)).
  { intros skill Hin. apply take_upto_incl in Hin.
    apply (proj1 (set_In _ _)) in Hin.
    apply in_map_iff in Hin as [cleaned [<- Hin]]. unfold parse_skills in Hin.
    apply in_map_iff in Hin as [line [<- Hin]].
    apply filter_In in Hin as [Hin Hkeep]. now exists line. }
  split; [apply take_upto_NoDup, set_NoDup |].
  split; [| split].
  - intros Hn. rewrite take_upto_length.
    assert (H0 : (0 <=? top_n)%Z = true) by now apply Z.leb_le.
    rewrite H0. lia.
  - intros skill Hin. destruct (Hlines skill Hin) as (line & H1 & H2 & H3).
    now exists answer, line.
  - unfold AiAgent.normalize.
    rewrite <- (map_id (take_upto top_n _)) at 2.
    apply map_ext_in. intros skill Hin.
    destruct (Hlines skill Hin) as (line & _ & _ & ->).
    apply clean_line_normal.
Qed.

End ToolsExtractorFacts.

Lemma extracted_skills_are_normalized_lines_witness :
  let run_sync (prompt : string) : outcome string :=
    Returned (String.concat (String newline EmptyString)
                            ["- Python"; "* SQL "; "python"; "x"]) in
  (forall l, NoDup (nodup string_dec l))
  /\ (forall l x, In x (nodup string_dec l) <-> In x l)
  /\ exists skills,
       Tools_extract_skills_from_resume run_sync (nodup string_dec)
                                        "I know Python and SQL" 10
       = Returned skills
       /\ NoDup skills
       /\ AiAgent.normalize skills = skills.
Proof.
  intros run_sync.
  split; [apply NoDup_nodup |]. split; [apply nodup_In |].
  assert (Hrun : exists skills,
             Tools_extract_skills_from_resume run_sync (nodup string_dec)
                                              "I know Python and SQL" 10
             = Returned skills).
  { eexists. vm_compute. reflexivity. }
  destruct Hrun as (skills & Hrun). exists skills.
  destruct (extracted_skills_are_normalized_lines
              run_sync (nodup string_dec)
              (NoDup_nodup string_dec) (nodup_In string_dec)
              "I know Python and SQL" 10 skills Hrun)
    as (Hnd & _ & _ & Hnorm).
  split; [exact Hrun |]. split; [exact Hnd | exact Hnorm].
Defined.

(** ** The safe wrapper *)

Lemma validate_record_of_text_words (resume_text : string) :
  all_space resume_text = false ->
  exists word_count sections mentions warnings,
    validate_resume_text resume_text
    = [ ("valid", VBool true);
        ("word_count", VInt word_count);
        ("sections_found", VList sections);
        ("tech_indicators", VInt mentions);
        ("issues", VList []);
        ("warnings", VList warnings) ]
    /\ (1 <= word_count)%Z.
Proof.
  intros H.
  destruct (validate_other _ H)
    as (wc & sections & mentions & warnings & Hrec & Hwc & _).
  exists wc, sections, mentions, warnings. split; [exact Hrec |].
  rewrite Hwc. unfold PyStr.split.
  pose proof (split_from_some_word resume_text EmptyString H). lia.
Qed.

Lemma extraction_report_answered
    (run_sync : string -> outcome string)
    (list_of_set : list string -> list string)
    (resume_text answer : string)
    (word_count mentions : Z) (sections warnings : list string) :
  run_sync (extraction_prompt resume_text 10) = Returned answer ->
  extraction_report run_sync list_of_set resume_text
    [ ("valid", VBool true);
      ("word_count", VInt word_count);
      ("sections_found", VList sections);
      ("tech_indicators", VInt mentions);
      ("issues", VList []);
      ("warnings", VList warnings) ]
  = let skills :=
      take_upto 10 (list_of_set (map PyStr.lower (parse_skills answer))) in
    Returned [ ("success", VBool true);
               ("skills", VList skills);
               ("skill_count", VInt (Z.of_nat (List.length skills)));
               ("word_count", VInt word_count);
               ("issues", VList []);
               ("warnings", VList warnings) ].
Proof.
  intros Hrun. unfold extraction_report, Tools_extract_skills_from_resume.
  rewrite Hrun. reflexivity.
Qed.

Lemma extraction_report_failed
    (run_sync : string -> outcome string)
    (list_of_set : list string -> list string)
    (resume_text message : string) (validation : dict) :
  run_sync (extraction_prompt resume_text 10) = Raised message ->
  extraction_report run_sync list_of_set resume_text validation
  = Raised message.
Proof.
  intros Hrun. unfold extraction_report, Tools_extract_skills_from_resume.
  now rewrite Hrun.
Qed.

(** X19: [safe_extract_skills] never raises. For a text that is empty or
    white space only it reports the failure of the validation and does not
    depend on the agent; for any other text it reports the failure of the
    agent with its message, as the error and as a processing error among
    the issues, or the success with the skills read from the answer, their
    number and the number of words, which is at least 1. *)
Theorem safe_extract_skills_reports
    (run_sync : string -> outcome string)
    (list_of_set : list string -> list string) (resume_text : string) :
  (all_space resume_text = true ->
   safe_extract_skills run_sync list_of_set resume_text
   = Ok [ ("success", VBool false);
          ("skills", VList []);
          ("issues", VList ["Resume text is empty"]);
          ("warnings", VList []) ])
  /\ (all_space resume_text = false ->
      forall message,
        run_sync (extraction_prompt resume_text 10) = Raised message ->
        exists warnings,
          dict_get "warnings" (validate_resume_text resume_text)
          = Some (VList warnings)
          /\ safe_extract_skills run_sync list_of_set resume_text
             = Ok [ ("success", VBool false);
                    ("skills", VList []);
                    ("error", VStr message);
                    ("issues",
                     VList [("Processing error: " ++ message)%string]);
                    ("warnings", VList warnings) ])
  /\ (all_space resume_text = false ->
      forall answer,
        run_sync (extraction_prompt resume_text 10) = Returned answer ->
        exists word_count warnings,
          dict_get "warnings" (validate_resume_text resume_text)
          = Some (VList warnings)
          /\ (1 <= word_count)%Z
          /\ safe_extract_skills run_sync list_of_set resume_text
             = let skills :=
                 take_upto 10 (list_of_set
                                 (map PyStr.lower (parse_skills answer))) in
               Ok [ ("success", VBool true);
                    ("skills", VList skills);
                    ("skill_count", VInt (Z.of_nat (List.length skills)));
                    ("word_count", VInt word_count);
                    ("issues", VList []);
                    ("warnings", VList warnings) ]).
Proof.
  split; [| split].
  - intros H. unfold safe_extract_skills.
    rewrite (validate_empty _ H). reflexivity.
  - intros H message Hrun.
    destruct (validate_other _ H)
      as (wc & sections & mentions & warnings & Hrec & _).
    exists warnings. unfold safe_extract_skills. rewrite Hrec.
    split; [reflexivity |].
    cbn [item dict_get String.eqb Ascii.eqb Bool.eqb bind truth negb].
    rewrite (extraction_report_failed _ _ _ _ _ Hrun). reflexivity.
  - intros H answer Hrun.
    destruct (validate_record_of_text_words _ H)
      as (wc & sections & mentions & warnings & Hrec & Hwc).
    exists wc, warnings. unfold safe_extract_skills. rewrite Hrec.
    split; [reflexivity |]. split; [exact Hwc |].
    cbn [item dict_get String.eqb Ascii.eqb Bool.eqb bind truth negb].
    rewrite (extraction_report_answered _ _ _ _ _ _ _ _ Hrun). reflexivity.
Qed.
